(** * Payment gateway aggregator: idempotency gate, circuit breaker, handler

    A shallow embedding of the Go service
    ([main.go] with idempotency and circuit breaker and its first
    revision without them, [cache/redis.go], [providers/*.go]) and of the
    part of [github.com/sony/gobreaker] that the handler drives, followed
    by the properties of the resilience layer.

    Conventions.
    - [time.Time] and [time.Duration] are integers counting nanoseconds.
    - A Go [error] value is a term of [error]; [nil] is [None].
    - A Go pointer that may be [nil] is an [option]; the circuit breakers,
      which are mutated through pointers shared by all requests, live in a
      heap indexed by locations.
    - The Redis server, the wall clock, the log and the breaker heap form
      the [World] that every effectful function threads through the monad
      [M]; a Go panic is the [Panic] result of [M].
    - Randomness, network faults and the duration of a provider call are
      inputs ([Entropy], [Net]) read from the [World]. *)

From Stdlib Require Import ZArith Lia Bool List.
From Stdlib Require Import SpecFloat.
From stdpp Require Import base gmap strings pretty.

Local Open Scope string_scope.
Local Open Scope Z_scope.

(** ** Time *)

Definition Time := Z.
Definition Duration := Z.

Definition Millisecond : Duration := 1000000.
Definition Second : Duration := 1000 * Millisecond.
Definition Hour : Duration := 3600 * Second.

(** ** Errors *)

Inductive error : Type :=
| errors_New (text : string)
| fmt_Errorf_w (format : string) (cause : error)
| ErrOpenState
| ErrTooManyRequests
| DeadlineExceeded
| Canceled
| redis_Nil.

(** [err.Error()]; for [fmt.Errorf(format, cause)] the [format] is the text
    in front of the final [%w] (or [%s]). *)
Fixpoint Error (e : error) : string :=
  match e with
  | errors_New text => text
  | fmt_Errorf_w format cause => format +:+ Error cause
  | ErrOpenState => "circuit breaker is open"
  | ErrTooManyRequests => "too many requests"
  | DeadlineExceeded => "context deadline exceeded"
  | Canceled => "context canceled"
  | redis_Nil => "redis: nil"
  end.

(** [err == gobreaker.ErrOpenState]: comparison with the sentinel value. *)
Definition is_ErrOpenState (e : option error) : bool :=
  match e with
  | Some ErrOpenState => true
  | _ => false
  end.

Definition is_nil {A} (p : option A) : bool :=
  match p with
  | None => true
  | Some _ => false
  end.

(** ** Contexts

    A [context.Context] is described by the instant of its deadline, if
    any, and by the instant at which its owner cancels it, if ever. *)

Record Context : Type := {
  deadline : option Time;
  cancelAt : option Time
}.

Definition min_opt (a b : option Time) : option Time :=
  match a, b with
  | Some x, Some y => Some (Z.min x y)
  | Some x, None => Some x
  | None, _ => b
  end.

Definition context_Background : Context :=
  {| deadline := None; cancelAt := None |}.

Definition context_WithTimeout (parent : Context) (now : Time) (d : Duration) : Context :=
  {| deadline := min_opt (deadline parent) (Some (now + d));
     cancelAt := cancelAt parent |}.

(** The instant at which [ctx.Done()] is closed. *)
Definition doneAt (ctx : Context) : option Time :=
  min_opt (cancelAt ctx) (deadline ctx).

(** [ctx.Err()] once the context is done. *)
Definition ctx_Err (ctx : Context) : error :=
  match cancelAt ctx, deadline ctx with
  | Some c, Some d => if c <? d then Canceled else DeadlineExceeded
  | Some _, None => Canceled
  | None, _ => DeadlineExceeded
  end.

(** ** float64 *)

Definition float64 := spec_float.

Definition float64_of_Z (z : Z) : float64 := binary_normalize 53 1024 z 0 false.
Definition f64_div : float64 -> float64 -> float64 := SFdiv 53 1024.
Definition f64_lt : float64 -> float64 -> bool := SFltb.
Definition f64_ge (x y : float64) : bool := SFleb y x.

(** The constants [0.6], [0.10] and [0.80] as binary64 values. *)
Definition f64_0_6 : float64 := S754_finite false 5404319552844595 (-53).
Definition f64_0_10 : float64 := S754_finite false 7205759403792794 (-56).
Definition f64_0_80 : float64 := S754_finite false 7205759403792794 (-53).

(** ** uint32 and uint64 counters *)

Definition u32 (z : Z) : Z := z mod 2 ^ 32.
Definition u64 (z : Z) : Z := z mod 2 ^ 64.

(** ** providers/provider.go: requests, responses, the provider interface *)

Module providers.

Record PaymentRequest : Type := {
  TransactionID : string;
  Amount : float64;
  Currency : string;
  ProviderKey : string
}.

Record PaymentResponse : Type := {
  Status : string;
  ReferenceID : string;
  ProviderName : string;
  IsIdempotent : bool;
  Message : string
}.

Definition set_IsIdempotent (res : PaymentResponse) (b : bool) : PaymentResponse :=
  {| Status := Status res; ReferenceID := ReferenceID res;
     ProviderName := ProviderName res; IsIdempotent := b;
     Message := Message res |}.

(** What one call of [ProcessPayment] produces: the pair of a response
    pointer and an error (either may be [nil]), or a panic. *)
Inductive Outcome : Type :=
| Returns (res : option PaymentResponse) (err : option error)
| Panics (v : string).

(** The draws a mock provider takes from [math/rand] during one call:
    [rand.Intn(600)] and [rand.Float64()]. *)
Record Entropy : Type := {
  rand_Intn_600 : Z;
  rand_Float64 : float64
}.

(** The [PaymentProvider] interface.  An implementation is opaque to the
    aggregator: given the context, the request, the instant of the call
    and its randomness, [process] gives the outcome of the call and how
    long the call took. *)
Record PaymentProvider : Type := {
  Name : string;
  process : Context -> PaymentRequest -> Time -> Entropy -> Outcome * Duration
}.

(** The [select] on [ctx.Done()] and [time.After(delay)] shared by the
    mock providers: [Some d] when the context is done first, after [d]. *)
Definition select_Done (ctx : Context) (now : Time) (delay : Duration) : option Duration :=
  match doneAt ctx with
  | Some t => if t <? now + delay then Some (Z.max 0 (t - now)) else None
  | None => None
  end.

(** providers/mtn.go, first revision (10 percent simulated failures,
    reported in the response only). *)
Definition MTN_Name : string := "MTN_MOMO".

Definition MTN_process (ctx : Context) (req : PaymentRequest) (now : Time)
    (rnd : Entropy) : Outcome * Duration :=
  let delay := (rand_Intn_600 rnd + 200) * Millisecond in
  match select_Done ctx now delay with
  | Some d => (Returns None (Some (ctx_Err ctx)), d)
  | None =>
    if f64_lt (rand_Float64 rnd) f64_0_10 then
      (Returns (Some {| Status := "FAILED";
                        ReferenceID := "N/A";
                        ProviderName := MTN_Name;
                        IsIdempotent := false;
                        Message := "Provider internal server error (simulated 500)" |})
               None, delay)
    else
      (Returns (Some {| Status := "SUCCESS";
                        ReferenceID := "MTN-" +:+ pretty (now + delay);
                        ProviderName := MTN_Name;
                        IsIdempotent := false;
                        Message := "Transaction processed successfully." |})
               None, delay)
  end.

Definition NewMTNProvider : PaymentProvider :=
  {| Name := MTN_Name; process := MTN_process |}.

(** providers/mtn.go, second revision (80 percent simulated failures,
    reported in the response and as an error). *)
Definition MTN_process_2 (ctx : Context) (req : PaymentRequest) (now : Time)
    (rnd : Entropy) : Outcome * Duration :=
  let delay := (rand_Intn_600 rnd + 200) * Millisecond in
  match select_Done ctx now delay with
  | Some d => (Returns None (Some (ctx_Err ctx)), d)
  | None =>
    if f64_lt (rand_Float64 rnd) f64_0_80 then
      let res := {| Status := "FAILED";
                    ReferenceID := "N/A";
                    ProviderName := MTN_Name;
                    IsIdempotent := false;
                    Message := "Provider internal server error (simulated 500)" |} in
      (Returns (Some res) (Some (errors_New ("provider failure: " +:+ Message res))), delay)
    else
      (Returns (Some {| Status := "SUCCESS";
                        ReferenceID := "MTN-" +:+ pretty (now + delay);
                        ProviderName := MTN_Name;
                        IsIdempotent := false;
                        Message := "Transaction processed successfully." |})
               None, delay)
  end.

Definition NewMTNProvider_2 : PaymentProvider :=
  {| Name := MTN_Name; process := MTN_process_2 |}.

(** providers/airtel.go *)
Definition Airtel_Name : string := "AIRTEL_MONEY".

Definition Airtel_process (ctx : Context) (req : PaymentRequest) (now : Time)
    (rnd : Entropy) : Outcome * Duration :=
  let delay := (rand_Intn_600 rnd + 200) * Millisecond in
  match select_Done ctx now delay with
  | Some d => (Returns None (Some (ctx_Err ctx)), d)
  | None =>
    if f64_lt (rand_Float64 rnd) f64_0_80 then
      let res := {| Status := "FAILED";
                    ReferenceID := "N/A";
                    ProviderName := Airtel_Name;
                    IsIdempotent := false;
                    Message := "Airtel provider internal server error (simulated 500)" |} in
      (Returns (Some res) (Some (errors_New ("provider failure: " +:+ Message res))), delay)
    else
      (Returns (Some {| Status := "SUCCESS";
                        ReferenceID := "AIRTEL-" +:+ pretty (now + delay);
                        ProviderName := Airtel_Name;
                        IsIdempotent := false;
                        Message := "Transaction processed successfully via Airtel." |})
               None, delay)
  end.

Definition NewAirtelProvider : PaymentProvider :=
  {| Name := Airtel_Name; process := Airtel_process |}.

End providers.

(** ** github.com/sony/gobreaker: the breaker's data and transitions

    The library is a dependency of the service ([main.go] imports it),
    not part of its sources.  The definitions below follow the file
    [gobreaker.go] of the imported major version, function by function:
    the methods of [Counts], [NewCircuitBreaker], [beforeRequest],
    [afterRequest], [onSuccess], [onFailure], [currentState], [setState]
    and [toNewGeneration]; [Execute] comes after the monad of effects.
    Methods with a pointer receiver take the breaker and return the
    updated one; [time.Now()] is the argument [now].  The [OnStateChange]
    callback, which the service leaves [nil], is left out.  The mutex
    that serialises the methods is not represented: calls are atomic
    here. *)

Module gobreaker.

Inductive State : Type := StateClosed | StateHalfOpen | StateOpen.

#[global] Instance State_eq_dec : EqDecision State.
Proof. solve_decision. Defined.

Record Counts : Type := {
  Requests : Z;
  TotalSuccesses : Z;
  TotalFailures : Z;
  ConsecutiveSuccesses : Z;
  ConsecutiveFailures : Z
}.

Definition Counts_onRequest (c : Counts) : Counts :=
  {| Requests := u32 (Requests c + 1);
     TotalSuccesses := TotalSuccesses c;
     TotalFailures := TotalFailures c;
     ConsecutiveSuccesses := ConsecutiveSuccesses c;
     ConsecutiveFailures := ConsecutiveFailures c |}.

Definition Counts_onSuccess (c : Counts) : Counts :=
  {| Requests := Requests c;
     TotalSuccesses := u32 (TotalSuccesses c + 1);
     TotalFailures := TotalFailures c;
     ConsecutiveSuccesses := u32 (ConsecutiveSuccesses c + 1);
     ConsecutiveFailures := 0 |}.

Definition Counts_onFailure (c : Counts) : Counts :=
  {| Requests := Requests c;
     TotalSuccesses := TotalSuccesses c;
     TotalFailures := u32 (TotalFailures c + 1);
     ConsecutiveSuccesses := 0;
     ConsecutiveFailures := u32 (ConsecutiveFailures c + 1) |}.

Definition Counts_clear : Counts :=
  {| Requests := 0; TotalSuccesses := 0; TotalFailures := 0;
     ConsecutiveSuccesses := 0; ConsecutiveFailures := 0 |}.

(** A [nil] callback in [Settings] is [None]. *)
Record Settings : Type := {
  Name : string;
  MaxRequests : Z;
  Interval : Duration;
  Timeout : Duration;
  ReadyToTrip : option (Counts -> bool);
  IsSuccessful : option (option error -> bool)
}.

(** [expiry] is [None] for the zero [time.Time]. *)
Record CircuitBreaker : Type := {
  name : string;
  maxRequests : Z;
  interval : Duration;
  timeout : Duration;
  readyToTrip : Counts -> bool;
  isSuccessful : option error -> bool;
  state : State;
  generation : Z;
  counts : Counts;
  expiry : option Time
}.

Definition defaultInterval : Duration := 0.
Definition defaultTimeout : Duration := 60 * Second.

Definition defaultReadyToTrip (c : Counts) : bool := 5 <? ConsecutiveFailures c.
Definition defaultIsSuccessful (err : option error) : bool := is_nil err.

Definition set_dynamic (cb : CircuitBreaker) (s : State) (g : Z) (c : Counts)
    (e : option Time) : CircuitBreaker :=
  {| name := name cb; maxRequests := maxRequests cb; interval := interval cb;
     timeout := timeout cb; readyToTrip := readyToTrip cb;
     isSuccessful := isSuccessful cb;
     state := s; generation := g; counts := c; expiry := e |}.

Definition set_counts (cb : CircuitBreaker) (c : Counts) : CircuitBreaker :=
  set_dynamic cb (state cb) (generation cb) c (expiry cb).

(** [expiry.Before(now)]; the zero time is before every instant. *)
Definition Before (e : option Time) (now : Time) : bool :=
  match e with
  | None => true
  | Some t => t <? now
  end.

Definition toNewGeneration (cb : CircuitBreaker) (now : Time) : CircuitBreaker :=
  set_dynamic cb (state cb) (u64 (generation cb + 1)) Counts_clear
    match state cb with
    | StateClosed => if interval cb =? 0 then None else Some (now + interval cb)
    | StateOpen => Some (now + timeout cb)
    | StateHalfOpen => None
    end.

Definition setState (cb : CircuitBreaker) (s : State) (now : Time) : CircuitBreaker :=
  if decide (state cb = s) then cb
  else toNewGeneration (set_dynamic cb s (generation cb) (counts cb) (expiry cb)) now.

(** [currentState] may itself move the breaker: a closed window that
    has run out starts a new generation, an open breaker whose
    cool-down has passed becomes half-open. *)
Definition currentState (cb : CircuitBreaker) (now : Time) : CircuitBreaker :=
  match state cb with
  | StateClosed =>
    if negb (is_nil (expiry cb)) && Before (expiry cb) now
    then toNewGeneration cb now else cb
  | StateOpen =>
    if Before (expiry cb) now then setState cb StateHalfOpen now else cb
  | StateHalfOpen => cb
  end.

Definition beforeRequest (cb : CircuitBreaker) (now : Time)
    : CircuitBreaker * (Z * option error) :=
  let cb := currentState cb now in
  match state cb with
  | StateOpen => (cb, (generation cb, Some ErrOpenState))
  | StateHalfOpen =>
    if maxRequests cb <=? Requests (counts cb)
    then (cb, (generation cb, Some ErrTooManyRequests))
    else (set_counts cb (Counts_onRequest (counts cb)), (generation cb, None))
  | StateClosed =>
    (set_counts cb (Counts_onRequest (counts cb)), (generation cb, None))
  end.

Definition onSuccess (cb : CircuitBreaker) (s : State) (now : Time) : CircuitBreaker :=
  match s with
  | StateClosed => set_counts cb (Counts_onSuccess (counts cb))
  | StateHalfOpen =>
    let cb := set_counts cb (Counts_onSuccess (counts cb)) in
    if maxRequests cb <=? ConsecutiveSuccesses (counts cb)
    then setState cb StateClosed now else cb
  | StateOpen => cb
  end.

Definition onFailure (cb : CircuitBreaker) (s : State) (now : Time) : CircuitBreaker :=
  match s with
  | StateClosed =>
    let cb := set_counts cb (Counts_onFailure (counts cb)) in
    if readyToTrip cb (counts cb) then setState cb StateOpen now else cb
  | StateHalfOpen => setState cb StateOpen now
  | StateOpen => cb
  end.

Definition afterRequest (cb : CircuitBreaker) (before : Z) (success : bool)
    (now : Time) : CircuitBreaker :=
  let cb := currentState cb now in
  if negb (generation cb =? before) then cb
  else if success then onSuccess cb (state cb) now
  else onFailure cb (state cb) now.

(** [NewCircuitBreaker] without the allocation: the breaker value built
    from the settings at instant [now]. *)
Definition init (st : Settings) (now : Time) : CircuitBreaker :=
  toNewGeneration
    {| name := Name st;
       maxRequests := if MaxRequests st =? 0 then 1 else MaxRequests st;
       interval := if Interval st <=? 0 then defaultInterval else Interval st;
       timeout := if Timeout st <=? 0 then defaultTimeout else Timeout st;
       readyToTrip := default defaultReadyToTrip (ReadyToTrip st);
       isSuccessful := default defaultIsSuccessful (IsSuccessful st);
       state := StateClosed;
       generation := 0;
       counts := Counts_clear;
       expiry := None |}
    now.

End gobreaker.

(** ** The world around one service instance *)

(** A Redis key: its value and the instant at which it expires. *)
Record entry : Type := {
  val : string;
  expireAt : Time
}.

(** Connectivity of the Redis client during one request: the transport
    error, if any, that each command meets instead of reaching the server. *)
Record Net : Type := {
  get_fault : option error;
  setnx_fault : option error;
  set_fault : option error
}.

Definition reachable : Net :=
  {| get_fault := None; setnx_fault := None; set_fault := None |}.

Inductive Event : Type :=
| EvLog (line : string)
| EvGet (key : string)
| EvSetNX (key value : string) (ttl : Duration)
| EvSet (key value : string) (ttl : Duration)
| EvProcessPayment (provider : string) (ctx : Context)
    (req : providers.PaymentRequest) (out : providers.Outcome).

Definition loc := positive.

Record World : Type := {
  clock : Time;
  redis : gmap string entry;
  heap : gmap loc gobreaker.CircuitBreaker;
  trace : list Event;
  net : Net;
  rng : providers.Entropy
}.

Definition set_clock (w : World) (t : Time) : World :=
  {| clock := t; redis := redis w; heap := heap w; trace := trace w;
     net := net w; rng := rng w |}.
Definition set_redis (w : World) (db : gmap string entry) : World :=
  {| clock := clock w; redis := db; heap := heap w; trace := trace w;
     net := net w; rng := rng w |}.
Definition set_heap (w : World) (h : gmap loc gobreaker.CircuitBreaker) : World :=
  {| clock := clock w; redis := redis w; heap := h; trace := trace w;
     net := net w; rng := rng w |}.
Definition set_trace (w : World) (tr : list Event) : World :=
  {| clock := clock w; redis := redis w; heap := heap w; trace := tr;
     net := net w; rng := rng w |}.
(** The inputs of the next request: connectivity and randomness. *)
Definition set_inputs (w : World) (n : Net) (r : providers.Entropy) : World :=
  {| clock := clock w; redis := redis w; heap := heap w; trace := trace w;
     net := n; rng := r |}.

(** ** The monad of effects *)

Inductive result (A : Type) : Type :=
| Ok (a : A)
| Panic (v : string).
Arguments Ok {A} a.
Arguments Panic {A} v.

Definition M (A : Type) : Type := World -> result A * World.

Definition ret {A} (a : A) : M A := fun w => (Ok a, w).

Definition bind {A B} (c : M A) (k : A -> M B) : M B :=
  fun w =>
    match c w with
    | (Ok a, w') => k a w'
    | (Panic v, w') => (Panic v, w')
    end.

Definition panic {A} (v : string) : M A := fun w => (Panic v, w).

#[global] Instance M_ret : MRet M := @ret.
#[global] Instance M_bind : MBind M := fun A B k c => bind c k.

Definition world : M World := fun w => (Ok w, w).
Definition time_Now : M Time := fun w => (Ok (clock w), w).
Definition sleep (d : Duration) : M unit := fun w => (Ok tt, set_clock w (clock w + d)).
Definition emit (e : Event) : M unit := fun w => (Ok tt, set_trace w (trace w ++ [e])).
Definition log_Printf (line : string) : M unit := emit (EvLog line).

Definition nil_dereference : string :=
  "runtime error: invalid memory address or nil pointer dereference".

(** ** The Redis commands used by the store *)

Definition write_key (key : string) (e : entry) : M unit :=
  fun w => (Ok tt, set_redis w (<[key := e]> (redis w))).

Definition live (now : Time) (e : entry) : bool := now <? expireAt e.

Definition lookup_live (db : gmap string entry) (now : Time) (key : string) : option string :=
  match db !! key with
  | Some e => if live now e then Some (val e) else None
  | None => None
  end.

(** [client.Get(ctx, key).Result()] *)
Definition client_Get (key : string) : M (string * option error) :=
  emit (EvGet key);;
  w ← world;
  match get_fault (net w) with
  | Some e => mret ("", Some e)
  | None =>
    match lookup_live (redis w) (clock w) key with
    | Some v => mret (v, None)
    | None => mret ("", Some redis_Nil)
    end
  end.

(** [client.SetNX(ctx, key, value, ttl).Result()] *)
Definition client_SetNX (key value : string) (ttl : Duration) : M (bool * option error) :=
  emit (EvSetNX key value ttl);;
  w ← world;
  match setnx_fault (net w) with
  | Some e => mret (false, Some e)
  | None =>
    match lookup_live (redis w) (clock w) key with
    | Some _ => mret (false, None)
    | None =>
      write_key key {| val := value; expireAt := clock w + ttl |};;
      mret (true, None)
    end
  end.

(** [client.Set(ctx, key, value, ttl).Err()] *)
Definition client_Set (key value : string) (ttl : Duration) : M (option error) :=
  emit (EvSet key value ttl);;
  w ← world;
  match set_fault (net w) with
  | Some e => mret (Some e)
  | None =>
    write_key key {| val := value; expireAt := clock w + ttl |};;
    mret None
  end.

(** ** cache/redis.go *)

Module cache.

Definition StatusInProgress : string := "IN_PROGRESS".
Definition StatusCompleted : string := "COMPLETED".
Definition InProgressExpiry : Duration := 10 * Second.
Definition CompletedExpiry : Duration := 24 * Hour.

Record IdempotencyStore : Type := {
  CheckOrSetInProgress : Context -> string -> M (bool * option error);
  SetCompleted : Context -> string -> M (option error);
  CheckCompleted : Context -> string -> M (bool * option error)
}.

(** The client handle; the keyspace it talks to is [redis] of the world. *)
Record RedisStore : Type := {
  Addr : string;
  Password : string;
  DB : Z
}.

Definition NewRedisStore (addr password : string) (db : Z) : RedisStore :=
  {| Addr := addr; Password := password; DB := db |}.

Definition RedisStore_CheckOrSetInProgress (r : RedisStore) (ctx : Context)
    (transactionID : string) : M (bool * option error) :=
  let key := "txn:" +:+ transactionID in
  '(completedStatus, err) ← client_Get key;
  if is_nil err && String.eqb completedStatus StatusCompleted then
    mret (true, None)
  else
    '(set, err) ← client_SetNX key StatusInProgress InProgressExpiry;
    match err with
    | Some e => mret (false, Some (fmt_Errorf_w "redis SETNX error: " e))
    | None =>
      if negb set then
        mret (true, Some (errors_New "transaction already in progress"))
      else
        mret (false, None)
    end.

Definition RedisStore_SetCompleted (r : RedisStore) (ctx : Context)
    (transactionID : string) : M (option error) :=
  let key := "txn:" +:+ transactionID in
  client_Set key StatusCompleted CompletedExpiry.

Definition RedisStore_CheckCompleted (r : RedisStore) (ctx : Context)
    (transactionID : string) : M (bool * option error) :=
  let key := "txn:" +:+ transactionID in
  '(status, err) ← client_Get key;
  match err with
  | Some redis_Nil => mret (false, None)
  | Some e => mret (false, Some (fmt_Errorf_w "redis GET error: " e))
  | None => mret (String.eqb status StatusCompleted, None)
  end.

(** [*RedisStore] as an [IdempotencyStore]. *)
Definition RedisStore_impl (r : RedisStore) : IdempotencyStore :=
  {| CheckOrSetInProgress := RedisStore_CheckOrSetInProgress r;
     SetCompleted := RedisStore_SetCompleted r;
     CheckCompleted := RedisStore_CheckCompleted r |}.

End cache.

(** ** Calling a provider and running a call through a breaker *)

(** [provider.ProcessPayment(ctx, req)]: the call takes its time, is
    recorded in the trace, and returns or panics. *)
Definition ProcessPayment (p : providers.PaymentProvider) (ctx : Context)
    (req : providers.PaymentRequest)
    : M (option providers.PaymentResponse * option error) :=
  w ← world;
  let '(out, d) := providers.process p ctx req (clock w) (rng w) in
  sleep d;;
  emit (EvProcessPayment (providers.Name p) ctx req out);;
  match out with
  | providers.Returns res err => mret (res, err)
  | providers.Panics v => panic v
  end.

(** Reading and writing a breaker through its pointer. *)
Definition load (cb : option loc) : M gobreaker.CircuitBreaker :=
  w ← world;
  match cb with
  | None => panic nil_dereference
  | Some l =>
    match heap w !! l with
    | Some b => mret b
    | None => panic nil_dereference
    end
  end.

Definition store (l : option loc) (b : gobreaker.CircuitBreaker) : M unit :=
  fun w =>
    match l with
    | Some l => (Ok tt, set_heap w (<[l := b]> (heap w)))
    | None => (Panic nil_dereference, w)
    end.

(** [gobreaker.NewCircuitBreaker(st)] *)
Definition NewCircuitBreaker (st : gobreaker.Settings) : M (option loc) :=
  now ← time_Now;
  w ← world;
  let l := fresh (dom (heap w)) in
  store (Some l) (gobreaker.init st now);;
  mret (Some l).

Definition cb_beforeRequest (cb : option loc) : M (Z * option error) :=
  b ← load cb;
  now ← time_Now;
  let '(b', r) := gobreaker.beforeRequest b now in
  store cb b';;
  mret r.

Definition cb_afterRequest (cb : option loc) (before : Z) (success : bool) : M unit :=
  b ← load cb;
  now ← time_Now;
  store cb (gobreaker.afterRequest b before success now).

(** The deferred [recover] of [Execute]: a panic of the request is
    counted as a failure and raised again. *)
Definition try {A} (c : M A) (handler : string -> M A) : M A :=
  fun w =>
    match c w with
    | (Ok a, w') => (Ok a, w')
    | (Panic v, w') => handler v w'
    end.

(** [cb.Execute(req)]; the result is [None] for the [nil] interface. *)
Definition Execute {R} (cb : option loc) (req : M (R * option error))
    : M (option R * option error) :=
  '(generation, err) ← cb_beforeRequest cb;
  match err with
  | Some e => mret (None, Some e)
  | None =>
    '(result, err) ← try req (fun v => cb_afterRequest cb generation false;; panic v);
    b ← load cb;
    cb_afterRequest cb generation (gobreaker.isSuccessful b err);;
    mret (Some result, err)
  end.

(** ** main.go: the aggregator and its handler *)

Record Aggregator : Type := {
  Providers : gmap string providers.PaymentProvider;
  Store : cache.IdempotencyStore;
  Breakers : gmap string (option loc)
}.

Definition ReadyToTrip (counts : gobreaker.Counts) : bool :=
  if gobreaker.Requests counts <? 3 then false
  else
    let failureRatio :=
      f64_div (float64_of_Z (gobreaker.TotalFailures counts))
              (float64_of_Z (gobreaker.Requests counts)) in
    f64_ge failureRatio f64_0_6.

Definition IsSuccessful (err : option error) : bool := is_nil err.

Definition settings : gobreaker.Settings :=
  {| gobreaker.Name := "MTN-Breaker";
     gobreaker.MaxRequests := 1;
     gobreaker.Timeout := 30 * Second;
     gobreaker.Interval := 5 * Second;
     gobreaker.ReadyToTrip := Some ReadyToTrip;
     gobreaker.IsSuccessful := Some IsSuccessful |}.

Definition newAggregator : M Aggregator :=
  let redisStore := cache.NewRedisStore "localhost:6379" "" 0 in
  breakerMTN ← NewCircuitBreaker settings;
  mret {| Providers := {[ "MTN" := providers.NewMTNProvider ]};
          Store := cache.RedisStore_impl redisStore;
          Breakers := {[ "MTN" := breakerMTN ]} |}.

(** The inbound [*http.Request]: its method, the body as the JSON decoder
    yields it ([None] when decoding fails), and its context. *)
Record Request : Type := {
  Method : string;
  Body : option providers.PaymentRequest;
  Ctx : Context
}.

Inductive Json : Type :=
| JsonMap (fields : list (string * string))
| JsonResponse (res : providers.PaymentResponse).

(** What the handler has written to the [http.ResponseWriter]. *)
Record Response : Type := {
  StatusCode : Z;
  Payload : Json
}.

Definition StatusOK : Z := 200.
Definition StatusBadRequest : Z := 400.
Definition StatusNotFound : Z := 404.
Definition StatusMethodNotAllowed : Z := 405.
Definition StatusConflict : Z := 409.
Definition StatusTooEarly : Z := 425.
Definition StatusInternalServerError : Z := 500.
Definition StatusServiceUnavailable : Z := 503.

Definition reply (code : Z) (fields : list (string * string)) : M Response :=
  mret {| StatusCode := code; Payload := JsonMap fields |}.

Definition in_progress_text (err : option error) : bool :=
  match err with
  | Some e => String.eqb (Error e) "transaction already in progress"
  | None => false
  end.

Definition open_message (provider : string) : string :=
  "Provider " +:+ provider +:+
  " is currently experiencing high failure rates and has been temporarily taken offline.".

(** [PayHandler] is one function in the source; it is cut here at its
    section comments into the part after [Execute] ([respond]), the
    routing and breaker part ([route]) and the entry with the idempotency
    check ([PayHandler]). *)
Definition respond (a : Aggregator) (r : Request) (req : providers.PaymentRequest)
    (provider : providers.PaymentProvider)
    (result : option (option providers.PaymentResponse)) (errCB : option error)
    : M Response :=
  if is_ErrOpenState errCB then
    log_Printf ("Circuit Breaker OPEN for " +:+ providers.Name provider +:+
                ". Bypassing request.");;
    reply StatusServiceUnavailable
      [("error", "Service Unavailable");
       ("message", open_message (providers.Name provider))]
  else
  match errCB with
  | Some e =>
    log_Printf ("Provider/CB Error: " +:+ Error e);;
    reply StatusInternalServerError [("error", "Processing error: " +:+ Error e)]
  | None =>
    match result with
    | None => panic "interface conversion: interface is nil"
    | Some None => panic nil_dereference
    | Some (Some res) =>
      (* idempotency completion *)
      if String.eqb (providers.Status res) "SUCCESS" then
        err ← cache.SetCompleted (Store a) (Ctx r) (providers.TransactionID req);
        match err with
        | Some e =>
          log_Printf ("Warning: Failed to set transaction " +:+
                      providers.TransactionID req +:+
                      " as COMPLETED in Redis: " +:+ Error e)
        | None => mret tt
        end;;
        mret {| StatusCode := StatusOK;
                Payload := JsonResponse (providers.set_IsIdempotent res true) |}
      else
        mret {| StatusCode := StatusOK; Payload := JsonResponse res |}
    end
  end.

Definition route (a : Aggregator) (r : Request) (req : providers.PaymentRequest)
    : M Response :=
  let providerName := "MTN" in
  match Providers a !! providerName with
  | None =>
    reply StatusNotFound [("error", "Provider " +:+ providerName +:+ " not found")]
  | Some provider =>
    let breaker := default None (Breakers a !! providerName) in
    (if is_nil (Breakers a !! providerName)
     then log_Printf ("Warning: No circuit breaker found for " +:+ providerName)
     else mret tt);;
    now ← time_Now;
    let ctx := context_WithTimeout (Ctx r) now (1 * Second) in
    log_Printf ("Starting transaction " +:+ providers.TransactionID req +:+
                " via " +:+ providers.Name provider);;
    (* circuit breaker execution *)
    '(result, errCB) ← Execute breaker (ProcessPayment provider ctx req);
    respond a r req provider result errCB
  end.

Definition PayHandler (a : Aggregator) (r : Request) : M Response :=
  if negb (String.eqb (Method r) "POST") then
    reply StatusMethodNotAllowed [("error", "Method Not Allowed")]
  else
  match Body r with
  | None => reply StatusBadRequest [("error", "Invalid Request Body")]
  | Some req =>
    (* idempotency check *)
    '(isDuplicate, err) ←
      cache.CheckOrSetInProgress (Store a) (Ctx r) (providers.TransactionID req);
    if in_progress_text err then
      reply StatusTooEarly
        [("error", "Duplicate transaction ID detected");
         ("message", "A transaction with this ID is currently being processed. Please wait.")]
    else if (isDuplicate : bool) then
      reply StatusConflict
        [("error", "Duplicate transaction ID detected");
         ("message", "This transaction ID has already been successfully completed.")]
    else
      route a r req
  end.

(** ** main.go, first revision: the handler before the idempotency store
    and the circuit breaker

    The aggregator holds the providers only; the handler goes from the
    decoded request straight to the provider.  It passes the response
    pointer to the JSON encoder as it is, so a [nil] response is
    encoded ([JsonResponse None]) rather than dereferenced. *)

Module v1.

Record Aggregator : Type := {
  Providers : gmap string providers.PaymentProvider
}.

Definition newAggregator : Aggregator :=
  {| Providers := {[ "MTN" := providers.NewMTNProvider ]} |}.

Inductive Json : Type :=
| JsonMap (fields : list (string * string))
| JsonResponse (res : option providers.PaymentResponse).

Record Response : Type := {
  StatusCode : Z;
  Payload : Json
}.

Definition reply (code : Z) (fields : list (string * string)) : M Response :=
  mret {| StatusCode := code; Payload := JsonMap fields |}.

Definition PayHandler (a : Aggregator) (r : Request) : M Response :=
  if negb (String.eqb (Method r) "POST") then
    reply StatusMethodNotAllowed [("error", "Method Not Allowed")]
  else
  match Body r with
  | None => reply StatusBadRequest [("error", "Invalid Request Body")]
  | Some req =>
    (* input validation and routing *)
    let providerName := "MTN" in
    match Providers a !! providerName with
    | None =>
      reply StatusNotFound [("error", "Provider " +:+ providerName +:+ " not found")]
    | Some provider =>
      now ← time_Now;
      let ctx := context_WithTimeout (Ctx r) now (1 * Second) in
      log_Printf ("Starting transaction " +:+ providers.TransactionID req +:+
                  " via " +:+ providers.Name provider);;
      '(res, err) ← ProcessPayment provider ctx req;
      match err with
      | Some e =>
        log_Printf ("Provider Error: " +:+ Error e);;
        reply StatusInternalServerError [("error", "Processing error: " +:+ Error e)]
      | None =>
        mret {| StatusCode := StatusOK; Payload := JsonResponse res |}
      end
    end
  end.

End v1.

(** ** Concurrent callers of the idempotency gate

    [CheckOrSetInProgress] sends two commands to the server, and commands
    of other callers may reach the server between them.  A caller is at
    its [GET], at its [SETNX], or has returned; [admit_step] runs its next
    command.  A schedule lists which of two callers moves next and how
    much time passes before it does. *)

Inductive pc : Type :=
| AtGet
| AtSetNX
| Returned (ret : bool * option error).

Definition admit_step (transactionID : string) (s : pc) : M pc :=
  let key := "txn:" +:+ transactionID in
  match s with
  | AtGet =>
    '(completedStatus, err) ← client_Get key;
    if is_nil err && String.eqb completedStatus cache.StatusCompleted then
      mret (Returned (true, None))
    else
      mret AtSetNX
  | AtSetNX =>
    '(set, err) ← client_SetNX key cache.StatusInProgress cache.InProgressExpiry;
    match err with
    | Some e => mret (Returned (false, Some (fmt_Errorf_w "redis SETNX error: " e)))
    | None =>
      if negb set then
        mret (Returned (true, Some (errors_New "transaction already in progress")))
      else
        mret (Returned (false, None))
    end
  | Returned ret => mret (Returned ret)
  end.




(** * Vocabulary of the properties

    Worlds, events, responses and predicates that the statements below
    name, and the sample data of the examples. *)

(** ** Worlds and records *)

(** The world with more events in its trace. *)
Definition add_events (w : World) (evs : list Event) : World :=
  set_trace w (trace w ++ evs).

(** The key of a transaction id. *)
Definition txn_key (transactionID : string) : string := "txn:" +:+ transactionID.

(** The reply of the server to [GET key], or the transport error. *)
Definition get_reply (w : World) (key : string) : string * option error :=
  match get_fault (net w) with
  | Some e => ("", Some e)
  | None =>
    match lookup_live (redis w) (clock w) key with
    | Some v => (v, None)
    | None => ("", Some redis_Nil)
    end
  end.

(** The record written by the idempotency check at [now]. *)
Definition lease (now : Time) : entry :=
  {| val := cache.StatusInProgress; expireAt := now + cache.InProgressExpiry |}.

(** The record written by [SetCompleted] at [now]. *)
Definition completed (now : Time) : entry :=
  {| val := cache.StatusCompleted; expireAt := now + cache.CompletedExpiry |}.

(** The world with a record for the id in the keyspace. *)
Definition with_record (w : World) (id : string) (e : entry) : World :=
  set_redis w (<[txn_key id := e]> (redis w)).

(** The world with a breaker at a location. *)
Definition with_breaker (w : World) (l : loc) (b : gobreaker.CircuitBreaker) : World :=
  set_heap w (<[l := b]> (heap w)).

(** The world after the provider has been called. *)
Definition called (w : World) (p : providers.PaymentProvider) (ctx : Context)
    (req : providers.PaymentRequest) : World :=
  let '(out, d) := providers.process p ctx req (clock w) (rng w) in
  add_events (set_clock w (clock w + d))
    [EvProcessPayment (providers.Name p) ctx req out].

(** ** Classes of the idempotency gate *)



(** ** Responses, log lines, events *)

(** The responses of the handler. *)
Definition too_early : Response :=
  {| StatusCode := StatusTooEarly;
     Payload := JsonMap
       [("error", "Duplicate transaction ID detected");
        ("message", "A transaction with this ID is currently being processed. Please wait.")] |}.

Definition conflict : Response :=
  {| StatusCode := StatusConflict;
     Payload := JsonMap
       [("error", "Duplicate transaction ID detected");
        ("message", "This transaction ID has already been successfully completed.")] |}.

Definition not_found : Response :=
  {| StatusCode := StatusNotFound;
     Payload := JsonMap [("error", "Provider MTN not found")] |}.

Definition service_unavailable (p : providers.PaymentProvider) : Response :=
  {| StatusCode := StatusServiceUnavailable;
     Payload := JsonMap
       [("error", "Service Unavailable");
        ("message", open_message (providers.Name p))] |}.

Definition internal_error (e : error) : Response :=
  {| StatusCode := StatusInternalServerError;
     Payload := JsonMap [("error", "Processing error: " +:+ Error e)] |}.

Definition ok (res : providers.PaymentResponse) : Response :=
  {| StatusCode := StatusOK; Payload := JsonResponse res |}.

(** The log lines of the handler, and the [SET] of [SetCompleted]. *)
Definition no_breaker_warning (providerName : string) : Event :=
  EvLog ("Warning: No circuit breaker found for " +:+ providerName).

Definition starting (req : providers.PaymentRequest) (p : providers.PaymentProvider) : Event :=
  EvLog ("Starting transaction " +:+ providers.TransactionID req +:+
         " via " +:+ providers.Name p).

Definition bypassing (p : providers.PaymentProvider) : Event :=
  EvLog ("Circuit Breaker OPEN for " +:+ providers.Name p +:+ ". Bypassing request.").

Definition set_completed_event (req : providers.PaymentRequest) : Event :=
  EvSet (txn_key (providers.TransactionID req)) cache.StatusCompleted cache.CompletedExpiry.

Definition completion_warning (req : providers.PaymentRequest) (e : error) : Event :=
  EvLog ("Warning: Failed to set transaction " +:+ providers.TransactionID req +:+
         " as COMPLETED in Redis: " +:+ Error e).

(** Events that are provider calls, events that are [SET] commands. *)
Definition is_call (e : Event) : bool :=
  match e with
  | EvProcessPayment _ _ _ _ => true
  | _ => false
  end.


(** ** Breaker *)

(** How the breaker classifies the outcome of the call it wrapped. *)
Definition success_of (b : gobreaker.CircuitBreaker) (out : providers.Outcome) : bool :=
  match out with
  | providers.Returns _ err => gobreaker.isSuccessful b err
  | providers.Panics _ => false
  end.

(** Two states of one breaker: the fields set at creation agree. *)
Definition same_config (b b' : gobreaker.CircuitBreaker) : Prop :=
  gobreaker.name b' = gobreaker.name b /\
  gobreaker.maxRequests b' = gobreaker.maxRequests b /\
  gobreaker.interval b' = gobreaker.interval b /\
  gobreaker.timeout b' = gobreaker.timeout b /\
  gobreaker.readyToTrip b' = gobreaker.readyToTrip b /\
  gobreaker.isSuccessful b' = gobreaker.isSuccessful b.

(** One call through the breaker: admitted at [now] (if the breaker
    admits it), ended after [d] with the given outcome. *)
Definition observe (b : gobreaker.CircuitBreaker) (now : Time) (d : Duration)
    (success : bool) : gobreaker.CircuitBreaker :=
  let '(b1, (g, err)) := gobreaker.beforeRequest b now in
  match err with
  | None => gobreaker.afterRequest b1 g success (now + d)
  | Some _ => b1
  end.

(** A sequence of calls at the same instant. *)
Definition feed (b : gobreaker.CircuitBreaker) (now : Time) (outcomes : list bool)
    : gobreaker.CircuitBreaker :=
  fold_left (fun b success => observe b now 0 success) outcomes b.

(** The counts of the window once a call and its outcome are in. *)
Definition recorded (c : gobreaker.Counts) (success : bool) : gobreaker.Counts :=
  if success then gobreaker.Counts_onSuccess (gobreaker.Counts_onRequest c)
  else gobreaker.Counts_onFailure (gobreaker.Counts_onRequest c).

(** At least 3 requests and failures / requests at least 0.6, in exact
    arithmetic. *)
Definition trip_condition (c : gobreaker.Counts) : Prop :=
  3 <= gobreaker.Requests c /\
  3 * gobreaker.Requests c <= 5 * gobreaker.TotalFailures c.

(** The window of a closed breaker has not run out at [t]. *)
Definition window_live (b : gobreaker.CircuitBreaker) (t : Time) : Prop :=
  negb (is_nil (gobreaker.expiry b)) && gobreaker.Before (gobreaker.expiry b) t = false.

(** ** Completion *)

(** Among the events there is a provider call for the request that
    returned a response with status SUCCESS and no error. *)
Definition successful_call (req : providers.PaymentRequest) (evs : list Event) : Prop :=
  exists name ctx res,
    EvProcessPayment name ctx req (providers.Returns (Some res) None) ∈ evs /\
    providers.Status res = "SUCCESS".


(** ** Readings of the specification that the code departs from *)

(** The reading of the specification: the provider is looked up under
    the key of the request, and a request whose key has no provider gets
    404 Not Found while the idempotency store is left as it was. *)
Definition routes_by_request_key (a : Aggregator) (r : Request) (w : World) : Prop :=
  forall req,
    Method r = "POST" ->
    Body r = Some req ->
    Providers a !! providers.ProviderKey req = None ->
    (exists body,
       fst (PayHandler a r w) = Ok {| StatusCode := StatusNotFound; Payload := body |}) /\
    redis (snd (PayHandler a r w)) = redis w.

(** The reading of the specification: a closed breaker is open after a
    call exactly when the window, with that call in, meets the trip
    condition. *)
Definition trips_exactly_on_ratio (b : gobreaker.CircuitBreaker) (now : Time)
    (success : bool) : Prop :=
  gobreaker.state (observe b now 0 success) = gobreaker.StateOpen <->
  trip_condition (recorded (gobreaker.counts b) success).

(** ** The server loop *)

(** One request reaching the server: the request, the time since the
    previous one, and the connectivity and randomness it meets. *)
Record Arrival : Type := {
  request : Request;
  idle : Duration;
  connectivity : Net;
  randomness : providers.Entropy
}.

(** The server handling arrivals one after the other; a panic ends the
    request, not the server. *)
Fixpoint serve (a : Aggregator) (arrivals : list Arrival) (w : World)
    : list (result Response) * World :=
  match arrivals with
  | [] => ([], w)
  | x :: rest =>
    let w1 := set_inputs (set_clock w (clock w + idle x)) (connectivity x) (randomness x) in
    let '(out, w2) := PayHandler a (request x) w1 in
    let '(outs, w3) := serve a rest w2 in
    (out :: outs, w3)
  end.

(** ** Invariants of two concurrent callers *)









(** ** Sample data *)

(** The store and the aggregator of [newAggregator], its breaker at [l]. *)
Definition redisStore : cache.RedisStore := cache.NewRedisStore "localhost:6379" "" 0.

Definition aggregator_at (l : option loc) : Aggregator :=
  {| Providers := {[ "MTN" := providers.NewMTNProvider ]};
     Store := cache.RedisStore_impl redisStore;
     Breakers := {[ "MTN" := l ]} |}.

(** A payment of 20 ZAR, and the POST request that carries it. *)
Definition payment (id key : string) : providers.PaymentRequest :=
  {| providers.TransactionID := id;
     providers.Amount := float64_of_Z 20;
     providers.Currency := "ZAR";
     providers.ProviderKey := key |}.

Definition post (ctx : Context) (req : providers.PaymentRequest) : Request :=
  {| Method := "POST"; Body := Some req; Ctx := ctx |}.

(** The draws of one provider call. *)
Definition draw (ms : Z) (x : float64) : providers.Entropy :=
  {| providers.rand_Intn_600 := ms; providers.rand_Float64 := x |}.

(** A world at instant [1000 s] with an empty keyspace, a reachable
    server, and the breaker of [newAggregator] at location 1. *)
Definition world0 : World :=
  {| clock := 1000 * Second;
     redis := ∅;
     heap := {[ 1%positive := gobreaker.init settings (1000 * Second) ]};
     trace := [];
     net := reachable;
     rng := draw 100 (float64_of_Z 1) |}.

(** A server that refuses every connection. *)
Definition connection_refused : error :=
  errors_New "dial tcp 127.0.0.1:6379: connect: connection refused".

Definition unreachable : Net :=
  {| get_fault := Some connection_refused;
     setnx_fault := Some connection_refused;
     set_fault := Some connection_refused |}.

(** The breaker of [newAggregator], created at instant [1000 s]. *)
Definition breaker0 : gobreaker.CircuitBreaker := gobreaker.init settings (1000 * Second).

(** A breaker that has just tripped at instant [1000 s]. *)
Definition tripped : gobreaker.CircuitBreaker :=
  gobreaker.setState (gobreaker.init settings (1000 * Second))
    gobreaker.StateOpen (1000 * Second).

(** The client gives up 50 ms after the request arrives. *)
Definition impatient : Context :=
  {| deadline := None; cancelAt := Some (1000 * Second + 50 * Millisecond) |}.

(** An aggregator without providers. *)
Definition bare : Aggregator :=
  {| Providers := ∅;
     Store := cache.RedisStore_impl redisStore;
     Breakers := ∅ |}.

(** The draw [0.05]. *)
Definition f64_0_05 : float64 := f64_div (float64_of_Z 5) (float64_of_Z 100).

(** A provider that needs two seconds and watches its context. *)
Definition slow_process (ctx : Context) (req : providers.PaymentRequest) (now : Time)
    (rnd : providers.Entropy) : providers.Outcome * Duration :=
  match providers.select_Done ctx now (2 * Second) with
  | Some d => (providers.Returns None (Some (ctx_Err ctx)), d)
  | None =>
    (providers.Returns (Some {| providers.Status := "SUCCESS";
                                providers.ReferenceID := "SLOW-1";
                                providers.ProviderName := "SLOW";
                                providers.IsIdempotent := false;
                                providers.Message := "" |}) None, 2 * Second)
  end.

Definition slow_aggregator : Aggregator :=
  {| Providers := {[ "MTN" := {| providers.Name := "SLOW"; providers.process := slow_process |} ]};
     Store := cache.RedisStore_impl redisStore;
     Breakers := {[ "MTN" := Some 1%positive ]} |}.

(** Arrivals with a reachable store. *)
Definition arrival (r : Request) (after : Duration) : Arrival :=
  {| request := r; idle := after; connectivity := reachable;
     randomness := draw 100 (float64_of_Z 1) |}.

Definition arrival_with (id : string) (x : float64) : Arrival :=
  {| request := post context_Background (payment id "MTN"); idle := 0;
     connectivity := reachable; randomness := draw 0 x |}.

(** The aggregator with the second revision of the MTN provider. *)
Definition aggregator_2 : Aggregator :=
  {| Providers := {[ "MTN" := providers.NewMTNProvider_2 ]};
     Store := cache.RedisStore_impl redisStore;
     Breakers := {[ "MTN" := Some 1%positive ]} |}.


(** The response of the MTN provider (first revision) to a call made at
    [world0], as the handler sends it after recording the completion. *)
Definition paid : providers.PaymentResponse :=
  {| providers.Status := "SUCCESS";
     providers.ReferenceID := "MTN-1000300000000";
     providers.ProviderName := "MTN_MOMO";
     providers.IsIdempotent := true;
     providers.Message := "Transaction processed successfully." |}.

(** The key a store command addresses. *)
Definition store_key (e : Event) : option string :=
  match e with
  | EvGet k | EvSetNX k _ _ | EvSet k _ _ => Some k
  | _ => None
  end.

(** The run answered 200 with a SUCCESS response and the store took the
    [SET] of [SetCompleted]. *)
Definition recorded_success (out : result Response) (n : Net) : Prop :=
  set_fault n = None /\
  exists res, out = Ok (ok res) /\ providers.Status res = "SUCCESS".



(** A mock provider keeps the error and the status of its response in
    step: it returns (it does not panic), the error is [nil] exactly when
    there is a response with status SUCCESS, which is also when
    [IsSuccessful] holds of the error, and a response names the provider
    and has status SUCCESS or FAILED. *)
Definition error_tracks_status (name : string)
    (run : providers.Outcome * Duration) : Prop :=
  exists res err,
    fst run = providers.Returns res err /\
    (err = None <-> exists r, res = Some r /\ providers.Status r = "SUCCESS") /\
    (IsSuccessful err = true <->
     exists r, res = Some r /\ providers.Status r = "SUCCESS") /\
    (forall r, res = Some r ->
               providers.ProviderName r = name /\
               providers.IsIdempotent r = false /\
               (providers.Status r = "SUCCESS" \/ providers.Status r = "FAILED")).

(** The breaker of [newAggregator] 31 s after it tripped, with its trial
    request in flight, and a world that holds it at location 1. *)
Definition half_open_busy : gobreaker.CircuitBreaker :=
  fst (gobreaker.beforeRequest tripped (1031 * Second)).

Definition world_half_open : World :=
  with_breaker (set_clock world0 (1031 * Second)) 1%positive half_open_busy.

(** A world that holds the tripped breaker at location 1, 31 s after it
    tripped, and the response of the MTN provider to a call made then. *)
Definition world_cooled : World :=
  with_breaker (set_clock world0 (1031 * Second)) 1%positive tripped.

Definition paid_trial : providers.PaymentResponse :=
  {| providers.Status := "SUCCESS";
     providers.ReferenceID := "MTN-1031300000000";
     providers.ProviderName := "MTN_MOMO";
     providers.IsIdempotent := false;
     providers.Message := "Transaction processed successfully." |}.

(** The breaker of [newAggregator] after two failures at instant
    [1000 s], and a world that holds it 6 s later, its window run out. *)
Definition two_failures : gobreaker.CircuitBreaker :=
  feed breaker0 (1000 * Second) [false; false].

Definition world_stale : World :=
  with_breaker (set_clock world0 (1006 * Second)) 1%positive two_failures.

(** A provider that returns neither a response nor an error. *)
Definition silent : providers.PaymentProvider :=
  {| providers.Name := "SILENT";
     providers.process := fun _ _ _ _ => (providers.Returns None None, 0) |}.

Definition silent_aggregator : Aggregator :=
  {| Providers := {[ "MTN" := silent ]};
     Store := cache.RedisStore_impl redisStore;
     Breakers := {[ "MTN" := Some 1%positive ]} |}.

(** ** The paths of the handler

    [PayHandler] as a relation between the world a request meets and the
    answer and world it leaves, one constructor per path through the
    idempotency check ([handled]), the routing and the breaker ([routed])
    and what follows the provider call ([answered]). *)

(** The two commands of the idempotency check. *)
Definition gate_events (id : string) : list Event :=
  [EvGet (txn_key id);
   EvSetNX (txn_key id) cache.StatusInProgress cache.InProgressExpiry].

(** The context the handler gives to the provider. *)
Definition call_context (r : Request) (w : World) : Context :=
  context_WithTimeout (Ctx r) (clock w) (1 * Second).

(** The answer to an error that comes out of [Execute], and its log line. *)
Definition error_response (p : providers.PaymentProvider) (e : error) : Response :=
  if is_ErrOpenState (Some e) then service_unavailable p else internal_error e.

Definition error_line (p : providers.PaymentProvider) (e : error) : Event :=
  if is_ErrOpenState (Some e) then bypassing p
  else EvLog ("Provider/CB Error: " +:+ Error e).

(** The world when [Execute] returns from an admitted call: the call took
    its time and is in the trace, and the breaker has its outcome. *)
Definition after_call (r : Request) (req : providers.PaymentRequest)
    (p : providers.PaymentProvider) (l : loc) (b : gobreaker.CircuitBreaker)
    (w : World) : World :=
  let ctx := call_context r w in
  let out := fst (providers.process p ctx req (clock w) (rng w)) in
  let d := snd (providers.process p ctx req (clock w) (rng w)) in
  let b1 := fst (gobreaker.beforeRequest b (clock w)) in
  set_heap
    (add_events (set_clock w (clock w + d))
       [starting req p; EvProcessPayment (providers.Name p) ctx req out])
    (<[l := gobreaker.afterRequest b1 (gobreaker.generation b1) (success_of b1 out)
              (clock w + d)]> (heap w)).

Inductive answered (req : providers.PaymentRequest) (p : providers.PaymentProvider)
    (w : World) : providers.Outcome -> result Response -> World -> Prop :=
| answered_panic v :
    answered req p w (providers.Panics v) (Panic v) w
| answered_error res e :
    answered req p w (providers.Returns res (Some e))
      (Ok (error_response p e)) (add_events w [error_line p e])
| answered_nil :
    answered req p w (providers.Returns None None) (Panic nil_dereference) w
| answered_unsuccessful res :
    providers.Status res <> "SUCCESS" ->
    answered req p w (providers.Returns (Some res) None) (Ok (ok res)) w
| answered_unrecorded res e :
    providers.Status res = "SUCCESS" ->
    set_fault (net w) = Some e ->
    answered req p w (providers.Returns (Some res) None)
      (Ok (ok (providers.set_IsIdempotent res true)))
      (add_events w [set_completed_event req; completion_warning req e])
| answered_completed res :
    providers.Status res = "SUCCESS" ->
    set_fault (net w) = None ->
    answered req p w (providers.Returns (Some res) None)
      (Ok (ok (providers.set_IsIdempotent res true)))
      (set_redis (add_events w [set_completed_event req])
         (<[txn_key (providers.TransactionID req) := completed (clock w)]> (redis w))).

Inductive routed (a : Aggregator) (r : Request) (req : providers.PaymentRequest)
    (w : World) : result Response -> World -> Prop :=
| routed_not_found :
    Providers a !! "MTN" = None ->
    routed a r req w (Ok not_found) w
| routed_no_breaker p :
    Providers a !! "MTN" = Some p ->
    Breakers a !! "MTN" = None ->
    routed a r req w (Panic nil_dereference)
      (add_events w [no_breaker_warning "MTN"; starting req p])
| routed_nil_breaker p :
    Providers a !! "MTN" = Some p ->
    Breakers a !! "MTN" = Some None ->
    routed a r req w (Panic nil_dereference) (add_events w [starting req p])
| routed_dangling p l :
    Providers a !! "MTN" = Some p ->
    Breakers a !! "MTN" = Some (Some l) ->
    heap w !! l = None ->
    routed a r req w (Panic nil_dereference) (add_events w [starting req p])
| routed_refused p l b e :
    Providers a !! "MTN" = Some p ->
    Breakers a !! "MTN" = Some (Some l) ->
    heap w !! l = Some b ->
    snd (snd (gobreaker.beforeRequest b (clock w))) = Some e ->
    routed a r req w (Ok (error_response p e))
      (set_heap (add_events w [starting req p; error_line p e])
         (<[l := fst (gobreaker.beforeRequest b (clock w))]> (heap w)))
| routed_called p l b out w' :
    Providers a !! "MTN" = Some p ->
    Breakers a !! "MTN" = Some (Some l) ->
    heap w !! l = Some b ->
    snd (snd (gobreaker.beforeRequest b (clock w))) = None ->
    answered req p (after_call r req p l b w)
      (fst (providers.process p (call_context r w) req (clock w) (rng w))) out w' ->
    routed a r req w out w'.

(** The [GET] of the idempotency check was answered with COMPLETED. *)
Definition seen_completed (w : World) (key : string) : Prop :=
  get_fault (net w) = None /\
  lookup_live (redis w) (clock w) key = Some cache.StatusCompleted.

Inductive handled (a : Aggregator) (r : Request) (req : providers.PaymentRequest)
    (w : World) : result Response -> World -> Prop :=
| handled_completed :
    seen_completed w (txn_key (providers.TransactionID req)) ->
    handled a r req w (Ok conflict)
      (add_events w [EvGet (txn_key (providers.TransactionID req))])
| handled_in_progress v :
    ~ seen_completed w (txn_key (providers.TransactionID req)) ->
    setnx_fault (net w) = None ->
    lookup_live (redis w) (clock w) (txn_key (providers.TransactionID req)) = Some v ->
    handled a r req w (Ok too_early)
      (add_events w (gate_events (providers.TransactionID req)))
| handled_store_error e out w' :
    ~ seen_completed w (txn_key (providers.TransactionID req)) ->
    setnx_fault (net w) = Some e ->
    routed a r req (add_events w (gate_events (providers.TransactionID req))) out w' ->
    handled a r req w out w'
| handled_new out w' :
    setnx_fault (net w) = None ->
    lookup_live (redis w) (clock w) (txn_key (providers.TransactionID req)) = None ->
    routed a r req
      (set_redis (add_events w (gate_events (providers.TransactionID req)))
         (<[txn_key (providers.TransactionID req) := lease (clock w)]> (redis w)))
      out w' ->
    handled a r req w out w'.

(** * Properties *)

(** ** float64: the failure ratio against 0.6

    [ReadyToTrip] divides two counters converted to binary64 and compares
    the rounded quotient with the binary64 constant nearest to 0.6.  On
    32-bit counters this is the exact comparison [3 r <= 5 f]: the
    quotient is computed to 53 or 54 bits before the one rounding, and
    a ratio below 0.6 is below it by far more than one unit in the last
    place. *)

Lemma digits2_log2 (p : positive) : Z.pos (digits2_pos p) = Z.log2 (Z.pos p) + 1.
Proof.
  induction p as [p IH|p IH|]; cbn [digits2_pos]; [| |reflexivity].
  - rewrite Pos2Z.inj_succ, IH.
    change (Z.pos p~1) with (2 * Z.pos p + 1). rewrite Z.log2_succ_double by lia. lia.
  - rewrite Pos2Z.inj_succ, IH.
    change (Z.pos p~0) with (2 * Z.pos p). rewrite Z.log2_double by lia. lia.
Qed.

Lemma digits2_unique (p : positive) (k : Z) :
  0 < k -> 2 ^ (k - 1) <= Z.pos p < 2 ^ k -> Z.pos (digits2_pos p) = k.
Proof.
  intros Hk H. rewrite digits2_log2.
  rewrite (Z.log2_unique (Z.pos p) (k - 1)); [lia|lia|].
  replace (Z.succ (k - 1)) with k by lia. exact H.
Qed.

Lemma digits2_bounds (p : positive) :
  2 ^ (Z.pos (digits2_pos p) - 1) <= Z.pos p < 2 ^ Z.pos (digits2_pos p).
Proof.
  rewrite digits2_log2. replace (Z.log2 (Z.pos p) + 1 - 1) with (Z.log2 (Z.pos p)) by lia.
  pose proof (Z.log2_spec (Z.pos p)). replace (Z.log2 (Z.pos p) + 1) with (Z.succ (Z.log2 (Z.pos p))) by lia.
  apply H. lia.
Qed.

(** Rounding a quotient of 53 or 54 bits. *)
Lemma shr_fexp_53 (q : positive) (e : Z) (l : location) :
  2 ^ 52 <= Z.pos q < 2 ^ 53 -> -1074 <= e ->
  shr_fexp 53 1024 (Z.pos q) e l = (shr_record_of_loc (Z.pos q) l, e).
Proof.
  intros Hq He. unfold shr_fexp, Zdigits2.
  rewrite (digits2_unique q 53) by (cbn; lia).
  unfold fexp, emin.
  replace (Z.max (53 + e - 53) (3 - 1024 - 53) - e) with 0 by lia.
  reflexivity.
Qed.

Lemma shr_fexp_54 (q : positive) (e : Z) (l : location) :
  2 ^ 53 <= Z.pos q < 2 ^ 54 -> -1074 <= e ->
  shr_fexp 53 1024 (Z.pos q) e l = (shr_1 (shr_record_of_loc (Z.pos q) l), e + 1).
Proof.
  intros Hq He. unfold shr_fexp, Zdigits2.
  rewrite (digits2_unique q 54) by (cbn; lia).
  unfold fexp, emin.
  replace (Z.max (54 + e - 53) (3 - 1024 - 53) - e) with 1 by lia.
  reflexivity.
Qed.

Lemma round_nearest_even_range (m : Z) (l : location) :
  m <= round_nearest_even m l <= m + 1.
Proof.
  unfold round_nearest_even. destruct l as [|[]]; try lia.
  destruct (Z.even m); lia.
Qed.

(** The second normalisation of [binary_round_aux]: a mantissa of at
    most 53 bits stays, the carry [2^53] becomes [2^52]. *)
Lemma renormalise (m : Z) (e : Z) :
  2 ^ 52 <= m <= 2 ^ 53 -> -1074 <= e -> e + 1 <= 971 ->
  exists (m' : positive) (e' : Z),
    (let '(mrs, e'') := shr_fexp 53 1024 m e loc_Exact in
     match shr_m mrs with
     | Z0 => S754_zero false
     | Zpos m0 => if e'' <=? 1024 - 53 then S754_finite false m0 e'' else S754_infinity false
     | Zneg _ => S754_nan
     end) = S754_finite false m' e' /\
    ((m < 2 ^ 53 /\ Z.pos m' = m /\ e' = e) \/
     (m = 2 ^ 53 /\ Z.pos m' = 2 ^ 52 /\ e' = e + 1)).
Proof.
  intros Hm He He'.
  destruct (Z.eq_dec m (2 ^ 53)) as [->|Hne].
  - exists 4503599627370496%positive, (e + 1).
    change (2 ^ 53) with (Z.pos 9007199254740992).
    rewrite shr_fexp_54 by lia.
    cbn [shr_record_of_loc shr_1 shr_m].
    split; [|right; repeat split].
    change (1024 - 53) with 971.
    destruct (Z.leb_spec (e + 1) 971); [reflexivity|lia].
  - destruct m as [|q|q]; try lia.
    exists q, e. rewrite shr_fexp_53 by lia. cbn [shr_record_of_loc shr_m].
    split; [|left; repeat split; lia].
    change (1024 - 53) with 971. destruct (Z.leb_spec e 971); [reflexivity|lia].
Qed.

Lemma loc_of_shr_record_of_loc (m : Z) (l : location) :
  loc_of_shr_record (shr_record_of_loc m l) = l /\
  shr_m (shr_record_of_loc m l) = m.
Proof. destruct l as [|[]]; split; reflexivity. Qed.

Lemma round_aux_53 (q : positive) (e : Z) (l : location) :
  2 ^ 52 <= Z.pos q < 2 ^ 53 -> -1074 <= e -> e + 1 <= 971 ->
  exists (m' : positive) (e' : Z),
    binary_round_aux 53 1024 false (Z.pos q) e l = S754_finite false m' e' /\
    ((e' = e /\ Z.pos q <= Z.pos m' <= Z.pos q + 1 /\ Z.pos m' < 2 ^ 53) \/
     (e' = e + 1 /\ Z.pos m' = 2 ^ 52 /\ Z.pos q + 1 = 2 ^ 53)).
Proof.
  intros Hq He He'. unfold binary_round_aux.
  rewrite shr_fexp_53 by assumption.
  destruct (loc_of_shr_record_of_loc (Z.pos q) l) as [-> ->].
  pose proof (round_nearest_even_range (Z.pos q) l) as Hr.
  destruct (renormalise (round_nearest_even (Z.pos q) l) e) as (m' & e' & Heq & Hcase);
    [lia|lia|lia|].
  exists m', e'. split; [exact Heq|].
  destruct Hcase as [(H1 & H2 & H3)|(H1 & H2 & H3)]; [left|right]; lia.
Qed.

Lemma shr_1_half (q : positive) (l : location) :
  2 <= Z.pos q ->
  shr_m (shr_1 (shr_record_of_loc (Z.pos q) l)) = Z.pos q / 2.
Proof.
  intros Hq. destruct l as [|[]], q as [q|q|]; cbn [shr_record_of_loc shr_1 shr_m];
    try lia.
  all: try (apply (Z.div_unique (Z.pos q~1) 2 (Z.pos q) 1); lia).
  all: apply (Z.div_unique (Z.pos q~0) 2 (Z.pos q) 0); lia.
Qed.

Lemma round_aux_54 (q : positive) (e : Z) (l : location) :
  2 ^ 53 <= Z.pos q < 2 ^ 54 -> -1074 <= e -> e + 2 <= 971 ->
  exists (m' : positive) (e' : Z),
    binary_round_aux 53 1024 false (Z.pos q) e l = S754_finite false m' e' /\
    ((e' = e + 1 /\ Z.pos q / 2 <= Z.pos m' <= Z.pos q / 2 + 1 /\ Z.pos m' < 2 ^ 53) \/
     (e' = e + 2 /\ Z.pos m' = 2 ^ 52 /\ Z.pos q / 2 + 1 = 2 ^ 53)).
Proof.
  intros Hq He He'. unfold binary_round_aux.
  rewrite shr_fexp_54 by assumption.
  rewrite shr_1_half by lia.
  set (l' := loc_of_shr_record _).
  pose proof (round_nearest_even_range (Z.pos q / 2) l') as Hr.
  assert (Hh : 2 ^ 52 <= Z.pos q / 2 < 2 ^ 53).
  { split; [apply Z.div_le_lower_bound; lia | apply Z.div_lt_upper_bound; lia]. }
  destruct (renormalise (round_nearest_even (Z.pos q / 2) l') (e + 1))
    as (m' & e' & Heq & Hcase); [lia|lia|lia|].
  exists m', e'. split; [exact Heq|].
  destruct Hcase as [(H1 & H2 & H3)|(H1 & H2 & H3)]; [left|right]; lia.
Qed.

Lemma round_aux_exact (q : positive) (e : Z) :
  2 ^ 52 <= Z.pos q < 2 ^ 53 -> -1074 <= e -> e <= 971 ->
  binary_round_aux 53 1024 false (Z.pos q) e loc_Exact = S754_finite false q e.
Proof.
  intros Hq He He'. unfold binary_round_aux.
  rewrite shr_fexp_53 by assumption.
  cbn [shr_record_of_loc shr_m loc_of_shr_record round_nearest_even].
  rewrite shr_fexp_53 by assumption. cbn [shr_record_of_loc shr_m].
  change (1024 - 53) with 971. destruct (Z.leb_spec e 971); [reflexivity|lia].
Qed.

Lemma iter_xO (n d : positive) : Z.pos (Pos.iter xO n d) = Z.pos n * 2 ^ Z.pos d.
Proof.
  induction d as [|d IH] using Pos.peano_ind.
  - cbn. lia.
  - rewrite Pos.iter_succ, Pos2Z.inj_succ, Z.pow_succ_r by lia.
    change (Z.pos (Pos.iter xO n d)~0) with (2 * Z.pos (Pos.iter xO n d)).
    rewrite IH. lia.
Qed.

(** A positive integer below [2^32] converts exactly: its digits moved
    to the top of a 53-bit mantissa. *)
Lemma float64_of_Z_shape (n : Z) :
  0 < n < 2 ^ 32 ->
  exists (m : positive) (k s : Z),
    float64_of_Z n = S754_finite false m (k - 53) /\
    1 <= k <= 32 /\ s = 2 ^ (53 - k) /\ Z.pos m = n * s /\
    2 ^ 52 <= Z.pos m < 2 ^ 53 /\ 2 ^ (k - 1) <= n < 2 ^ k.
Proof.
  intros Hn. destruct n as [|p|p]; try lia.
  set (k := Z.pos (digits2_pos p)).
  pose proof (digits2_bounds p) as Hb. fold k in Hb.
  assert (Hk : 1 <= k <= 32).
  { split; [unfold k; lia|].
    destruct (Z.le_gt_cases k 32) as [|Hgt]; [assumption|].
    assert (2 ^ 32 <= 2 ^ (k - 1)) by (apply Z.pow_le_mono_r; lia). lia. }
  unfold float64_of_Z, binary_normalize, binary_round. fold k.
  unfold fexp, emin.
  replace (Z.max (k + 0 - 53) (3 - 1024 - 53)) with (k - 53) by lia.
  unfold shl_align.
  destruct (k - 53 - 0) as [|d|d] eqn:Hd; try lia.
  assert (Hd' : Z.pos d = 53 - k) by lia.
  assert (Hs : 2 ^ 21 <= 2 ^ Z.pos d) by (apply Z.pow_le_mono_r; lia).
  assert (Hm : 2 ^ 52 <= Z.pos (Pos.iter xO p d) < 2 ^ 53).
  { rewrite iter_xO, Hd'.
    replace (2 ^ 52) with (2 ^ (k - 1) * 2 ^ (53 - k))
      by (rewrite <- Z.pow_add_r by lia; f_equal; lia).
    replace (2 ^ 53) with (2 ^ k * 2 ^ (53 - k))
      by (rewrite <- Z.pow_add_r by lia; f_equal; lia).
    assert (0 < 2 ^ (53 - k)) by (apply Z.pow_pos_nonneg; lia).
    split; [apply Z.mul_le_mono_nonneg_r; lia | apply Z.mul_lt_mono_pos_r; lia]. }
  exists (Pos.iter xO p d), k, (2 ^ Z.pos d).
  split; [apply round_aux_exact; lia|].
  split; [exact Hk|]. split; [rewrite Hd'; reflexivity|]. split; [apply iter_xO|].
  split; [exact Hm | exact Hb].
Qed.

(** Division of two floats with full mantissas: the quotient of the
    mantissas scaled by [2^53], then one rounding. *)
Lemma f64_div_normal (m1 m2 : positive) (e1 e2 : Z) :
  2 ^ 52 <= Z.pos m1 < 2 ^ 53 ->
  2 ^ 52 <= Z.pos m2 < 2 ^ 53 ->
  -1021 <= e1 - e2 ->
  f64_div (S754_finite false m1 e1) (S754_finite false m2 e2) =
  binary_round_aux 53 1024 false (Z.pos m1 * 2 ^ 53 / Z.pos m2) (e1 - e2 - 53)
    (new_location (Z.pos m2) ((Z.pos m1 * 2 ^ 53) mod Z.pos m2)).
Proof.
  intros H1 H2 He. unfold f64_div, SFdiv, SFdiv_core_binary, Zdigits2.
  rewrite (digits2_unique m1 53), (digits2_unique m2 53) by (cbn; lia).
  unfold fexp, emin.
  replace (Z.min (Z.max (53 + e1 - (53 + e2) - 53) (3 - 1024 - 53)) (e1 - e2))
    with (e1 - e2 - 53) by lia.
  replace (e1 - e2 - (e1 - e2 - 53)) with 53 by lia.
  rewrite Z.shiftl_mul_pow2 by lia.
  unfold Z.div, Z.modulo.
  destruct (Z.div_eucl (Z.pos m1 * 2 ^ 53) (Z.pos m2)) as [q r]. reflexivity.
Qed.

Lemma f64_ge_0_6_finite (m : positive) (e : Z) :
  f64_ge (S754_finite false m e) f64_0_6 = true <->
  -53 < e \/ (e = -53 /\ 5404319552844595 <= Z.pos m).
Proof.
  unfold f64_ge, f64_0_6, SFleb, SFcompare.
  destruct (Z.compare_spec (-53) e) as [He|He|He].
  - rewrite Pos.compare_cont_spec. unfold Pos.switch_Eq.
    destruct (Pos.compare_spec 5404319552844595 m) as [Hc|Hc|Hc].
    + split; [intros _; right; split; [symmetry; exact He|]|reflexivity].
      rewrite <- Hc. apply Z.le_refl.
    + split; [intros _; right; split; [symmetry; exact He|]|reflexivity].
      apply Pos2Z.pos_le_pos, Pos.lt_le_incl, Hc.
    + split; [discriminate|]. intros [H|[_ H]].
      * rewrite <- He in H. destruct (Z.lt_irrefl _ H).
      * apply Pos2Z.pos_lt_pos in Hc. destruct (Z.lt_irrefl (Z.pos m)).
        eapply Z.lt_le_trans; [exact Hc | exact H].
  - split; [intros _; left; exact He|reflexivity].
  - split; [discriminate|]. intros [H|[H _]].
    + destruct (Z.lt_irrefl e). eapply Z.lt_trans; [exact He | exact H].
    + rewrite H in He. destruct (Z.lt_irrefl _ He).
Qed.

(** The integer core: a quotient [q] of [c * f * 2^53] by [r] (both
    scaled by [s]) lies on the side of [c * 0.6 * 2^53] that [5 f] and
    [3 r] decide, with room to spare for one unit of rounding. *)
Lemma quotient_side (c f r s q : Z) :
  c = 1 \/ c = 2 ->
  0 <= f -> 0 < r < 2 ^ 32 -> 0 < s ->
  q * (r * s) <= c * (f * s) * 2 ^ 53 < (q + 1) * (r * s) ->
  (3 * r <= 5 * f -> c * 5404319552844595 <= q) /\
  (5 * f < 3 * r -> q + 1000 < c * 5404319552844595).
Proof.
  intros Hc Hf Hr Hs [Hq1 Hq2].
  assert (HY : 0 < r * s) by (apply Z.mul_pos_pos; lia).
  assert (HYs : r * s <= (2 ^ 32 - 1) * s) by (apply Z.mul_le_mono_nonneg_r; lia).
  set (X := f * s) in *. set (Y := r * s) in *.
  split.
  - intros H.
    assert (HXY : 3 * Y <= 5 * X).
    { unfold X, Y. rewrite !Z.mul_assoc. apply Z.mul_le_mono_nonneg_r; lia. }
    destruct (Z.lt_ge_cases q (c * 5404319552844595)) as [Hlt|]; [exfalso|assumption].
    assert (Hm : (q + 1) * Y <= c * 5404319552844595 * Y)
      by (apply Z.mul_le_mono_nonneg_r; lia).
    destruct Hc as [-> | ->]; lia.
  - intros H.
    assert (HXY : 5 * X + s <= 3 * Y).
    { unfold X, Y. replace (5 * (f * s) + s) with ((5 * f + 1) * s) by ring.
      rewrite Z.mul_assoc. apply Z.mul_le_mono_nonneg_r; lia. }
    destruct (Z.lt_ge_cases (q + 1000) (c * 5404319552844595)) as [|Hge];
      [assumption|exfalso].
    assert (Hm : (c * 5404319552844595 - 1000) * Y <= q * Y)
      by (apply Z.mul_le_mono_nonneg_r; lia).
    destruct Hc as [-> | ->]; lia.
Qed.

Lemma pow2_53_split (k : Z) :
  1 <= k <= 32 -> 0 < 2 ^ (53 - k) /\ 2 ^ (53 - (k - 1)) = 2 * 2 ^ (53 - k).
Proof.
  intros Hk. split; [apply Z.pow_pos_nonneg; lia|].
  replace (53 - (k - 1)) with (Z.succ (53 - k)) by lia.
  apply Z.pow_succ_r. lia.
Qed.

(** [float64(f) / float64(r) >= 0.6] on 32-bit counters is the exact
    comparison [3 r <= 5 f]. *)
Theorem ratio_ge_0_6 (f r : Z) :
  0 <= f < 2 ^ 32 ->
  3 <= r < 2 ^ 32 ->
  f64_ge (f64_div (float64_of_Z f) (float64_of_Z r)) f64_0_6 = true <->
  3 * r <= 5 * f.
Proof.
  intros Hf Hr.
  destruct (float64_of_Z_shape r) as (m2 & k2 & s2 & E2 & Hk2 & Hs2 & Hm2 & Hb2 & Hr2);
    [lia|].
  destruct (Z.eq_dec f 0) as [->|Hf0].
  { rewrite E2. change (float64_of_Z 0) with (S754_zero false).
    unfold f64_div, f64_ge, f64_0_6. cbn [SFdiv xorb SFleb SFcompare].
    split; [discriminate|lia]. }
  destruct (float64_of_Z_shape f) as (m1 & k1 & s1 & E1 & Hk1 & Hs1 & Hm1 & Hb1 & Hf1);
    [lia|].
  rewrite E1, E2, f64_div_normal by lia.
  replace (k1 - 53 - (k2 - 53) - 53) with (k1 - k2 - 53) by lia.
  set (q := Z.pos m1 * 2 ^ 53 / Z.pos m2).
  set (l := new_location _ _).
  assert (Hq1 : q * Z.pos m2 <= Z.pos m1 * 2 ^ 53).
  { unfold q. rewrite (Z.mul_comm _ (Z.pos m2)). apply Z.mul_div_le. lia. }
  assert (Hq2 : Z.pos m1 * 2 ^ 53 < (q + 1) * Z.pos m2).
  { unfold q. rewrite (Z.mul_comm _ (Z.pos m2)). apply Z.mul_succ_div_gt. lia. }
  assert (Hq : 2 ^ 52 <= q < 2 ^ 54).
  { unfold q. split.
    - apply Z.div_le_lower_bound; lia.
    - apply Z.div_lt_upper_bound; lia. }
  destruct (pow2_53_split k1 Hk1) as [Hs1pos _].
  destruct (pow2_53_split k2 Hk2) as [Hs2pos Hs2succ].
  rewrite <- Hs1 in Hs1pos. rewrite <- Hs2 in Hs2pos.
  (* the binade of the quotient *)
  assert (Hside :
    (k1 = k2 -> (3 * r <= 5 * f -> 5404319552844595 <= q) /\
                (5 * f < 3 * r -> q + 1000 < 5404319552844595)) /\
    (k1 = k2 - 1 -> (3 * r <= 5 * f -> 2 * 5404319552844595 <= q) /\
                    (5 * f < 3 * r -> q + 1000 < 2 * 5404319552844595)) /\
    (k2 < k1 -> 3 * r <= 5 * f) /\
    (k1 < k2 - 1 -> 5 * f < 3 * r) /\
    (k1 = k2 - 1 -> q < 2 ^ 53 -> 5 * f < 3 * r) /\
    (k1 = k2 -> 2 ^ 53 <= q -> 3 * r <= 5 * f)).
  { split; [|split; [|split; [|split; [|split]]]].
    - intros Hk. assert (Hss : s1 = s2) by (rewrite Hs1, Hs2; f_equal; lia).
      rewrite Hss in Hm1.
      replace (5404319552844595) with (1 * 5404319552844595) by reflexivity.
      apply (quotient_side 1 f r s2 q); lia.
    - intros Hk. assert (Hss : s1 = 2 * s2).
      { rewrite Hs1, Hs2, Hk. apply Hs2succ. }
      rewrite Hss in Hm1.
      apply (quotient_side 2 f r s2 q); lia.
    - intros Hk. assert (2 ^ k2 <= 2 ^ (k1 - 1)) by (apply Z.pow_le_mono_r; lia). lia.
    - intros Hk. assert (2 ^ k1 <= 2 ^ (k2 - 2)) by (apply Z.pow_le_mono_r; lia).
      assert (2 ^ (k2 - 1) = 2 * 2 ^ (k2 - 2)).
      { replace (k2 - 1) with (Z.succ (k2 - 2)) by lia. apply Z.pow_succ_r. lia. }
      lia.
    - intros Hk Hlt. assert (Hss : s1 = 2 * s2).
      { rewrite Hs1, Hs2, Hk. apply Hs2succ. }
      rewrite Hss in Hm1.
      assert (Z.pos m1 < Z.pos m2).
      { apply (Z.mul_lt_mono_pos_r (2 ^ 53)); [lia|].
        apply Z.lt_le_trans with ((q + 1) * Z.pos m2); [exact Hq2|].
        rewrite (Z.mul_comm (Z.pos m2)). apply Z.mul_le_mono_nonneg_r; lia. }
      assert (2 * f < r).
      { apply (Z.mul_lt_mono_pos_r s2); [lia|]. rewrite <- Hm2.
        lia. }
      lia.
    - intros Hk Hge. assert (Hss : s1 = s2) by (rewrite Hs1, Hs2; f_equal; lia).
      rewrite Hss in Hm1.
      assert (Z.pos m2 <= Z.pos m1).
      { apply (Z.mul_le_mono_pos_r _ _ (2 ^ 53)); [lia|].
        transitivity (q * Z.pos m2); [|exact Hq1].
        rewrite (Z.mul_comm (Z.pos m2)). apply Z.mul_le_mono_nonneg_r; lia. }
      assert (r <= f).
      { apply (Z.mul_le_mono_pos_r _ _ s2); [lia|]. rewrite <- Hm1, <- Hm2. lia. }
      lia. }
  destruct Hside as (Heq & Hpred & Hbig & Hsmall & HpredA & HeqB).
  destruct q as [|qp|qp]; try lia.
  destruct (Z.lt_ge_cases (Z.pos qp) (2 ^ 53)) as [H53|H54].
  - destruct (round_aux_53 qp (k1 - k2 - 53) l) as (m' & e' & -> & Hcase);
      [lia|lia|lia|].
    rewrite f64_ge_0_6_finite.
    destruct (Z.le_gt_cases (3 * r) (5 * f)) as [Hge|Hlt].
    + split; [intros _; exact Hge|intros _].
      destruct (Z.lt_trichotomy k1 k2) as [Hk|[Hk|Hk]].
      * exfalso. destruct (Z.eq_dec k1 (k2 - 1)) as [Hk'|Hk'];
          [specialize (HpredA Hk' H53) | specialize (Hsmall ltac:(lia))]; lia.
      * destruct (Heq Hk) as [H1 _]. specialize (H1 Hge).
        destruct Hcase as [(-> & Hm' & _)|(-> & _ & _)]; [right; lia | left; lia].
      * left. destruct Hcase as [(-> & _)|(-> & _)]; lia.
    + split; [intros Hres; exfalso|intros H; lia].
      destruct (Z.lt_trichotomy k1 k2) as [Hk|[Hk|Hk]].
      * destruct Hcase as [(-> & _)|(-> & Hm' & _)];
          destruct Hres as [Hres|[Hres1 Hres2]]; lia.
      * destruct (Heq Hk) as [_ H2]. specialize (H2 Hlt).
        destruct Hcase as [(-> & Hm' & _)|(-> & _ & Hc)];
          destruct Hres as [Hres|[Hres1 Hres2]]; lia.
      * specialize (Hbig Hk). lia.
  - destruct (round_aux_54 qp (k1 - k2 - 53) l) as (m' & e' & -> & Hcase);
      [lia|lia|lia|].
    rewrite f64_ge_0_6_finite.
    assert (Hhalf : 2 * (Z.pos qp / 2) <= Z.pos qp < 2 * (Z.pos qp / 2) + 2).
    { pose proof (Z.div_mod (Z.pos qp) 2 ltac:(lia)).
      pose proof (Z.mod_pos_bound (Z.pos qp) 2 ltac:(lia)). lia. }
    destruct (Z.le_gt_cases (3 * r) (5 * f)) as [Hge|Hlt].
    + split; [intros _; exact Hge|intros _].
      destruct (Z.lt_trichotomy k1 k2) as [Hk|[Hk|Hk]].
      * destruct (Z.eq_dec k1 (k2 - 1)) as [Hk'|Hk'];
          [|specialize (Hsmall ltac:(lia)); lia].
        destruct (Hpred Hk') as [H1 _]. specialize (H1 Hge).
        destruct Hcase as [(-> & Hm' & _)|(-> & _ & _)]; [right; lia | left; lia].
      * left. destruct Hcase as [(-> & _)|(-> & _)]; lia.
      * left. destruct Hcase as [(-> & _)|(-> & _)]; lia.
    + split; [intros Hres; exfalso|intros H; lia].
      destruct (Z.lt_trichotomy k1 k2) as [Hk|[Hk|Hk]].
      * destruct (Z.eq_dec k1 (k2 - 1)) as [Hk'|Hk'].
        -- destruct (Hpred Hk') as [_ H2]. specialize (H2 Hlt).
           destruct Hcase as [(-> & Hm' & _)|(-> & _ & Hc)];
             destruct Hres as [Hres|[Hres1 Hres2]]; lia.
        -- destruct Hcase as [(-> & _)|(-> & Hm' & _)];
             destruct Hres as [Hres|[Hres1 Hres2]]; lia.
      * specialize (HeqB Hk H54). lia.
      * specialize (Hbig Hk). lia.
Qed.

(** ** Running the monad *)

Lemma bind_run {A B} (c : M A) (k : A -> M B) (w : World) :
  (c ≫= k) w =
  match c w with
  | (Ok a, w') => k a w'
  | (Panic v, w') => (Panic v, w')
  end.
Proof. reflexivity. Qed.


(** Unfold the primitive computations and project the updated world. *)
Ltac run :=
  cbv [mbind M_bind bind mret M_ret ret panic world time_Now sleep emit
       log_Printf reply];
  cbn [add_events set_trace set_redis set_heap set_clock set_inputs
       clock redis heap trace net rng fst snd].

Lemma client_Get_run (key : string) (w : World) :
  client_Get key w = (Ok (get_reply w key), add_events w [EvGet key]).
Proof.
  unfold client_Get, get_reply. run.
  destruct (get_fault (net w)); [reflexivity|].
  destruct (lookup_live (redis w) (clock w) key); reflexivity.
Qed.

Lemma client_SetNX_lease_run (key : string) (w : World) :
  client_SetNX key cache.StatusInProgress cache.InProgressExpiry w =
  let w1 := add_events w [EvSetNX key cache.StatusInProgress cache.InProgressExpiry] in
  match setnx_fault (net w) with
  | Some e => (Ok (false, Some e), w1)
  | None =>
    match lookup_live (redis w) (clock w) key with
    | Some _ => (Ok (false, None), w1)
    | None => (Ok (true, None), set_redis w1 (<[key := lease (clock w)]> (redis w)))
    end
  end.
Proof.
  unfold client_SetNX, write_key. run.
  destruct (setnx_fault (net w)); [reflexivity|].
  destruct (lookup_live (redis w) (clock w) key); reflexivity.
Qed.

Lemma client_Set_completed_run (key : string) (w : World) :
  client_Set key cache.StatusCompleted cache.CompletedExpiry w =
  let w1 := add_events w [EvSet key cache.StatusCompleted cache.CompletedExpiry] in
  match set_fault (net w) with
  | Some e => (Ok (Some e), w1)
  | None => (Ok None, set_redis w1 (<[key := completed (clock w)]> (redis w)))
  end.
Proof.
  unfold client_Set, write_key. run.
  destruct (set_fault (net w)); reflexivity.
Qed.

(** ** The idempotency gate *)

(** The whole of [CheckOrSetInProgress] as one equation on worlds. *)
Lemma CheckOrSetInProgress_run (rs : cache.RedisStore) (ctx : Context)
    (id : string) (w : World) :
  cache.RedisStore_CheckOrSetInProgress rs ctx id w =
  let key := txn_key id in
  let w1 := add_events w [EvGet key] in
  let w2 := add_events w1 [EvSetNX key cache.StatusInProgress cache.InProgressExpiry] in
  let '(status, err) := get_reply w key in
  if is_nil err && String.eqb status cache.StatusCompleted then (Ok (true, None), w1)
  else
    match setnx_fault (net w) with
    | Some e => (Ok (false, Some (fmt_Errorf_w "redis SETNX error: " e)), w2)
    | None =>
      match lookup_live (redis w) (clock w) key with
      | Some _ => (Ok (true, Some (errors_New "transaction already in progress")), w2)
      | None => (Ok (false, None), set_redis w2 (<[key := lease (clock w)]> (redis w)))
      end
    end.
Proof.
  unfold cache.RedisStore_CheckOrSetInProgress. fold (txn_key id).
  rewrite bind_run, client_Get_run. cbn zeta.
  destruct (get_reply w (txn_key id)) as [status err].
  destruct (is_nil err && String.eqb status cache.StatusCompleted); [reflexivity|].
  rewrite bind_run, client_SetNX_lease_run. run.
  destruct (setnx_fault (net w)); [reflexivity|].
  destruct (lookup_live (redis w) (clock w) (txn_key id)); reflexivity.
Qed.

(** The entry of the handler in terms of the answer of the gate. *)
Lemma PayHandler_admit (a : Aggregator) (rs : cache.RedisStore)
    (r : Request) (req : providers.PaymentRequest) (w : World) :
  Store a = cache.RedisStore_impl rs ->
  Method r = "POST" ->
  Body r = Some req ->
  PayHandler a r w =
  match cache.RedisStore_CheckOrSetInProgress rs (Ctx r) (providers.TransactionID req) w with
  | (Ok (isDuplicate, err), w') =>
    if in_progress_text err then (Ok too_early, w')
    else if isDuplicate then (Ok conflict, w')
    else route a r req w'
  | (Panic v, w') => (Panic v, w')
  end.
Proof.
  intros HS HM HB. unfold PayHandler. rewrite HM, HB, HS.
  cbn [String.eqb Ascii.eqb Bool.eqb negb cache.CheckOrSetInProgress cache.RedisStore_impl].
  rewrite bind_run.
  destruct (cache.RedisStore_CheckOrSetInProgress _ _ _ w) as [[[dup err]|v] w']; [|reflexivity].
  destruct (in_progress_text err); [reflexivity|].
  destruct dup; reflexivity.
Qed.



Example admit_new :
  fst (cache.RedisStore_CheckOrSetInProgress redisStore context_Background "T1" world0)
  = Ok (false, None).
Proof. vm_compute. reflexivity. Qed.

Example admit_in_progress :
  fst (cache.RedisStore_CheckOrSetInProgress redisStore context_Background "T1"
         (with_record world0 "T1" (lease (995 * Second))))
  = Ok (true, Some (errors_New "transaction already in progress")).
Proof. vm_compute. reflexivity. Qed.

Example admit_completed :
  fst (cache.RedisStore_CheckOrSetInProgress redisStore context_Background "T1"
         (with_record world0 "T1" (completed (500 * Second))))
  = Ok (true, None).
Proof. vm_compute. reflexivity. Qed.

(** A lease that nobody completed admits the same id again once its
    10 s have passed. *)
Example admit_after_lease_expiry :
  fst (cache.RedisStore_CheckOrSetInProgress redisStore context_Background "T1"
         (with_record world0 "T1" (lease (989 * Second))))
  = Ok (false, None).
Proof. vm_compute. reflexivity. Qed.

(** ** The store is unreachable during the idempotency check *)

(** A failed [SETNX] reaches the handler as [(false, err)] with a text
    that is not the in-progress text, and the handler goes on to routing. *)
Lemma store_error_falls_through (a : Aggregator) (rs : cache.RedisStore)
    (r : Request) (req : providers.PaymentRequest) (w : World) (e1 e2 : error) :
  Store a = cache.RedisStore_impl rs ->
  Method r = "POST" ->
  Body r = Some req ->
  get_fault (net w) = Some e1 ->
  setnx_fault (net w) = Some e2 ->
  let key := txn_key (providers.TransactionID req) in
  PayHandler a r w =
  route a r req
    (add_events w [EvGet key;
                   EvSetNX key cache.StatusInProgress cache.InProgressExpiry]).
Proof.
  intros HS HM HB Hget Hset key.
  rewrite (PayHandler_admit a rs r req w HS HM HB).
  rewrite CheckOrSetInProgress_run. fold key.
  unfold get_reply. rewrite Hget, Hset. cbn.
  unfold add_events. cbn. rewrite <- app_assoc. reflexivity.
Qed.

(** C1 (the code departs from the claim).  The store refuses every
    connection; [CheckOrSetInProgress] reports the failed [SETNX], and
    the handler, which only compares the error text with the in-progress
    text, calls the provider and answers 200 OK. *)
Theorem unreachable_store_request_proceeds :
  let w := set_inputs world0 unreachable (draw 100 (float64_of_Z 1)) in
  let req := payment "T1" "MTN" in
  let r := post context_Background req in
  let out := PayHandler (aggregator_at (Some 1%positive)) r w in
  fst (cache.RedisStore_CheckOrSetInProgress redisStore (Ctx r) "T1" w)
  = Ok (false, Some (fmt_Errorf_w "redis SETNX error: " connection_refused)) /\
  redis (snd out) = ∅ /\
  (exists ctx res,
     EvProcessPayment "MTN_MOMO" ctx req (providers.Returns (Some res) None) ∈ trace (snd out)) /\
  fst out
  = Ok {| StatusCode := StatusOK;
          Payload := JsonResponse
            {| providers.Status := "SUCCESS";
               providers.ReferenceID := "MTN-1000300000000";
               providers.ProviderName := "MTN_MOMO";
               providers.IsIdempotent := true;
               providers.Message := "Transaction processed successfully." |} |}.
Proof.
  cbv zeta. split; [vm_compute; reflexivity|].
  split; [vm_compute; reflexivity|].
  split; [|vm_compute; reflexivity].
  eexists. eexists.
  apply list_elem_of_lookup. exists 3%nat. vm_compute. reflexivity.
Qed.

(** ** Running the breaker and the provider call *)

Lemma cb_beforeRequest_run (l : loc) (b : gobreaker.CircuitBreaker) (w : World) :
  heap w !! l = Some b ->
  cb_beforeRequest (Some l) w =
  (Ok (snd (gobreaker.beforeRequest b (clock w))),
   set_heap w (<[l := fst (gobreaker.beforeRequest b (clock w))]> (heap w))).
Proof.
  intros H. unfold cb_beforeRequest, load, store. run. rewrite H. run.
  destruct (gobreaker.beforeRequest b (clock w)) as [b' r]. reflexivity.
Qed.

Lemma cb_afterRequest_run (l : loc) (b : gobreaker.CircuitBreaker) (g : Z)
    (ok : bool) (w : World) :
  heap w !! l = Some b ->
  cb_afterRequest (Some l) g ok w =
  (Ok tt, set_heap w (<[l := gobreaker.afterRequest b g ok (clock w)]> (heap w))).
Proof.
  intros H. unfold cb_afterRequest, load, store. run. rewrite H. reflexivity.
Qed.

Lemma ProcessPayment_run (p : providers.PaymentProvider) (ctx : Context)
    (req : providers.PaymentRequest) (w : World) :
  ProcessPayment p ctx req w =
  (match fst (providers.process p ctx req (clock w) (rng w)) with
   | providers.Returns res err => Ok (res, err)
   | providers.Panics v => Panic v
   end, called w p ctx req).
Proof.
  unfold ProcessPayment, called. run.
  destruct (providers.process p ctx req (clock w) (rng w)) as [[res err|v] d];
    reflexivity.
Qed.

(** [Execute] around a provider call, as one equation: either the
    breaker refuses and the world only sees the breaker move, or the
    provider is called and its outcome is fed back to the breaker at the
    instant the call ends. *)
Lemma Execute_run (l : loc) (b : gobreaker.CircuitBreaker)
    (p : providers.PaymentProvider) (ctx : Context)
    (req : providers.PaymentRequest) (w : World) :
  heap w !! l = Some b ->
  Execute (Some l) (ProcessPayment p ctx req) w =
  let b1 := fst (gobreaker.beforeRequest b (clock w)) in
  let g := fst (snd (gobreaker.beforeRequest b (clock w))) in
  match snd (snd (gobreaker.beforeRequest b (clock w))) with
  | Some e => (Ok (None, Some e), set_heap w (<[l := b1]> (heap w)))
  | None =>
    let out := fst (providers.process p ctx req (clock w) (rng w)) in
    let w1 := called w p ctx req in
    let b2 := gobreaker.afterRequest b1 g (success_of b1 out) (clock w1) in
    (match out with
     | providers.Returns res err => Ok (Some res, err)
     | providers.Panics v => Panic v
     end, set_heap w1 (<[l := b2]> (heap w)))
  end.
Proof.
  intros H. unfold Execute. rewrite bind_run, (cb_beforeRequest_run l b w H).
  destruct (gobreaker.beforeRequest b (clock w)) as [b1 [g [e|]]]; cbn [fst snd].
  - reflexivity.
  - rewrite bind_run. unfold try. rewrite ProcessPayment_run.
    assert (Hc : called (set_heap w (<[l := b1]> (heap w))) p ctx req
                 = set_heap (called w p ctx req) (<[l := b1]> (heap w))).
    { unfold called. cbn.
      destruct (providers.process p ctx req (clock w) (rng w)); reflexivity. }
    assert (Hh : heap (called w p ctx req) = heap w).
    { unfold called.
      destruct (providers.process p ctx req (clock w) (rng w)); reflexivity. }
    cbn [clock rng set_heap]. rewrite Hc.
    set (w1 := called w p ctx req) in *.
    destruct (fst (providers.process p ctx req (clock w) (rng w))) as [res err|v].
    + rewrite bind_run. unfold load at 1. run. rewrite lookup_insert_eq. run.
      rewrite (cb_afterRequest_run l b1); [|cbn; apply lookup_insert_eq].
      cbn. rewrite insert_insert_eq. reflexivity.
    + rewrite bind_run.
      rewrite (cb_afterRequest_run l b1); [|cbn; apply lookup_insert_eq].
      cbn. rewrite insert_insert_eq. reflexivity.
Qed.

Lemma set_trace_twice (w : World) (t1 t2 : list Event) :
  set_trace (set_trace w t1) t2 = set_trace w t2.
Proof. reflexivity. Qed.

Lemma add_events_app (w : World) (e1 e2 : list Event) :
  add_events (add_events w e1) e2 = add_events w (e1 ++ e2).
Proof. unfold add_events. cbn. rewrite <- app_assoc. reflexivity. Qed.

Lemma route_not_found (a : Aggregator) (r : Request)
    (req : providers.PaymentRequest) (w : World) :
  Providers a !! "MTN" = None ->
  route a r req w =
  (Ok {| StatusCode := StatusNotFound;
         Payload := JsonMap [("error", "Provider MTN not found")] |}, w).
Proof. intros H. unfold route. rewrite H. reflexivity. Qed.

Lemma route_found (a : Aggregator) (r : Request)
    (req : providers.PaymentRequest) (w : World) (p : providers.PaymentProvider) :
  Providers a !! "MTN" = Some p ->
  route a r req w =
  let w0 :=
    add_events w
      ((if is_nil (Breakers a !! "MTN") then [no_breaker_warning "MTN"] else [])
       ++ [starting req p]) in
  let ctx := context_WithTimeout (Ctx r) (clock w) (1 * Second) in
  match Execute (default None (Breakers a !! "MTN")) (ProcessPayment p ctx req) w0 with
  | (Ok (result, errCB), w1) => respond a r req p result errCB w1
  | (Panic v, w1) => (Panic v, w1)
  end.
Proof.
  intros H. unfold route. rewrite H.
  destruct (Breakers a !! "MTN") as [bp|] eqn:Hb;
    cbn [is_nil from_option id app];
    run; unfold add_events, starting, no_breaker_warning;
    cbn [from_option id set_trace trace clock app]; cbv zeta;
    rewrite <- ?app_assoc, ?set_trace_twice; cbn [app];
    match goal with
    | |- context [Execute ?c ?q ?w0] =>
      destruct (Execute c q w0) as [[[result errCB]|v] w1]; reflexivity
    end.
Qed.

(** ** The breaker is open *)



(** ** After the breaker: errors, completion, response *)

Lemma respond_run (a : Aggregator) (rs : cache.RedisStore) (r : Request)
    (req : providers.PaymentRequest) (p : providers.PaymentProvider)
    (result : option (option providers.PaymentResponse)) (errCB : option error)
    (w : World) :
  Store a = cache.RedisStore_impl rs ->
  respond a r req p result errCB w =
  if is_ErrOpenState errCB then
    (Ok (service_unavailable p), add_events w [bypassing p])
  else
    match errCB with
    | Some e =>
      (Ok (internal_error e), add_events w [EvLog ("Provider/CB Error: " +:+ Error e)])
    | None =>
      match result with
      | None => (Panic "interface conversion: interface is nil", w)
      | Some None => (Panic nil_dereference, w)
      | Some (Some res) =>
        if String.eqb (providers.Status res) "SUCCESS" then
          match set_fault (net w) with
          | Some e =>
            (Ok (ok (providers.set_IsIdempotent res true)),
             add_events w [set_completed_event req; completion_warning req e])
          | None =>
            (Ok (ok (providers.set_IsIdempotent res true)),
             set_redis (add_events w [set_completed_event req])
               (<[txn_key (providers.TransactionID req) := completed (clock w)]> (redis w)))
          end
        else (Ok (ok res), w)
      end
    end.
Proof.
  intros HS. unfold respond. rewrite HS.
  cbn [cache.SetCompleted cache.RedisStore_impl].
  unfold cache.RedisStore_SetCompleted. fold (txn_key (providers.TransactionID req)).
  destruct (is_ErrOpenState errCB); [reflexivity|].
  destruct errCB as [e|]; [reflexivity|].
  destruct result as [[res|]|]; [|reflexivity|reflexivity].
  destruct (String.eqb (providers.Status res) "SUCCESS"); [|reflexivity].
  rewrite !bind_run, client_Set_completed_run. cbv zeta.
  destruct (set_fault (net w)); run; unfold add_events; cbn [trace set_trace];
    rewrite <- ?app_assoc; reflexivity.
Qed.

(** ** Timeouts *)

Lemma ctx_Err_cases (ctx : Context) :
  ctx_Err ctx = DeadlineExceeded \/ ctx_Err ctx = Canceled.
Proof.
  unfold ctx_Err. destruct (cancelAt ctx), (deadline ctx); auto.
  destruct (_ <? _); auto.
Qed.

(** The mock providers give up with [ctx.Err()] as soon as the context
    is done before their simulated latency has passed. *)
Lemma mock_reports_done (ctx : Context) (req : providers.PaymentRequest)
    (now : Time) (rnd : providers.Entropy) (d : Duration) :
  providers.select_Done ctx now ((providers.rand_Intn_600 rnd + 200) * Millisecond) = Some d ->
  providers.MTN_process ctx req now rnd = (providers.Returns None (Some (ctx_Err ctx)), d) /\
  providers.MTN_process_2 ctx req now rnd = (providers.Returns None (Some (ctx_Err ctx)), d) /\
  providers.Airtel_process ctx req now rnd = (providers.Returns None (Some (ctx_Err ctx)), d).
Proof.
  intros H. unfold providers.MTN_process, providers.MTN_process_2, providers.Airtel_process.
  cbv zeta. rewrite H. auto.
Qed.

(** Every context the handler gives to a provider ends at most one
    second after the call starts. *)
Lemma WithTimeout_bound (parent : Context) (now : Time) :
  exists t, deadline (context_WithTimeout parent now (1 * Second)) = Some t /\
            t <= now + Second /\
            doneAt (context_WithTimeout parent now (1 * Second)) <> None /\
            cancelAt (context_WithTimeout parent now (1 * Second)) = cancelAt parent.
Proof.
  unfold context_WithTimeout, doneAt. cbn.
  destruct (deadline parent) as [d|]; cbn.
  - exists (Z.min d (now + 1 * Second)).
    split; [reflexivity|]. split; [lia|]. split; [|reflexivity].
    destruct (cancelAt parent); discriminate.
  - exists (now + 1 * Second).
    split; [reflexivity|]. split; [lia|]. split; [|reflexivity].
    destruct (cancelAt parent); discriminate.
Qed.

(** A failure fed to a closed breaker inside its window is counted, and
    the counts decide whether the breaker trips. *)
Lemma afterRequest_failure_closed (b : gobreaker.CircuitBreaker) (now : Time) :
  gobreaker.state b = gobreaker.StateClosed ->
  (gobreaker.expiry b <> None -> gobreaker.Before (gobreaker.expiry b) now = false) ->
  let c := gobreaker.Counts_onFailure (gobreaker.counts b) in
  gobreaker.afterRequest b (gobreaker.generation b) false now =
  if gobreaker.readyToTrip b c
  then gobreaker.setState (gobreaker.set_counts b c) gobreaker.StateOpen now
  else gobreaker.set_counts b c.
Proof.
  intros Hs He c. unfold gobreaker.afterRequest, gobreaker.currentState.
  rewrite Hs.
  assert (Hcur : (negb (is_nil (gobreaker.expiry b)) &&
                  gobreaker.Before (gobreaker.expiry b) now) = false).
  { destruct (gobreaker.expiry b) as [t|]; [|reflexivity].
    cbn [is_nil negb andb]. apply He. discriminate. }
  rewrite Hcur, Z.eqb_refl, Hs. reflexivity.
Qed.

(** ** The configuration of a breaker never changes *)

Lemma same_config_refl (b : gobreaker.CircuitBreaker) : same_config b b.
Proof. repeat split. Qed.

Lemma same_config_trans (b1 b2 b3 : gobreaker.CircuitBreaker) :
  same_config b1 b2 -> same_config b2 b3 -> same_config b1 b3.
Proof.
  unfold same_config. intros (?&?&?&?&?&?) (?&?&?&?&?&?).
  repeat split; congruence.
Qed.

Lemma set_dynamic_config (b : gobreaker.CircuitBreaker) s g c e :
  same_config b (gobreaker.set_dynamic b s g c e).
Proof. repeat split. Qed.

Lemma toNewGeneration_config (b : gobreaker.CircuitBreaker) (now : Time) :
  same_config b (gobreaker.toNewGeneration b now).
Proof. repeat split. Qed.

Lemma setState_config (b : gobreaker.CircuitBreaker) (s : gobreaker.State) (now : Time) :
  same_config b (gobreaker.setState b s now).
Proof.
  unfold gobreaker.setState. destruct (decide _); repeat split.
Qed.

Lemma currentState_config (b : gobreaker.CircuitBreaker) (now : Time) :
  same_config b (gobreaker.currentState b now).
Proof.
  unfold gobreaker.currentState.
  destruct (gobreaker.state b);
    repeat match goal with |- context [if ?c then _ else _] => destruct c end;
    auto using same_config_refl, toNewGeneration_config, setState_config.
Qed.

Lemma beforeRequest_config (b : gobreaker.CircuitBreaker) (now : Time) :
  same_config b (fst (gobreaker.beforeRequest b now)).
Proof.
  unfold gobreaker.beforeRequest.
  pose proof (currentState_config b now) as H.
  destruct (gobreaker.state (gobreaker.currentState b now)); cbn [fst];
    repeat match goal with |- context [if ?c then _ else _] => destruct c end;
    cbn [fst]; try exact H;
    (eapply same_config_trans; [exact H | apply set_dynamic_config]).
Qed.

Lemma onSuccess_config (b : gobreaker.CircuitBreaker) (s : gobreaker.State) (now : Time) :
  same_config b (gobreaker.onSuccess b s now).
Proof.
  unfold gobreaker.onSuccess. destruct s;
    repeat match goal with |- context [if ?c then _ else _] => destruct c end;
    try apply same_config_refl; try apply set_dynamic_config.
  eapply same_config_trans; [|apply setState_config]. apply set_dynamic_config.
Qed.

Lemma onFailure_config (b : gobreaker.CircuitBreaker) (s : gobreaker.State) (now : Time) :
  same_config b (gobreaker.onFailure b s now).
Proof.
  unfold gobreaker.onFailure. destruct s;
    repeat match goal with |- context [if ?c then _ else _] => destruct c end;
    try apply same_config_refl; try apply set_dynamic_config;
    try apply setState_config.
  eapply same_config_trans; [|apply setState_config]. apply set_dynamic_config.
Qed.

Lemma afterRequest_config (b : gobreaker.CircuitBreaker) (g : Z) (s : bool) (now : Time) :
  same_config b (gobreaker.afterRequest b g s now).
Proof.
  unfold gobreaker.afterRequest.
  pose proof (currentState_config b now) as H.
  destruct (negb _); [exact H|].
  destruct s; (eapply same_config_trans; [exact H|]);
    auto using onSuccess_config, onFailure_config.
Qed.

(** The generation handed out by [beforeRequest] is the one the breaker
    is left in. *)
Lemma beforeRequest_generation (b : gobreaker.CircuitBreaker) (now : Time) :
  fst (snd (gobreaker.beforeRequest b now)) =
  gobreaker.generation (fst (gobreaker.beforeRequest b now)).
Proof.
  unfold gobreaker.beforeRequest.
  destruct (gobreaker.state (gobreaker.currentState b now)); cbn [fst snd];
    repeat match goal with |- context [if ?c then _ else _] => destruct c end;
    reflexivity.
Qed.

(** An admitted call leaves the breaker closed or half-open. *)
Lemma beforeRequest_admitted_state (b : gobreaker.CircuitBreaker) (now : Time) :
  snd (snd (gobreaker.beforeRequest b now)) = None ->
  gobreaker.state (fst (gobreaker.beforeRequest b now)) <> gobreaker.StateOpen.
Proof.
  unfold gobreaker.beforeRequest.
  destruct (gobreaker.state (gobreaker.currentState b now)) eqn:Hs; cbn [fst snd];
    repeat match goal with |- context [if ?c then _ else _] => destruct c end;
    cbn [fst snd gobreaker.set_counts gobreaker.set_dynamic gobreaker.state];
    intros H; try discriminate; rewrite Hs; discriminate.
Qed.

(** C7. The provider is called with the context of the request narrowed
    by a deadline one second after the call starts.  When the call ends
    with the error of that context (deadline passed or request
    cancelled), the caller gets 500 Internal Server Error carrying the
    text of that error, the breaker is fed a failure at the instant the
    call ends -- for a closed breaker still in the window of the call the
    failure count goes up by one and [ReadyToTrip] is consulted -- and
    [SetCompleted] is not called. *)
Theorem timeout_is_breaker_failure (a : Aggregator) (rs : cache.RedisStore)
    (r : Request) (req : providers.PaymentRequest) (w : World)
    (p : providers.PaymentProvider) (l : loc) (b : gobreaker.CircuitBreaker)
    (res : option providers.PaymentResponse) (d : Duration) :
  Store a = cache.RedisStore_impl rs ->
  Method r = "POST" ->
  Body r = Some req ->
  get_fault (net w) = None ->
  setnx_fault (net w) = None ->
  lookup_live (redis w) (clock w) (txn_key (providers.TransactionID req)) = None ->
  Providers a !! "MTN" = Some p ->
  Breakers a !! "MTN" = Some (Some l) ->
  heap w !! l = Some b ->
  gobreaker.isSuccessful b = IsSuccessful ->
  snd (snd (gobreaker.beforeRequest b (clock w))) = None ->
  let ctx := context_WithTimeout (Ctx r) (clock w) (1 * Second) in
  let b1 := fst (gobreaker.beforeRequest b (clock w)) in
  providers.process p ctx req (clock w) (rng w)
  = (providers.Returns res (Some (ctx_Err ctx)), d) ->
  exists w' : World,
    PayHandler a r w = (Ok (internal_error (ctx_Err ctx)), w') /\
    (ctx_Err ctx = DeadlineExceeded \/ ctx_Err ctx = Canceled) /\
    (exists t, deadline ctx = Some t /\ t <= clock w + Second) /\
    cancelAt ctx = cancelAt (Ctx r) /\
    EvProcessPayment (providers.Name p) ctx req
      (providers.Returns res (Some (ctx_Err ctx))) ∈ trace w' /\
    heap w' = <[l := gobreaker.afterRequest b1 (gobreaker.generation b1) false
                       (clock w + d)]> (heap w) /\
    (gobreaker.state b1 = gobreaker.StateClosed ->
     (gobreaker.expiry b1 <> None ->
      gobreaker.Before (gobreaker.expiry b1) (clock w + d) = false) ->
     let c := gobreaker.Counts_onFailure (gobreaker.counts b1) in
     gobreaker.TotalFailures c = u32 (gobreaker.TotalFailures (gobreaker.counts b1) + 1) /\
     heap w' !! l =
     Some (if gobreaker.readyToTrip b1 c
           then gobreaker.setState (gobreaker.set_counts b1 c) gobreaker.StateOpen (clock w + d)
           else gobreaker.set_counts b1 c)) /\
    redis w' = <[txn_key (providers.TransactionID req) := lease (clock w)]> (redis w).
Proof.
  intros HS HM HB Hget Hset Hlive Hp Hbr Hh Hok Hadm ctx b1 Hout.
  rewrite (PayHandler_admit a rs r req w HS HM HB), CheckOrSetInProgress_run.
  cbv zeta. unfold get_reply. rewrite Hget, Hset, Hlive.
  cbn [is_nil andb in_progress_text].
  rewrite (route_found a r req _ p Hp), Hbr. cbn [is_nil from_option id app].
  rewrite (Execute_run l b); [|exact Hh].
  cbn [clock rng add_events set_trace set_redis].
  rewrite Hadm. cbv zeta. unfold called.
  cbn [clock rng add_events set_trace set_redis]. fold ctx. rewrite Hout.
  cbn [fst snd clock rng add_events set_trace set_redis set_clock set_heap heap].
  fold b1. unfold success_of.
  assert (Hok1 : gobreaker.isSuccessful b1 = IsSuccessful).
  { destruct (beforeRequest_config b (clock w)) as (_&_&_&_&_&H). fold b1 in H.
    congruence. }
  rewrite Hok1. cbn [IsSuccessful is_nil].
  rewrite (respond_run a rs); [|exact HS].
  assert (Hne : is_ErrOpenState (Some (ctx_Err ctx)) = false).
  { destruct (ctx_Err_cases ctx) as [-> | ->]; reflexivity. }
  rewrite Hne, beforeRequest_generation. fold b1.
  eexists. split; [reflexivity|].
  cbn [trace heap redis clock add_events set_trace set_redis set_heap set_clock].
  split; [apply ctx_Err_cases|].
  destruct (WithTimeout_bound (Ctx r) (clock w)) as (t & Ht & Hle & _ & Hc).
  split; [exists t; auto|].
  split; [exact Hc|].
  split; [set_solver|].
  split; [reflexivity|].
  split; [|reflexivity].
  intros Hs He. split; [reflexivity|].
  rewrite lookup_insert_eq. f_equal.
  apply afterRequest_failure_closed; assumption.
Qed.


Lemma timeout_is_breaker_failure_witness :
  let a := aggregator_at (Some 1%positive) in
  let req := payment "T1" "MTN" in
  let r := post impatient req in
  let w := world0 in
  let p := providers.NewMTNProvider in
  let b := gobreaker.init settings (1000 * Second) in
  let ctx := context_WithTimeout (Ctx r) (clock w) (1 * Second) in
  let b1 := fst (gobreaker.beforeRequest b (clock w)) in
  let d := 50 * Millisecond in
  (Store a = cache.RedisStore_impl redisStore /\ Method r = "POST" /\
   Body r = Some req /\ get_fault (net w) = None /\ setnx_fault (net w) = None /\
   lookup_live (redis w) (clock w) (txn_key "T1") = None /\
   Providers a !! "MTN" = Some p /\ Breakers a !! "MTN" = Some (Some 1%positive) /\
   heap w !! 1%positive = Some b /\
   gobreaker.isSuccessful b = IsSuccessful /\
   snd (snd (gobreaker.beforeRequest b (clock w))) = None /\
   providers.process p ctx req (clock w) (rng w)
   = (providers.Returns None (Some (ctx_Err ctx)), d)) /\
  exists w' : World,
    PayHandler a r w = (Ok (internal_error (ctx_Err ctx)), w') /\
    (ctx_Err ctx = DeadlineExceeded \/ ctx_Err ctx = Canceled) /\
    (exists t, deadline ctx = Some t /\ t <= clock w + Second) /\
    cancelAt ctx = cancelAt (Ctx r) /\
    EvProcessPayment (providers.Name p) ctx req
      (providers.Returns None (Some (ctx_Err ctx))) ∈ trace w' /\
    heap w' = <[1%positive := gobreaker.afterRequest b1 (gobreaker.generation b1) false
                       (clock w + d)]> (heap w) /\
    (gobreaker.state b1 = gobreaker.StateClosed ->
     (gobreaker.expiry b1 <> None ->
      gobreaker.Before (gobreaker.expiry b1) (clock w + d) = false) ->
     let c := gobreaker.Counts_onFailure (gobreaker.counts b1) in
     gobreaker.TotalFailures c = u32 (gobreaker.TotalFailures (gobreaker.counts b1) + 1) /\
     heap w' !! 1%positive =
     Some (if gobreaker.readyToTrip b1 c
           then gobreaker.setState (gobreaker.set_counts b1 c) gobreaker.StateOpen (clock w + d)
           else gobreaker.set_counts b1 c)) /\
    redis w' = <[txn_key "T1" := lease (clock w)]> (redis w).
Proof.
  intros a req r w p b ctx b1 d. split.
  - repeat split.
  - exact (timeout_is_breaker_failure a redisStore r req w p 1%positive b None d
             eq_refl eq_refl eq_refl eq_refl eq_refl eq_refl eq_refl eq_refl
             eq_refl eq_refl eq_refl eq_refl).
Defined.

(** ** Completion happens exactly after a successful call *)

Lemma Execute_nil {R} (q : M (R * option error)) (w : World) :
  Execute None q w = (Panic nil_dereference, w).
Proof. reflexivity. Qed.

Lemma Execute_dangling {R} (l : loc) (q : M (R * option error)) (w : World) :
  heap w !! l = None ->
  Execute (Some l) q w = (Panic nil_dereference, w).
Proof.
  intros H. unfold Execute, cb_beforeRequest, load. run. rewrite H. reflexivity.
Qed.

Ltac events :=
  repeat match goal with
  | H : _ ∈ [] |- _ => apply elem_of_nil in H; destruct H
  | H : _ ∈ (_ :: _) |- _ => apply elem_of_cons in H; destruct H as [H|H]
  | H : _ ∈ (_ ++ _)%list |- _ => apply elem_of_app in H; destruct H as [H|H]
  | H : EvProcessPayment _ _ _ _ = _ |- _ => inversion H; clear H; subst
  | H : _ = EvProcessPayment _ _ _ _ |- _ => inversion H; clear H; subst
  | H : EvSet _ _ _ = _ |- _ => inversion H; clear H; subst
  | H : set_completed_event _ = _ |- _ => unfold set_completed_event in H
  | H : EvLog _ = _ |- _ => discriminate H
  | H : EvGet _ = _ |- _ => discriminate H
  | H : EvSetNX _ _ _ = _ |- _ => discriminate H
  end.








(** ** Routing *)

(** C2 (counterexample).  The aggregator of [newAggregator] registers
    "MTN" only; a request for "AIRTEL" is nevertheless served by the MTN
    provider with 200 OK, and the store has been written. *)
Lemma unknown_key_is_served :
  ~ routes_by_request_key (aggregator_at (Some 1%positive))
      (post context_Background (payment "T1" "AIRTEL")) world0.
Proof.
  intros H.
  destruct (H (payment "T1" "AIRTEL") eq_refl eq_refl eq_refl) as [[body Hb] _].
  vm_compute in Hb. discriminate Hb.
Qed.

(** C2 (amended).  The provider is looked up under the fixed key "MTN",
    whatever the key of the request, and after the idempotency check.
    When nothing is registered under "MTN", a newly admitted request gets
    404 Not Found; no breaker and no provider is touched, and the
    keyspace holds the IN_PROGRESS lease that the check wrote. *)
Theorem not_found_after_admission (a : Aggregator) (rs : cache.RedisStore)
    (r : Request) (req : providers.PaymentRequest) (w : World) :
  Store a = cache.RedisStore_impl rs ->
  Method r = "POST" ->
  Body r = Some req ->
  get_fault (net w) = None ->
  setnx_fault (net w) = None ->
  lookup_live (redis w) (clock w) (txn_key (providers.TransactionID req)) = None ->
  Providers a !! "MTN" = None ->
  let key := txn_key (providers.TransactionID req) in
  exists w' : World,
    PayHandler a r w = (Ok not_found, w') /\
    trace w' = (trace w ++ [EvGet key;
                            EvSetNX key cache.StatusInProgress cache.InProgressExpiry])%list /\
    heap w' = heap w /\
    clock w' = clock w /\
    redis w' = <[key := lease (clock w)]> (redis w).
Proof.
  intros HS HM HB Hget Hset Hlive Hp. cbv zeta.
  rewrite (PayHandler_admit a rs r req w HS HM HB), CheckOrSetInProgress_run.
  cbv zeta. unfold get_reply. rewrite Hget, Hset, Hlive.
  cbn [is_nil andb in_progress_text].
  rewrite route_not_found; [|exact Hp].
  eexists. split; [reflexivity|].
  cbn. rewrite <- app_assoc. repeat split.
Qed.

Lemma not_found_after_admission_witness :
  let req := payment "T1" "AIRTEL" in
  let r := post context_Background req in
  let w := world0 in
  let key := txn_key "T1" in
  (Store bare = cache.RedisStore_impl redisStore /\ Method r = "POST" /\
   Body r = Some req /\ get_fault (net w) = None /\ setnx_fault (net w) = None /\
   lookup_live (redis w) (clock w) key = None /\
   Providers bare !! "MTN" = None) /\
  exists w' : World,
    PayHandler bare r w = (Ok not_found, w') /\
    trace w' = (trace w ++ [EvGet key;
                            EvSetNX key cache.StatusInProgress cache.InProgressExpiry])%list /\
    heap w' = heap w /\
    clock w' = clock w /\
    redis w' = <[key := lease (clock w)]> (redis w).
Proof.
  intros req r w key. split.
  - repeat split.
  - exact (not_found_after_admission bare redisStore r req w
             eq_refl eq_refl eq_refl eq_refl eq_refl eq_refl eq_refl).
Defined.

(** ** A FAILED response without an error *)

(** C3 (the code departs from the claim).  The MTN provider of
    [providers/mtn.go] draws [0.05 < 0.10] and returns a FAILED response
    with a [nil] error.  [IsSuccessful] looks at the error alone, so the
    breaker counts the call as a success, and the caller gets 200 OK with
    the FAILED payload. *)
Theorem failed_response_counted_as_success :
  let w := set_inputs world0 reachable (draw 100 f64_0_05) in
  let req := payment "T1" "MTN" in
  let r := post context_Background req in
  let out := PayHandler (aggregator_at (Some 1%positive)) r w in
  let failed :=
    {| providers.Status := "FAILED";
       providers.ReferenceID := "N/A";
       providers.ProviderName := "MTN_MOMO";
       providers.IsIdempotent := false;
       providers.Message := "Provider internal server error (simulated 500)" |} in
  (exists ctx,
     EvProcessPayment "MTN_MOMO" ctx req (providers.Returns (Some failed) None)
     ∈ trace (snd out)) /\
  fst out = Ok (ok failed) /\
  gobreaker.counts <$> heap (snd out) !! 1%positive =
  Some {| gobreaker.Requests := 1;
          gobreaker.TotalSuccesses := 1;
          gobreaker.TotalFailures := 0;
          gobreaker.ConsecutiveSuccesses := 1;
          gobreaker.ConsecutiveFailures := 0 |}.
Proof.
  cbv zeta. split; [|split; vm_compute; reflexivity].
  eexists. apply list_elem_of_lookup. exists 3%nat. vm_compute. reflexivity.
Qed.

(** ** The aggregator of [newAggregator] *)

Lemma newAggregator_run (w : World) :
  newAggregator w =
  (Ok (aggregator_at (Some (fresh (dom (heap w))))),
   set_heap w (<[fresh (dom (heap w)) := gobreaker.init settings (clock w)]> (heap w))).
Proof. reflexivity. Qed.

(** The MTN provider never returns a [nil] response together with a
    [nil] error, and never panics. *)
Lemma MTN_process_shape (ctx : Context) (req : providers.PaymentRequest)
    (now : Time) (rnd : providers.Entropy) :
  exists d, (exists e, providers.MTN_process ctx req now rnd
                       = (providers.Returns None (Some e), d)) \/
            (exists res, providers.MTN_process ctx req now rnd
                         = (providers.Returns (Some res) None, d)).
Proof.
  unfold providers.MTN_process. cbv zeta.
  destruct (providers.select_Done _ _ _) as [d|]; [eauto|].
  destruct (f64_lt _ _); eauto.
Qed.

(** One request served by an aggregator built by [newAggregator] whose
    breaker is allocated: the handler answers (no panic), never logs the
    missing-breaker warning, and the breaker stays allocated. *)
Ltac not_warning :=
  intros ?; subst;
  unfold no_breaker_warning, starting, bypassing, set_completed_event,
    completion_warning in *;
  match goal with
  | H : @eq Event _ _ |- _ => cbn in H; discriminate H
  end.

Lemma newAggregator_step (l : loc) (b : gobreaker.CircuitBreaker)
    (r : Request) (w w' : World) (out : result Response) :
  heap w !! l = Some b ->
  PayHandler (aggregator_at (Some l)) r w = (out, w') ->
  (exists resp, out = Ok resp) /\
  (exists b', heap w' !! l = Some b') /\
  exists evs, trace w' = (trace w ++ evs)%list /\ no_breaker_warning "MTN" ∉ evs.
Proof.
  intros Hh Hrun.
  assert (Hfin : forall evs : list Event,
                   (forall e, e ∈ evs -> e <> no_breaker_warning "MTN") ->
                             no_breaker_warning "MTN" ∉ evs).
  { intros evs H Hin. exact (H _ Hin eq_refl). }
  destruct (String.eqb (Method r) "POST") eqn:HM.
  2:{ unfold PayHandler in Hrun. rewrite HM in Hrun. injection Hrun as <- <-.
      split; [eauto|]. split; [eauto|].
      exists []. split; [symmetry; apply app_nil_r | set_solver]. }
  apply String.eqb_eq in HM.
  destruct (Body r) as [req|] eqn:HB.
  2:{ unfold PayHandler in Hrun. rewrite HM, HB in Hrun. injection Hrun as <- <-.
      split; [eauto|]. split; [eauto|].
      exists []. split; [symmetry; apply app_nil_r | set_solver]. }
  rewrite (PayHandler_admit (aggregator_at (Some l)) redisStore r req w eq_refl HM HB),
    CheckOrSetInProgress_run in Hrun.
  cbv zeta in Hrun.
  assert (Hroute : forall (w2 : World) (adm : list Event),
    trace w2 = (trace w ++ adm)%list ->
    (forall e, e ∈ adm -> e <> no_breaker_warning "MTN") ->
    heap w2 = heap w ->
    route (aggregator_at (Some l)) r req w2 = (out, w') ->
    (exists resp, out = Ok resp) /\
    (exists b', heap w' !! l = Some b') /\
    exists evs, trace w' = (trace w ++ evs)%list /\ no_breaker_warning "MTN" ∉ evs).
  { clear Hrun. intros w2 adm Htr Hadm Hheap Hr.
    rewrite (route_found _ r req w2 providers.NewMTNProvider) in Hr; [|reflexivity].
    cbv zeta in Hr.
    change (Breakers (aggregator_at (Some l)) !! "MTN") with (Some (Some l)) in Hr.
    cbn [is_nil from_option id app] in Hr.
    rewrite (Execute_run l b) in Hr; [|cbn; rewrite Hheap; exact Hh].
    cbn [clock rng add_events set_trace set_redis heap] in Hr. cbv zeta in Hr.
    destruct (snd (snd (gobreaker.beforeRequest b (clock w2)))) as [e|].
    - rewrite (respond_run _ redisStore) in Hr; [|reflexivity].
      destruct (is_ErrOpenState (Some e)); injection Hr as <- <-;
        (split; [eauto|]); (split; [cbn; rewrite lookup_insert_eq; eauto|]);
        cbn; rewrite Htr, <- !app_assoc; eexists; (split; [reflexivity|]);
        apply Hfin; intros ev Hin; apply elem_of_app in Hin as [Hin|Hin];
        auto; events; not_warning.
    - unfold called in Hr. cbn [clock rng add_events set_trace providers.process
        providers.NewMTNProvider] in Hr.
      destruct (MTN_process_shape
                  (context_WithTimeout (Ctx r) (clock w2) (1 * Second)) req
                  (clock w2) (rng w2)) as [d [[e He]|[res He]]];
        rewrite He in Hr; cbn [fst snd] in Hr;
        rewrite (respond_run _ redisStore) in Hr; try reflexivity.
      + destruct (is_ErrOpenState (Some e)); injection Hr as <- <-;
          (split; [eauto|]); (split; [cbn; rewrite lookup_insert_eq; eauto|]);
          cbn; rewrite Htr, <- !app_assoc; eexists; (split; [reflexivity|]);
          apply Hfin; intros ev Hin; apply elem_of_app in Hin as [Hin|Hin];
          auto; events; not_warning.
      + cbn [is_ErrOpenState] in Hr.
        destruct (String.eqb (providers.Status res) "SUCCESS").
        * cbn [net add_events set_trace set_heap set_clock] in Hr.
          destruct (set_fault (net w2)); injection Hr as <- <-;
            (split; [eauto|]); (split; [cbn; rewrite lookup_insert_eq; eauto|]);
            cbn; rewrite Htr, <- !app_assoc; eexists; (split; [reflexivity|]);
            apply Hfin; intros ev Hin; apply elem_of_app in Hin as [Hin|Hin];
            auto; unfold set_completed_event, completion_warning in *;
            events; not_warning.
        * injection Hr as <- <-.
          (split; [eauto|]); (split; [cbn; rewrite lookup_insert_eq; eauto|]).
          cbn; rewrite Htr, <- !app_assoc; eexists; (split; [reflexivity|]).
          apply Hfin; intros ev Hin; apply elem_of_app in Hin as [Hin|Hin];
            auto; events; not_warning. }
  assert (Hearly : forall (resp : Response) (adm : list Event),
    (forall e, e ∈ adm -> e <> no_breaker_warning "MTN") ->
    (Ok resp, add_events w adm) = (out, w') ->
    (exists resp, out = Ok resp) /\
    (exists b', heap w' !! l = Some b') /\
    exists evs, trace w' = (trace w ++ evs)%list /\ no_breaker_warning "MTN" ∉ evs).
  { intros resp adm Hadm Heq. injection Heq as <- <-.
    split; [eauto|]. split; [eauto|]. exists adm. split; [reflexivity|]. auto. }
  set (key := txn_key (providers.TransactionID req)) in *.
  assert (Hadm : forall e, e ∈ [EvGet key;
                                EvSetNX key cache.StatusInProgress cache.InProgressExpiry]
                           -> e <> no_breaker_warning "MTN").
  { intros ev Hin. events; not_warning. }
  destruct (get_reply w key) as [status err].
  destruct (is_nil err && String.eqb status cache.StatusCompleted).
  { apply (Hearly conflict [EvGet key]); [|exact Hrun].
    intros ev Hin. events; not_warning. }
  destruct (setnx_fault (net w)) as [e|].
  { cbn [in_progress_text Error] in Hrun. rewrite add_events_app in Hrun.
    apply (Hroute _ [EvGet key; EvSetNX key cache.StatusInProgress cache.InProgressExpiry])
      in Hrun; auto. }
  rewrite add_events_app in Hrun.
  destruct (lookup_live (redis w) (clock w) key).
  { apply (Hearly too_early
             [EvGet key; EvSetNX key cache.StatusInProgress cache.InProgressExpiry]);
      [exact Hadm | exact Hrun]. }
  cbn [in_progress_text] in Hrun.
  apply (Hroute _ [EvGet key; EvSetNX key cache.StatusInProgress cache.InProgressExpiry])
    in Hrun; auto.
Qed.

Lemma serve_newAggregator (l : loc) (arrivals : list Arrival) :
  forall (w : World) (b : gobreaker.CircuitBreaker),
    heap w !! l = Some b ->
    Forall (fun out => exists resp, out = Ok resp)
           (fst (serve (aggregator_at (Some l)) arrivals w)) /\
    exists evs,
      trace (snd (serve (aggregator_at (Some l)) arrivals w)) = (trace w ++ evs)%list /\
      no_breaker_warning "MTN" ∉ evs.
Proof.
  induction arrivals as [|x rest IH]; intros w b Hh.
  - cbn. split; [constructor|]. exists []. split; [symmetry; apply app_nil_r|set_solver].
  - cbn [serve].
    set (w1 := set_inputs (set_clock w (clock w + idle x)) (connectivity x) (randomness x)).
    destruct (PayHandler (aggregator_at (Some l)) (request x) w1) as [out w2] eqn:Hrun.
    destruct (newAggregator_step l b (request x) w1 w2 out Hh Hrun)
      as (Hout & [b' Hb'] & evs1 & Htr1 & Hno1).
    destruct (IH w2 b' Hb') as (Houts & evs2 & Htr2 & Hno2).
    destruct (serve (aggregator_at (Some l)) rest w2) as [outs w3].
    cbn [fst snd] in *. split; [constructor; assumption|].
    exists (evs1 ++ evs2)%list. split.
    + rewrite Htr2, Htr1, app_assoc. reflexivity.
    + apply not_elem_of_app. auto.
Qed.

(** C10. In the aggregator built by [newAggregator], every key of
    [Providers] has a breaker in [Breakers], a non-nil pointer to an
    allocated breaker.  Whatever requests the server then handles, the
    handler never logs the missing-breaker warning and never panics, so
    [Execute] is never called on a [nil] breaker. *)
Theorem breakers_cover_providers (w0 : World) (arrivals : list Arrival) :
  exists (a : Aggregator) (w1 : World) (l : loc),
    newAggregator w0 = (Ok a, w1) /\
    (forall k, is_Some (Providers a !! k) ->
               Breakers a !! k = Some (Some l) /\ is_Some (heap w1 !! l)) /\
    Forall (fun out => exists resp, out = Ok resp) (fst (serve a arrivals w1)) /\
    exists evs,
      trace (snd (serve a arrivals w1)) = (trace w1 ++ evs)%list /\
      no_breaker_warning "MTN" ∉ evs.
Proof.
  rewrite newAggregator_run.
  set (l := fresh (dom (heap w0))).
  set (b := gobreaker.init settings (clock w0)).
  exists (aggregator_at (Some l)), (set_heap w0 (<[l := b]> (heap w0))), l.
  split; [reflexivity|].
  assert (Hh : heap (set_heap w0 (<[l := b]> (heap w0))) !! l = Some b)
    by apply lookup_insert_eq.
  split.
  - intros k [p Hk]. cbn in Hk. apply lookup_singleton_Some in Hk as [<- _].
    split; [reflexivity | rewrite Hh; eauto].
  - apply (serve_newAggregator l arrivals _ b Hh).
Qed.

(** ** Concurrent admissions *)

Lemma admit_step_AtGet_run (id : string) (w : World) :
  admit_step id AtGet w =
  (Ok (let '(status, err) := get_reply w (txn_key id) in
       if is_nil err && String.eqb status cache.StatusCompleted
       then Returned (true, None) else AtSetNX),
   add_events w [EvGet (txn_key id)]).
Proof.
  unfold admit_step. fold (txn_key id). rewrite bind_run, client_Get_run.
  destruct (get_reply w (txn_key id)) as [status err].
  destruct (is_nil err && String.eqb status cache.StatusCompleted); reflexivity.
Qed.

Lemma admit_step_AtSetNX_run (id : string) (w : World) :
  admit_step id AtSetNX w =
  let key := txn_key id in
  let w1 := add_events w [EvSetNX key cache.StatusInProgress cache.InProgressExpiry] in
  match setnx_fault (net w) with
  | Some e => (Ok (Returned (false, Some (fmt_Errorf_w "redis SETNX error: " e))), w1)
  | None =>
    match lookup_live (redis w) (clock w) key with
    | Some _ =>
      (Ok (Returned (true, Some (errors_New "transaction already in progress"))), w1)
    | None => (Ok (Returned (false, None)), set_redis w1 (<[key := lease (clock w)]> (redis w)))
    end
  end.
Proof.
  unfold admit_step. fold (txn_key id). rewrite bind_run, client_SetNX_lease_run.
  cbv zeta. destruct (setnx_fault (net w)); [reflexivity|].
  destruct (lookup_live (redis w) (clock w) (txn_key id)); reflexivity.
Qed.

(** Run one after the other without interference, the two steps are
    [CheckOrSetInProgress]. *)
Lemma admit_steps_sequential (rs : cache.RedisStore) (ctx : Context)
    (id : string) (w : World) :
  exists ret w',
    cache.RedisStore_CheckOrSetInProgress rs ctx id w = (Ok ret, w') /\
    (admit_step id AtGet ≫= admit_step id) w = (Ok (Returned ret), w').
Proof.
  rewrite CheckOrSetInProgress_run, bind_run, admit_step_AtGet_run. cbv zeta.
  destruct (get_reply w (txn_key id)) as [status err].
  destruct (is_nil err && String.eqb status cache.StatusCompleted).
  { eexists. eexists. split; reflexivity. }
  rewrite admit_step_AtSetNX_run. cbn [net redis clock add_events set_trace].
  cbv zeta. rewrite !add_events_app. cbn [app].
  destruct (setnx_fault (net w)); [eexists; eexists; split; reflexivity|].
  destruct (lookup_live (redis w) (clock w) (txn_key id));
    eexists; eexists; split; reflexivity.
Qed.











(** ** When the breaker trips *)

(** What [Execute] does to the breaker is [observe]. *)
Lemma Execute_observe (l : loc) (b : gobreaker.CircuitBreaker)
    (p : providers.PaymentProvider) (ctx : Context)
    (req : providers.PaymentRequest) (w : World) :
  heap w !! l = Some b ->
  let '(out, d) := providers.process p ctx req (clock w) (rng w) in
  heap (snd (Execute (Some l) (ProcessPayment p ctx req) w)) !! l =
  Some (observe b (clock w) d (success_of (fst (gobreaker.beforeRequest b (clock w))) out)).
Proof.
  intros Hh. rewrite (Execute_run l b p ctx req w Hh). cbv zeta.
  unfold observe, called.
  destruct (providers.process p ctx req (clock w) (rng w)) as [out d].
  pose proof (beforeRequest_generation b (clock w)) as Hg.
  destruct (gobreaker.beforeRequest b (clock w)) as [b1 [g [e|]]]; cbn [fst snd] in *.
  - apply lookup_insert_eq.
  - cbn [heap set_heap clock add_events set_trace set_clock].
    rewrite lookup_insert_eq. reflexivity.
Qed.

Lemma u32_range (z : Z) : 0 <= u32 z < 2 ^ 32.
Proof. unfold u32. apply Z.mod_pos_bound. lia. Qed.

(** [ReadyToTrip] on counters in the range of [uint32]. *)
Lemma ReadyToTrip_spec (c : gobreaker.Counts) :
  0 <= gobreaker.Requests c < 2 ^ 32 ->
  0 <= gobreaker.TotalFailures c < 2 ^ 32 ->
  ReadyToTrip c = true <-> trip_condition c.
Proof.
  intros Hr Hf. unfold ReadyToTrip, trip_condition.
  destruct (Z.ltb_spec (gobreaker.Requests c) 3) as [Hlt|Hge].
  - split; [discriminate|lia].
  - rewrite ratio_ge_0_6 by lia. split; [auto|tauto].
Qed.

Lemma setState_state (b : gobreaker.CircuitBreaker) (s : gobreaker.State) (now : Time) :
  gobreaker.state (gobreaker.setState b s now) = s.
Proof.
  unfold gobreaker.setState. destruct (decide _) as [H|H]; [exact H|reflexivity].
Qed.

(** C5 (amended).  A closed breaker configured with [ReadyToTrip], whose
    window is running when a call starts and when it ends, is open after
    the call exactly when the call failed and the window, with that
    failure in, holds at least 3 requests with failures / requests at
    least 0.6.  A success never opens it. *)
Theorem trips_on_failure_at_ratio (b : gobreaker.CircuitBreaker) (now : Time)
    (d : Duration) (success : bool) :
  gobreaker.state b = gobreaker.StateClosed ->
  gobreaker.readyToTrip b = ReadyToTrip ->
  window_live b now ->
  window_live b (now + d) ->
  gobreaker.state (observe b now d success) = gobreaker.StateOpen <->
  success = false /\ trip_condition (recorded (gobreaker.counts b) false).
Proof.
  intros Hs Hr Hnow Hend. unfold window_live in *.
  unfold observe, gobreaker.beforeRequest, gobreaker.currentState.
  rewrite Hs, Hnow, Hs.
  unfold gobreaker.afterRequest, gobreaker.currentState.
  cbn [gobreaker.state gobreaker.set_counts gobreaker.set_dynamic gobreaker.expiry
       gobreaker.generation gobreaker.counts].
  rewrite Hs, Hend.
  cbn [gobreaker.state gobreaker.set_counts gobreaker.set_dynamic gobreaker.expiry
       gobreaker.generation gobreaker.counts].
  rewrite Z.eqb_refl, Hs. cbn [negb].
  destruct success.
  - cbn [gobreaker.onSuccess gobreaker.state gobreaker.set_counts gobreaker.set_dynamic].
    rewrite Hs. split; [discriminate|intros [H _]; discriminate H].
  - cbn [gobreaker.onFailure gobreaker.state gobreaker.set_counts gobreaker.set_dynamic
         gobreaker.readyToTrip gobreaker.counts recorded].
    rewrite Hr.
    set (c := gobreaker.Counts_onFailure (gobreaker.Counts_onRequest (gobreaker.counts b))).
    assert (Hspec : ReadyToTrip c = true <-> trip_condition c).
    { apply ReadyToTrip_spec; apply u32_range. }
    destruct (ReadyToTrip c).
    + rewrite setState_state. split; [intros _; split; [reflexivity|tauto]|reflexivity].
    + cbn [gobreaker.state gobreaker.set_counts gobreaker.set_dynamic]. rewrite Hs.
      split; [discriminate|]. intros [_ H]. apply Hspec in H. discriminate H.
Qed.

(** C5 (counterexample).  After two failures and then a success the
    window holds 3 requests and 2 failures, ratio 2/3, and the breaker is
    still closed: [ReadyToTrip] is consulted only when a failure is
    recorded. *)
Lemma fail_fail_success_stays_closed :
  ~ trips_exactly_on_ratio (feed breaker0 (1000 * Second) [false; false])
      (1000 * Second) true.
Proof.
  intros [_ H].
  assert (Hc : trip_condition
                 (recorded (gobreaker.counts (feed breaker0 (1000 * Second) [false; false]))
                    true)).
  { unfold trip_condition. vm_compute. split; discriminate. }
  apply H in Hc. vm_compute in Hc. discriminate Hc.
Qed.

Example window_fail_fail_success :
  let b := feed breaker0 (1000 * Second) [false; false; true] in
  gobreaker.state b = gobreaker.StateClosed /\
  gobreaker.Requests (gobreaker.counts b) = 3 /\
  gobreaker.TotalFailures (gobreaker.counts b) = 2.
Proof. vm_compute. repeat split. Qed.

Example window_fail_success_success :
  gobreaker.state (feed breaker0 (1000 * Second) [false; true; true])
  = gobreaker.StateClosed.
Proof. vm_compute. reflexivity. Qed.

Example window_success_fail_fail :
  gobreaker.state (feed breaker0 (1000 * Second) [true; false; false])
  = gobreaker.StateOpen.
Proof. vm_compute. reflexivity. Qed.

Example window_fail_fail_success_fail :
  gobreaker.state (feed breaker0 (1000 * Second) [false; false; true; false])
  = gobreaker.StateOpen.
Proof. vm_compute. reflexivity. Qed.

Example window_two_failures :
  gobreaker.state (feed breaker0 (1000 * Second) [false; false])
  = gobreaker.StateClosed.
Proof. vm_compute. reflexivity. Qed.

Lemma trips_on_failure_at_ratio_witness :
  let b := feed breaker0 (1000 * Second) [true; false] in
  let now := 1000 * Second in
  let d := 300 * Millisecond in
  (gobreaker.state b = gobreaker.StateClosed /\
   gobreaker.readyToTrip b = ReadyToTrip /\
   window_live b now /\ window_live b (now + d)) /\
  (gobreaker.state (observe b now d false) = gobreaker.StateOpen <->
   false = false /\ trip_condition (recorded (gobreaker.counts b) false)).
Proof.
  intros b now d. split.
  - repeat split.
  - exact (trips_on_failure_at_ratio b now d false eq_refl eq_refl eq_refl eq_refl).
Defined.

(** ** Scenarios *)

(** A provider that never answers within the second: the caller gets
    500 with the deadline error, the breaker counts one failure, and the
    same id two seconds later is still held by the lease. *)
Example timeout_then_duplicate :
  let r := post context_Background (payment "TXN-1" "MTN") in
  let run := serve slow_aggregator [arrival r 0; arrival r (2 * Second)] world0 in
  fst run = [Ok (internal_error DeadlineExceeded); Ok too_early] /\
  gobreaker.counts <$> heap (snd run) !! 1%positive =
  Some {| gobreaker.Requests := 1;
          gobreaker.TotalSuccesses := 0;
          gobreaker.TotalFailures := 1;
          gobreaker.ConsecutiveSuccesses := 0;
          gobreaker.ConsecutiveFailures := 1 |} /\
  clock (snd run) = 1003 * Second.
Proof. vm_compute. repeat split. Qed.

(** After a success the same id is refused as completed, and the
    provider is not called again. *)
Example replay_after_success :
  let r := post context_Background (payment "T1" "MTN") in
  let run := serve (aggregator_at (Some 1%positive))
               [arrival r 0; arrival r (20 * Second)] world0 in
  (exists res, fst run = [Ok (ok res); Ok conflict]) /\
  length (filter (fun e => is_call e = true) (trace (snd run))) = 1%nat.
Proof. vm_compute. split; [eexists|]; reflexivity. Qed.

(** The lease of an attempt that failed runs out after 10 s, and the id
    is admitted again. *)
Example retry_after_lease_expiry :
  let r := post context_Background (payment "TXN-1" "MTN") in
  let run := serve slow_aggregator [arrival r 0; arrival r (10 * Second)] world0 in
  fst run = [Ok (internal_error DeadlineExceeded); Ok (internal_error DeadlineExceeded)].
Proof. vm_compute. reflexivity. Qed.

Example breaker_opens_under_failures :
  let run := serve aggregator_2
               [arrival_with "T1" (float64_of_Z 1); arrival_with "T2" f64_0_05;
                arrival_with "T3" f64_0_05; arrival_with "T4" (float64_of_Z 1)]
               world0 in
  map (fun out => match out with Ok resp => StatusCode resp | Panic _ => 0 end) (fst run)
  = [200; 500; 500; 503] /\
  gobreaker.state <$> heap (snd run) !! 1%positive = Some gobreaker.StateOpen.
Proof. vm_compute. split; reflexivity. Qed.


(** * Further properties of the code *)

(** ** The paths of the handler *)

(** Two descriptions of the same world. *)
Ltac same_world :=
  unfold add_events, gate_events;
  cbn [trace heap redis clock net rng set_trace set_heap set_redis set_clock app];
  rewrite <- ?app_assoc; cbn [app]; reflexivity.

Ltac at_world H :=
  match goal with
  | |- _ ?w2 =>
    match type of H with
    | _ ?w1 => replace w2 with w1; [exact H | same_world]
    end
  end.

Lemma respond_answered (a : Aggregator) (rs : cache.RedisStore) (r : Request)
    (req : providers.PaymentRequest) (p : providers.PaymentProvider)
    (res : option providers.PaymentResponse) (err : option error) (w : World) :
  Store a = cache.RedisStore_impl rs ->
  answered req p w (providers.Returns res err)
    (fst (respond a r req p (Some res) err w))
    (snd (respond a r req p (Some res) err w)).
Proof.
  intros HS. rewrite (respond_run a rs r req p (Some res) err w HS).
  destruct err as [e|].
  - pose proof (answered_error req p w res e) as H.
    unfold error_response, error_line in H.
    destruct (is_ErrOpenState (Some e)); exact H.
  - cbn [is_ErrOpenState]. destruct res as [res|]; [|constructor].
    destruct (String.eqb (providers.Status res) "SUCCESS") eqn:Hst.
    + apply String.eqb_eq in Hst.
      destruct (set_fault (net w)) as [e|] eqn:Hf; cbn [fst snd].
      * apply answered_unrecorded; assumption.
      * apply answered_completed; assumption.
    + apply String.eqb_neq in Hst. apply answered_unsuccessful. exact Hst.
Qed.

Lemma route_routed (a : Aggregator) (rs : cache.RedisStore) (r : Request)
    (req : providers.PaymentRequest) (w : World) :
  Store a = cache.RedisStore_impl rs ->
  routed a r req w (fst (route a r req w)) (snd (route a r req w)).
Proof.
  intros HS.
  destruct (Providers a !! "MTN") as [p|] eqn:Hp.
  2:{ rewrite (route_not_found a r req w Hp). apply routed_not_found. exact Hp. }
  rewrite (route_found a r req w p Hp). cbv zeta.
  destruct (Breakers a !! "MTN") as [[l|]|] eqn:Hbr; cbn [is_nil from_option id app].
  - destruct (heap w !! l) as [b|] eqn:Hh.
    + rewrite (Execute_run l b); [|exact Hh].
      cbn [clock rng add_events set_trace set_redis]. cbv zeta.
      destruct (snd (snd (gobreaker.beforeRequest b (clock w)))) as [e|] eqn:He.
      * rewrite (respond_run a rs); [|exact HS].
        pose proof (routed_refused a r req w p l b e Hp Hbr Hh He) as H.
        unfold error_response, error_line in H.
        destruct (is_ErrOpenState (Some e)); cbn [fst snd]; at_world H.
      * apply (routed_called a r req w p l b _ _ Hp Hbr Hh He).
        fold (call_context r w).
        change (heap (add_events w [starting req p])) with (heap w).
        assert (Hw : set_heap (called (add_events w [starting req p]) p (call_context r w) req)
                       (<[l := gobreaker.afterRequest
                                 (fst (gobreaker.beforeRequest b (clock w)))
                                 (fst (snd (gobreaker.beforeRequest b (clock w))))
                                 (success_of (fst (gobreaker.beforeRequest b (clock w)))
                                    (fst (providers.process p (call_context r w) req
                                            (clock w) (rng w))))
                                 (clock (called (add_events w [starting req p]) p
                                           (call_context r w) req))]> (heap w))
                     = after_call r req p l b w).
        { rewrite beforeRequest_generation. unfold after_call, called. cbv zeta.
          cbn [clock rng add_events set_trace].
          destruct (providers.process p (call_context r w) req (clock w) (rng w))
            as [out d].
          cbn [fst snd]. same_world. }
        rewrite Hw.
        destruct (fst (providers.process p (call_context r w) req (clock w) (rng w)))
          as [res err|v].
        -- apply (respond_answered a rs); exact HS.
        -- cbn [fst snd]. constructor.
    + rewrite Execute_dangling; [|exact Hh]. cbn [fst snd].
      apply (routed_dangling a r req w p l Hp Hbr Hh).
  - rewrite Execute_nil. apply (routed_nil_breaker a r req w p Hp Hbr).
  - rewrite Execute_nil. apply (routed_no_breaker a r req w p Hp Hbr).
Qed.

(** Every run of the handler on a POST with a decodable body follows one
    of the paths. *)
Lemma PayHandler_handled (a : Aggregator) (rs : cache.RedisStore) (r : Request)
    (req : providers.PaymentRequest) (w w' : World) (out : result Response) :
  Store a = cache.RedisStore_impl rs ->
  Method r = "POST" ->
  Body r = Some req ->
  PayHandler a r w = (out, w') ->
  handled a r req w out w'.
Proof.
  intros HS HM HB Hrun.
  rewrite (PayHandler_admit a rs r req w HS HM HB), CheckOrSetInProgress_run in Hrun.
  cbv zeta in Hrun. unfold get_reply in Hrun.
  set (key := txn_key (providers.TransactionID req)) in *.
  assert (Hgate : add_events (add_events w [EvGet key])
                    [EvSetNX key cache.StatusInProgress cache.InProgressExpiry]
                  = add_events w (gate_events (providers.TransactionID req))).
  { apply add_events_app. }
  rewrite Hgate in Hrun.
  assert (Hroute : forall w2, route a r req w2 = (out, w') -> routed a r req w2 out w').
  { intros w2 H. pose proof (route_routed a rs r req w2 HS) as Hr.
    rewrite H in Hr. exact Hr. }
  destruct (get_fault (net w)) as [e1|] eqn:Hget.
  - assert (Hnot : ~ seen_completed w key) by (intros [H _]; congruence).
    cbn [is_nil andb] in Hrun.
    destruct (setnx_fault (net w)) as [e2|] eqn:Hset.
    + cbn [in_progress_text Error] in Hrun.
      apply (handled_store_error a r req w e2); auto.
    + destruct (lookup_live (redis w) (clock w) key) as [v|] eqn:Hlive.
      * cbn in Hrun. injection Hrun as <- <-.
        apply (handled_in_progress a r req w v); auto.
      * cbn [in_progress_text] in Hrun. apply handled_new; auto.
  - destruct (lookup_live (redis w) (clock w) key) as [v|] eqn:Hlive.
    + cbn [is_nil andb] in Hrun.
      destruct (String.eqb v cache.StatusCompleted) eqn:Hv.
      * apply String.eqb_eq in Hv. subst v. injection Hrun as <- <-.
        apply handled_completed. split; assumption.
      * apply String.eqb_neq in Hv.
        assert (Hnot : ~ seen_completed w key).
        { intros [_ H]. fold key in H. congruence. }
        destruct (setnx_fault (net w)) as [e2|] eqn:Hset.
        -- cbn [in_progress_text Error] in Hrun.
           apply (handled_store_error a r req w e2); auto.
        -- cbn in Hrun. injection Hrun as <- <-.
           apply (handled_in_progress a r req w v); auto.
    + cbn [is_nil andb] in Hrun.
      destruct (setnx_fault (net w)) as [e2|] eqn:Hset.
      * cbn [in_progress_text Error] in Hrun.
        apply (handled_store_error a r req w e2); auto.
        intros [_ H]. fold key in H. congruence.
      * cbn [in_progress_text] in Hrun. apply handled_new; auto.
Qed.

(** Split a run of the handler into its paths. *)
Ltac invert_answered :=
  match goal with
  | H : answered _ _ _ _ _ _ |- _ => inversion H; subst; clear H
  end.

Ltac invert_routed :=
  match goal with
  | H : routed _ _ _ _ _ _ |- _ => inversion H; subst; clear H; try invert_answered
  end.

Ltac invert_handled H := inversion H; subst; clear H; try invert_routed.

(** Unfold the events and worlds of a path. *)
Ltac path_simpl :=
  unfold after_call, call_context, add_events, gate_events, error_line, starting,
    bypassing, no_breaker_warning, set_completed_event, completion_warning in *;
  cbn [trace heap redis clock net rng set_trace set_heap set_redis set_clock
       app fst snd] in *.

Lemma handled_calls (a : Aggregator) (r : Request) (req : providers.PaymentRequest)
    (w w' : World) (out : result Response) :
  handled a r req w out w' ->
  let ctx := context_WithTimeout (Ctx r) (clock w) (1 * Second) in
  exists evs,
    trace w' = (trace w ++ evs)%list /\
    ((List.filter is_call evs = [] /\ clock w' = clock w) \/
     (exists p rest,
        Providers a !! "MTN" = Some p /\
        evs = (gate_events (providers.TransactionID req) ++ rest)%list /\
        List.filter is_call evs =
        [EvProcessPayment (providers.Name p) ctx req
           (fst (providers.process p ctx req (clock w) (rng w)))] /\
        clock w' = clock w + snd (providers.process p ctx req (clock w) (rng w)))).
Proof.
  intros H ctx. subst ctx.
  invert_handled H; path_simpl;
    try match goal with
    | |- context [is_ErrOpenState (Some ?e)] => destruct (is_ErrOpenState (Some e))
    end;
    (eexists; split; [rewrite <- ?app_assoc; cbn [app]; reflexivity|]);
    first [ left; split; reflexivity
          | right; eexists; eexists; split; [eassumption|];
            split; [unfold gate_events; cbn [app]; reflexivity|];
            split; reflexivity ].
Qed.

(** ** The provider is called at most once, after the idempotency check *)

(** In every run of the handler on a decodable POST the provider is
    called at most once.  A call is made to the provider registered under
    MTN, for the request that was decoded, under the context of the
    request narrowed to one second from the arrival, and the [GET] and the
    [SETNX] of the idempotency check are the first two events of the
    run. *)
Theorem provider_called_at_most_once (a : Aggregator) (rs : cache.RedisStore)
    (r : Request) (req : providers.PaymentRequest) (w w' : World)
    (out : result Response) :
  Store a = cache.RedisStore_impl rs ->
  Method r = "POST" ->
  Body r = Some req ->
  PayHandler a r w = (out, w') ->
  let key := txn_key (providers.TransactionID req) in
  let ctx := context_WithTimeout (Ctx r) (clock w) (1 * Second) in
  exists evs : list Event,
    trace w' = (trace w ++ evs)%list /\
    (length (List.filter is_call evs) <= 1)%nat /\
    forall e, e ∈ evs -> is_call e = true ->
      (exists p, Providers a !! "MTN" = Some p /\
                 e = EvProcessPayment (providers.Name p) ctx req
                       (fst (providers.process p ctx req (clock w) (rng w)))) /\
      (exists rest,
         evs = EvGet key :: EvSetNX key cache.StatusInProgress cache.InProgressExpiry
                 :: rest).
Proof.
  intros HS HM HB Hrun key ctx.
  destruct (handled_calls a r req w w' out (PayHandler_handled a rs r req w w' out HS HM HB Hrun))
    as (evs & Htr & Hcalls).
  exists evs. split; [exact Htr|].
  destruct Hcalls as [[Hnone _] | (p & rest & Hp & Hevs & Hone & _)].
  - rewrite Hnone. split; [cbn; lia|].
    intros e Hin He. exfalso.
    assert (Hf : In e (List.filter is_call evs)).
    { apply filter_In. split; [apply list_elem_of_In; exact Hin | exact He]. }
    rewrite Hnone in Hf. destruct Hf.
  - rewrite Hone. split; [cbn; lia|].
    intros e Hin He.
    assert (Hf : In e (List.filter is_call evs)).
    { apply filter_In. split; [apply list_elem_of_In; exact Hin | exact He]. }
    rewrite Hone in Hf. destruct Hf as [<- | []].
    split; [exists p; split; [exact Hp | reflexivity]|].
    exists rest. exact Hevs.
Qed.

Lemma provider_called_at_most_once_witness :
  let a := aggregator_at (Some 1%positive) in
  let req := payment "T1" "MTN" in
  let r := post context_Background req in
  let w := world0 in
  let out := fst (PayHandler a r w) in
  let w' := snd (PayHandler a r w) in
  let key := txn_key "T1" in
  let ctx := context_WithTimeout (Ctx r) (clock w) (1 * Second) in
  (Store a = cache.RedisStore_impl redisStore /\ Method r = "POST" /\
   Body r = Some req /\ PayHandler a r w = (out, w')) /\
  exists evs : list Event,
    trace w' = (trace w ++ evs)%list /\
    (length (List.filter is_call evs) <= 1)%nat /\
    forall e, e ∈ evs -> is_call e = true ->
      (exists p, Providers a !! "MTN" = Some p /\
                 e = EvProcessPayment (providers.Name p) ctx req
                       (fst (providers.process p ctx req (clock w) (rng w)))) /\
      (exists rest,
         evs = EvGet key :: EvSetNX key cache.StatusInProgress cache.InProgressExpiry
                 :: rest).
Proof.
  intros a req r w out w' key ctx.
  assert (Hrun : PayHandler a r w = (out, w')) by apply surjective_pairing.
  split.
  - split; [reflexivity|]. split; [reflexivity|]. split; [reflexivity|exact Hrun].
  - exact (provider_called_at_most_once a redisStore r req w w' out
             eq_refl eq_refl eq_refl Hrun).
Defined.

(** ** What the status codes say *)

Ltac in_list :=
  repeat first [apply list_elem_of_here | apply list_elem_of_further].

Ltac payload_of_status :=
  match goal with
  | H : providers.Status ?res = "SUCCESS" |- context [String.eqb (providers.Status ?res) _] =>
    rewrite H; reflexivity
  | H : providers.Status ?res <> "SUCCESS" |- context [String.eqb (providers.Status ?res) _] =>
    apply String.eqb_neq in H; rewrite H; reflexivity
  end.

(** The handler answers 200 OK exactly when the provider was called and
    returned a response and no error; the body is then that response,
    marked idempotent when its status is SUCCESS and unchanged otherwise
    (a FAILED response without an error is passed on with 200). *)
Theorem ok_iff_provider_answered (a : Aggregator) (rs : cache.RedisStore)
    (r : Request) (req : providers.PaymentRequest) (w w' : World) (resp : Response) :
  Store a = cache.RedisStore_impl rs ->
  Method r = "POST" ->
  Body r = Some req ->
  PayHandler a r w = (Ok resp, w') ->
  exists evs : list Event,
    trace w' = (trace w ++ evs)%list /\
    (StatusCode resp = StatusOK <->
     exists name ctx res,
       EvProcessPayment name ctx req (providers.Returns (Some res) None) ∈ evs) /\
    (forall name ctx res,
       EvProcessPayment name ctx req (providers.Returns (Some res) None) ∈ evs ->
       Payload resp =
       JsonResponse (if String.eqb (providers.Status res) "SUCCESS"
                     then providers.set_IsIdempotent res true else res)).
Proof.
  intros HS HM HB Hrun.
  pose proof (PayHandler_handled a rs r req w w' (Ok resp) HS HM HB Hrun) as H.
  clear Hrun.
  invert_handled H; path_simpl;
    try match goal with
    | H : _ = fst (providers.process _ _ _ _ _) |- _ => rewrite <- H
    end;
    unfold error_response;
    try match goal with
    | |- context [is_ErrOpenState (Some ?e)] => destruct (is_ErrOpenState (Some e))
    end;
    (eexists; split; [rewrite <- ?app_assoc; cbn [app]; reflexivity|]);
    (split;
     [ split;
       [ intros Hc; first [discriminate Hc | eexists; eexists; eexists; in_list]
       | intros (n & c & res0 & Hin); first [reflexivity | events] ]
     | intros n c res0 Hin; events; cbn [Payload ok]; payload_of_status ]).
Qed.

Lemma ok_iff_provider_answered_witness :
  let a := aggregator_at (Some 1%positive) in
  let req := payment "T1" "MTN" in
  let r := post context_Background req in
  let w := world0 in
  let w' := snd (PayHandler a r w) in
  (Store a = cache.RedisStore_impl redisStore /\ Method r = "POST" /\
   Body r = Some req /\ PayHandler a r w = (Ok (ok paid), w')) /\
  exists evs : list Event,
    trace w' = (trace w ++ evs)%list /\
    (StatusCode (ok paid) = StatusOK <->
     exists name ctx res,
       EvProcessPayment name ctx req (providers.Returns (Some res) None) ∈ evs) /\
    (forall name ctx res,
       EvProcessPayment name ctx req (providers.Returns (Some res) None) ∈ evs ->
       Payload (ok paid) =
       JsonResponse (if String.eqb (providers.Status res) "SUCCESS"
                     then providers.set_IsIdempotent res true else res)).
Proof.
  intros a req r w w'.
  assert (Hrun : PayHandler a r w = (Ok (ok paid), w')).
  { rewrite (surjective_pairing (PayHandler a r w)). f_equal. }
  split.
  - split; [reflexivity|]. split; [reflexivity|]. split; [reflexivity|exact Hrun].
  - exact (ok_iff_provider_answered a redisStore r req w w' (ok paid)
             eq_refl eq_refl eq_refl Hrun).
Defined.

(** The answers that come out of routing carry 200, 404, 500 or 503. *)
Lemma routed_code (a : Aggregator) (r : Request) (req : providers.PaymentRequest)
    (w w' : World) (out : result Response) (resp : Response) :
  routed a r req w out w' ->
  out = Ok resp ->
  StatusCode resp = StatusOK \/ StatusCode resp = StatusNotFound \/
  StatusCode resp = StatusInternalServerError \/
  StatusCode resp = StatusServiceUnavailable.
Proof.
  intros H Hout. subst out. invert_routed; unfold error_response;
    try match goal with
    | |- context [is_ErrOpenState (Some ?e)] => destruct (is_ErrOpenState (Some e))
    end; cbn; auto.
Qed.

(** The handler answers 409 Conflict exactly when the [GET] of the
    idempotency check was answered with a live COMPLETED record, and 425
    Too Early exactly when it was not and the [SETNX] was answered and
    found a live record.  Both answers end the request after the check:
    the keyspace, the breaker and the clock are as before and the
    provider is not called.  A transport error never gives 409 or 425. *)
Theorem duplicate_codes_reflect_store (a : Aggregator) (rs : cache.RedisStore)
    (r : Request) (req : providers.PaymentRequest) (w w' : World) (resp : Response) :
  Store a = cache.RedisStore_impl rs ->
  Method r = "POST" ->
  Body r = Some req ->
  PayHandler a r w = (Ok resp, w') ->
  let key := txn_key (providers.TransactionID req) in
  let completed_seen :=
    get_fault (net w) = None /\
    lookup_live (redis w) (clock w) key = Some cache.StatusCompleted in
  (StatusCode resp = StatusConflict <-> completed_seen) /\
  (StatusCode resp = StatusTooEarly <->
   ~ completed_seen /\ setnx_fault (net w) = None /\
   exists v, lookup_live (redis w) (clock w) key = Some v) /\
  (StatusCode resp = StatusConflict ->
   resp = conflict /\ w' = add_events w [EvGet key]) /\
  (StatusCode resp = StatusTooEarly ->
   resp = too_early /\
   w' = add_events w
          [EvGet key; EvSetNX key cache.StatusInProgress cache.InProgressExpiry]).
Proof.
  intros HS HM HB Hrun key completed_seen. subst key completed_seen.
  pose proof (PayHandler_handled a rs r req w w' (Ok resp) HS HM HB Hrun) as H.
  clear Hrun. unfold seen_completed in H.
  assert (Hcodes : forall w2, routed a r req w2 (Ok resp) w' ->
                     StatusCode resp <> StatusConflict /\
                     StatusCode resp <> StatusTooEarly).
  { intros w2 Hr.
    destruct (routed_code a r req w2 w' (Ok resp) resp Hr eq_refl) as [Hc|[Hc|[Hc|Hc]]];
      rewrite Hc; split; discriminate. }
  inversion H; subst; clear H; unfold seen_completed in *.
  - (* COMPLETED seen *)
    split; [split; [intros _; assumption | reflexivity]|].
    split; [split; [discriminate | intros (Hn & _); contradiction]|].
    split; [auto | discriminate].
  - (* a live record refuses the SETNX *)
    split; [split; [discriminate | intros Hc; contradiction]|].
    split; [split; [intros _; eauto | reflexivity]|].
    split; [discriminate | auto].
  - (* the SETNX met a transport error *)
    match goal with Hr : routed _ _ _ _ _ _ |- _ =>
      destruct (Hcodes _ Hr) as [H409 H425] end.
    split; [split; [intros Hc; contradiction | intros Hc; contradiction]|].
    split; [split; [intros Hc; contradiction | intros (_ & Hs & _); congruence]|].
    split; intros Hc; contradiction.
  - (* new *)
    match goal with Hr : routed _ _ _ _ _ _ |- _ =>
      destruct (Hcodes _ Hr) as [H409 H425] end.
    split; [split; [intros Hc; contradiction | intros (_ & Hl); congruence]|].
    split; [split; [intros Hc; contradiction | intros (_ & _ & v & Hl); congruence]|].
    split; intros Hc; contradiction.
Qed.

Lemma duplicate_codes_reflect_store_witness :
  let a := aggregator_at (Some 1%positive) in
  let req := payment "T1" "MTN" in
  let r := post context_Background req in
  let w := with_record world0 "T1" (completed (500 * Second)) in
  let w' := snd (PayHandler a r w) in
  let key := txn_key "T1" in
  let completed_seen :=
    get_fault (net w) = None /\
    lookup_live (redis w) (clock w) key = Some cache.StatusCompleted in
  (Store a = cache.RedisStore_impl redisStore /\ Method r = "POST" /\
   Body r = Some req /\ PayHandler a r w = (Ok conflict, w')) /\
  (StatusCode conflict = StatusConflict <-> completed_seen) /\
  (StatusCode conflict = StatusTooEarly <->
   ~ completed_seen /\ setnx_fault (net w) = None /\
   exists v, lookup_live (redis w) (clock w) key = Some v) /\
  (StatusCode conflict = StatusConflict ->
   conflict = conflict /\ w' = add_events w [EvGet key]) /\
  (StatusCode conflict = StatusTooEarly ->
   conflict = too_early /\
   w' = add_events w
          [EvGet key; EvSetNX key cache.StatusInProgress cache.InProgressExpiry]).
Proof.
  intros a req r w w' key completed_seen.
  assert (Hrun : PayHandler a r w = (Ok conflict, w')).
  { rewrite (surjective_pairing (PayHandler a r w)). f_equal. }
  split.
  - split; [reflexivity|]. split; [reflexivity|]. split; [reflexivity|exact Hrun].
  - exact (duplicate_codes_reflect_store a redisStore r req w w' conflict
             eq_refl eq_refl eq_refl Hrun).
Defined.

(** ** A request works on the record of its own transaction only *)

Lemma txn_key_inj (id id' : string) : txn_key id = txn_key id' -> id = id'.
Proof. unfold txn_key. cbn. intros H. injection H. auto. Qed.

(** Every store command of a run addresses the key of the request's
    transaction id, and the record of every other transaction id is after
    the run what it was before. *)
Theorem request_touches_only_its_key (a : Aggregator) (rs : cache.RedisStore)
    (r : Request) (req : providers.PaymentRequest) (w w' : World)
    (out : result Response) :
  Store a = cache.RedisStore_impl rs ->
  Method r = "POST" ->
  Body r = Some req ->
  PayHandler a r w = (out, w') ->
  (exists evs : list Event,
     trace w' = (trace w ++ evs)%list /\
     forall e k, e ∈ evs -> store_key e = Some k ->
                 k = txn_key (providers.TransactionID req)) /\
  forall id', id' <> providers.TransactionID req ->
              redis w' !! txn_key id' = redis w !! txn_key id'.
Proof.
  intros HS HM HB Hrun.
  pose proof (PayHandler_handled a rs r req w w' out HS HM HB Hrun) as H.
  clear Hrun.
  assert (Hne : forall id', id' <> providers.TransactionID req ->
                            txn_key (providers.TransactionID req) <> txn_key id').
  { intros id' Hid Hk. apply txn_key_inj in Hk. congruence. }
  invert_handled H; path_simpl;
    try match goal with
    | |- context [is_ErrOpenState (Some ?e)] => destruct (is_ErrOpenState (Some e))
    end;
    (split;
     [ eexists; split; [rewrite <- ?app_assoc; cbn [app]; reflexivity|];
       intros ev k Hin Hk; events; subst; cbn in Hk; congruence
     | intros id' Hid; rewrite ?lookup_insert_ne by (apply Hne; exact Hid);
       reflexivity ]).
Qed.

Lemma request_touches_only_its_key_witness :
  let a := aggregator_at (Some 1%positive) in
  let req := payment "T1" "MTN" in
  let r := post context_Background req in
  let w := with_record world0 "T2" (lease (995 * Second)) in
  let out := fst (PayHandler a r w) in
  let w' := snd (PayHandler a r w) in
  (Store a = cache.RedisStore_impl redisStore /\ Method r = "POST" /\
   Body r = Some req /\ PayHandler a r w = (out, w')) /\
  (exists evs : list Event,
     trace w' = (trace w ++ evs)%list /\
     forall e k, e ∈ evs -> store_key e = Some k ->
                 k = txn_key (providers.TransactionID req)) /\
  forall id', id' <> providers.TransactionID req ->
              redis w' !! txn_key id' = redis w !! txn_key id'.
Proof.
  intros a req r w out w'.
  assert (Hrun : PayHandler a r w = (out, w')) by apply surjective_pairing.
  split.
  - split; [reflexivity|]. split; [reflexivity|]. split; [reflexivity|exact Hrun].
  - exact (request_touches_only_its_key a redisStore r req w w' out
             eq_refl eq_refl eq_refl Hrun).
Defined.

(** ** The record a run leaves, and the next request with the same id *)

Ltac not_ok :=
  match goal with
  | H : Ok _ = Ok (ok _) |- _ =>
    unfold error_response in H;
    try match type of H with
    | context [is_ErrOpenState (Some ?e)] => destruct (is_ErrOpenState (Some e))
    end;
    discriminate H
  end.

(** The record under the key of the request after a run. *)
Lemma handled_record (a : Aggregator) (r : Request) (req : providers.PaymentRequest)
    (w w' : World) (out : result Response) :
  handled a r req w out w' ->
  let key := txn_key (providers.TransactionID req) in
  (recorded_success out (net w) -> redis w' !! key = Some (completed (clock w'))) /\
  (~ recorded_success out (net w) ->
   get_fault (net w) = None -> setnx_fault (net w) = None ->
   lookup_live (redis w) (clock w) key = None ->
   redis w' !! key = Some (lease (clock w))).
Proof.
  intros H key. subst key. unfold recorded_success.
  invert_handled H; path_simpl; unfold seen_completed in *;
    (split;
     [ intros (Hf & res0 & Hout & Hst);
       first [ discriminate Hout
             | not_ok
             | injection Hout as <-; first [contradiction | congruence]
             | injection Hout as <-; cbn in Hst; first [contradiction | congruence]
             | apply lookup_insert_eq ]
     | intros Hno Hget Hset Hlive;
       repeat match goal with Hc : _ /\ _ |- _ => destruct Hc end;
       first [ congruence
             | apply lookup_insert_eq
             | exfalso; apply Hno; split; [assumption|]; eexists; split; eauto ] ]).
Qed.

(** The handler on a request whose key holds a record. *)
Lemma PayHandler_on_record (a : Aggregator) (rs : cache.RedisStore) (r : Request)
    (req : providers.PaymentRequest) (w : World) (e : entry) :
  Store a = cache.RedisStore_impl rs ->
  Method r = "POST" ->
  Body r = Some req ->
  get_fault (net w) = None ->
  let id := providers.TransactionID req in
  redis w !! txn_key id = Some e ->
  PayHandler a r w =
  if live (clock w) e then
    if String.eqb (val e) cache.StatusCompleted
    then (Ok conflict, add_events w [EvGet (txn_key id)])
    else
      match setnx_fault (net w) with
      | Some e' => route a r req (add_events w (gate_events id))
      | None => (Ok too_early, add_events w (gate_events id))
      end
  else
    match setnx_fault (net w) with
    | Some e' => route a r req (add_events w (gate_events id))
    | None =>
      route a r req
        (set_redis (add_events w (gate_events id))
           (<[txn_key id := lease (clock w)]> (redis w)))
    end.
Proof.
  intros HS HM HB Hget id He.
  rewrite (PayHandler_admit a rs r req w HS HM HB), CheckOrSetInProgress_run.
  cbv zeta. fold id. unfold get_reply, lookup_live. rewrite Hget, He.
  rewrite add_events_app. fold (gate_events id).
  destruct (live (clock w) e).
  - cbn [is_nil andb]. destruct (String.eqb (val e) cache.StatusCompleted); [reflexivity|].
    destruct (setnx_fault (net w)); reflexivity.
  - cbn [is_nil andb]. destruct (setnx_fault (net w)); reflexivity.
Qed.

(** Once a run has answered 200 with a SUCCESS response and the store has
    taken the [SET], every later request with the same transaction id
    that finds that record is answered 409 Conflict straight after its
    [GET] -- no provider call, no write -- as long as it arrives less than
    24 hours after the first run ended; from 24 hours on the record has
    expired and the id goes to the provider again under a new lease. *)
Theorem replay_is_refused (a : Aggregator) (rs : cache.RedisStore)
    (r : Request) (req : providers.PaymentRequest) (w w' : World)
    (out : result Response) :
  Store a = cache.RedisStore_impl rs ->
  Method r = "POST" ->
  Body r = Some req ->
  PayHandler a r w = (out, w') ->
  recorded_success out (net w) ->
  let id := providers.TransactionID req in
  forall (r2 : Request) (req2 : providers.PaymentRequest) (w2 : World),
    Method r2 = "POST" ->
    Body r2 = Some req2 ->
    providers.TransactionID req2 = id ->
    redis w2 !! txn_key id = redis w' !! txn_key id ->
    get_fault (net w2) = None ->
    (clock w2 < clock w' + 24 * Hour ->
     PayHandler a r2 w2 = (Ok conflict, add_events w2 [EvGet (txn_key id)])) /\
    (clock w' + 24 * Hour <= clock w2 ->
     setnx_fault (net w2) = None ->
     PayHandler a r2 w2 =
     route a r2 req2
       (set_redis (add_events w2 (gate_events id))
          (<[txn_key id := lease (clock w2)]> (redis w2)))).
Proof.
  intros HS HM HB Hrun Hrec id r2 req2 w2 HM2 HB2 Hid Hdb Hget.
  destruct (handled_record a r req w w' out
              (PayHandler_handled a rs r req w w' out HS HM HB Hrun)) as [Hdone _].
  specialize (Hdone Hrec). fold id in Hdone. rewrite Hdone in Hdb.
  rewrite (PayHandler_on_record a rs r2 req2 w2 (completed (clock w')) HS HM2 HB2 Hget);
    [|rewrite Hid; exact Hdb].
  rewrite Hid. fold id. unfold live, completed, cache.CompletedExpiry. cbn [expireAt val].
  split.
  - intros Hlt. apply Z.ltb_lt in Hlt. rewrite Hlt. reflexivity.
  - intros Hge Hset. apply Z.ltb_ge in Hge. rewrite Hge, Hset. reflexivity.
Qed.


Lemma replay_is_refused_witness :
  let a := aggregator_at (Some 1%positive) in
  let req := payment "T1" "MTN" in
  let r := post context_Background req in
  let w := world0 in
  let out := Ok (ok paid) in
  let w' := snd (PayHandler a r w) in
  let id := providers.TransactionID req in
  (Store a = cache.RedisStore_impl redisStore /\ Method r = "POST" /\
   Body r = Some req /\ PayHandler a r w = (out, w') /\
   recorded_success out (net w)) /\
  forall (r2 : Request) (req2 : providers.PaymentRequest) (w2 : World),
    Method r2 = "POST" ->
    Body r2 = Some req2 ->
    providers.TransactionID req2 = id ->
    redis w2 !! txn_key id = redis w' !! txn_key id ->
    get_fault (net w2) = None ->
    (clock w2 < clock w' + 24 * Hour ->
     PayHandler a r2 w2 = (Ok conflict, add_events w2 [EvGet (txn_key id)])) /\
    (clock w' + 24 * Hour <= clock w2 ->
     setnx_fault (net w2) = None ->
     PayHandler a r2 w2 =
     route a r2 req2
       (set_redis (add_events w2 (gate_events id))
          (<[txn_key id := lease (clock w2)]> (redis w2)))).
Proof.
  intros a req r w out w' id.
  assert (Hrun : PayHandler a r w = (out, w')).
  { rewrite (surjective_pairing (PayHandler a r w)). f_equal. }
  assert (Hrec : recorded_success out (net w)).
  { split; [reflexivity|]. exists paid. split; reflexivity. }
  split.
  - split; [reflexivity|]. split; [reflexivity|]. split; [reflexivity|].
    split; [exact Hrun | exact Hrec].
  - exact (replay_is_refused a redisStore r req w w' out
             eq_refl eq_refl eq_refl Hrun Hrec).
Defined.


(** ** The store does not take the completion *)

(** When the [SET] of [SetCompleted] meets a transport error, a payment
    that succeeded is still answered 200 OK with the response marked
    idempotent; the failure is only logged, and no COMPLETED record is
    written: the keyspace is as the idempotency check left it, so the
    transaction id is protected by the 10 s lease at most. *)
Theorem completion_failure_is_only_logged (a : Aggregator) (rs : cache.RedisStore)
    (r : Request) (req : providers.PaymentRequest) (w w' : World)
    (out : result Response) (e : error) :
  Store a = cache.RedisStore_impl rs ->
  Method r = "POST" ->
  Body r = Some req ->
  PayHandler a r w = (out, w') ->
  set_fault (net w) = Some e ->
  let key := txn_key (providers.TransactionID req) in
  exists evs : list Event,
    trace w' = (trace w ++ evs)%list /\
    (successful_call req evs ->
     (exists res, out = Ok (ok (providers.set_IsIdempotent res true)) /\
                  providers.Status res = "SUCCESS") /\
     EvSet key cache.StatusCompleted cache.CompletedExpiry ∈ evs /\
     EvLog ("Warning: Failed to set transaction " +:+ providers.TransactionID req +:+
            " as COMPLETED in Redis: " +:+ Error e) ∈ evs) /\
    (redis w' = redis w \/ redis w' = <[key := lease (clock w)]> (redis w)).
Proof.
  intros HS HM HB Hrun Hf key. subst key.
  pose proof (PayHandler_handled a rs r req w w' out HS HM HB Hrun) as H.
  clear Hrun.
  invert_handled H; path_simpl;
    try match goal with
    | H : _ = fst (providers.process _ _ _ _ _) |- _ => rewrite <- H
    end;
    try match goal with
    | |- context [is_ErrOpenState (Some ?e)] => destruct (is_ErrOpenState (Some e))
    end;
    (eexists; split; [rewrite <- ?app_assoc; cbn [app]; reflexivity|]);
    (split;
     [ intros (n & c & res0 & Hin & Hst); events; try congruence;
       (match goal with
        | H1 : set_fault (net w) = Some _ |- _ => rewrite Hf in H1; injection H1 as <-
        end;
        split; [eexists; split; [reflexivity | assumption]|];
        split; in_list)
     | first [congruence | left; reflexivity | right; reflexivity] ]).
Qed.

Lemma completion_failure_is_only_logged_witness :
  let a := aggregator_at (Some 1%positive) in
  let req := payment "T1" "MTN" in
  let r := post context_Background req in
  let e := connection_refused in
  let w := set_inputs world0
             {| get_fault := None; setnx_fault := None; set_fault := Some e |}
             (draw 100 (float64_of_Z 1)) in
  let out := fst (PayHandler a r w) in
  let w' := snd (PayHandler a r w) in
  let key := txn_key (providers.TransactionID req) in
  (Store a = cache.RedisStore_impl redisStore /\ Method r = "POST" /\
   Body r = Some req /\ PayHandler a r w = (out, w') /\
   set_fault (net w) = Some e) /\
  exists evs : list Event,
    trace w' = (trace w ++ evs)%list /\
    (successful_call req evs ->
     (exists res, out = Ok (ok (providers.set_IsIdempotent res true)) /\
                  providers.Status res = "SUCCESS") /\
     EvSet key cache.StatusCompleted cache.CompletedExpiry ∈ evs /\
     EvLog ("Warning: Failed to set transaction " +:+ providers.TransactionID req +:+
            " as COMPLETED in Redis: " +:+ Error e) ∈ evs) /\
    (redis w' = redis w \/ redis w' = <[key := lease (clock w)]> (redis w)).
Proof.
  intros a req r e w out w' key.
  assert (Hrun : PayHandler a r w = (out, w')) by apply surjective_pairing.
  split.
  - split; [reflexivity|]. split; [reflexivity|]. split; [reflexivity|].
    split; [exact Hrun | reflexivity].
  - exact (completion_failure_is_only_logged a redisStore r req w w' out e
             eq_refl eq_refl eq_refl Hrun eq_refl).
Defined.

(** ** No transaction id is paid twice *)








(** ** providers: the mock providers *)


Lemma select_Done_late (ctx : Context) (now : Time) (delay : Duration) :
  (forall t, doneAt ctx = Some t -> now + delay <= t) ->
  providers.select_Done ctx now delay = None.
Proof.
  unfold providers.select_Done. intros H.
  destruct (doneAt ctx) as [t|]; [|reflexivity].
  specialize (H t eq_refl).
  destruct (Z.ltb_spec t (now + delay)); [lia | reflexivity].
Qed.


(** With [rand.Intn(600)] in its range, a mock provider called under the
    handler's one-second deadline, by a request whose own context is not
    done within 800 ms, never gives up on the context: it answers after
    its simulated latency, between 200 and 799 ms, with a response. *)
Theorem mocks_answer_within_deadline (parent : Context)
    (req : providers.PaymentRequest) (now : Time) (rnd : providers.Entropy) :
  0 <= providers.rand_Intn_600 rnd < 600 ->
  (forall t, doneAt parent = Some t -> now + 800 * Millisecond <= t) ->
  let ctx := context_WithTimeout parent now (1 * Second) in
  let delay := (providers.rand_Intn_600 rnd + 200) * Millisecond in
  200 * Millisecond <= delay <= 799 * Millisecond /\
  (exists res, providers.MTN_process ctx req now rnd
               = (providers.Returns (Some res) None, delay)) /\
  (exists res err, providers.MTN_process_2 ctx req now rnd
                   = (providers.Returns (Some res) err, delay) /\
                   err <> Some (ctx_Err ctx)) /\
  (exists res err, providers.Airtel_process ctx req now rnd
                   = (providers.Returns (Some res) err, delay) /\
                   err <> Some (ctx_Err ctx)).
Proof.
  intros Hr Hparent ctx delay.
  assert (Hd : 200 * Millisecond <= delay <= 799 * Millisecond).
  { unfold delay, Millisecond. lia. }
  split; [exact Hd|].
  assert (Hs : providers.select_Done ctx now delay = None).
  { apply select_Done_late. intros t Ht.
    unfold ctx, doneAt, context_WithTimeout in Ht. cbn [cancelAt deadline] in Ht.
    unfold doneAt in Hparent. unfold Second, Millisecond in *.
    destruct (cancelAt parent) as [c|], (deadline parent) as [dl|];
      cbn [min_opt] in *; injection Ht as <-;
      try specialize (Hparent _ eq_refl); lia. }
  unfold providers.MTN_process, providers.MTN_process_2, providers.Airtel_process.
  cbv zeta. fold delay. rewrite Hs.
  assert (Hctx : forall text, Some (errors_New text) <> Some (ctx_Err ctx)).
  { intros text H. injection H as H.
    destruct (ctx_Err_cases ctx) as [Hc|Hc]; rewrite Hc in H; discriminate H. }
  split; [destruct (f64_lt _ _); eauto|].
  split; destruct (f64_lt _ _); eexists; eexists;
    (split; [reflexivity | first [discriminate | apply Hctx]]).
Qed.

Lemma mocks_answer_within_deadline_witness :
  let parent := context_Background in
  let req := payment "T1" "MTN" in
  let now := 1000 * Second in
  let rnd := draw 599 f64_0_05 in
  let ctx := context_WithTimeout parent now (1 * Second) in
  let delay := (providers.rand_Intn_600 rnd + 200) * Millisecond in
  (0 <= providers.rand_Intn_600 rnd < 600 /\
   (forall t, doneAt parent = Some t -> now + 800 * Millisecond <= t)) /\
  200 * Millisecond <= delay <= 799 * Millisecond /\
  (exists res, providers.MTN_process ctx req now rnd
               = (providers.Returns (Some res) None, delay)) /\
  (exists res err, providers.MTN_process_2 ctx req now rnd
                   = (providers.Returns (Some res) err, delay) /\
                   err <> Some (ctx_Err ctx)) /\
  (exists res err, providers.Airtel_process ctx req now rnd
                   = (providers.Returns (Some res) err, delay) /\
                   err <> Some (ctx_Err ctx)).
Proof.
  intros parent req now rnd ctx delay.
  assert (Hr : 0 <= providers.rand_Intn_600 rnd < 600) by (cbn; lia).
  assert (Hp : forall t, doneAt parent = Some t -> now + 800 * Millisecond <= t)
    by (intros t Ht; discriminate Ht).
  split.
  - split; [exact Hr | exact Hp].
  - exact (mocks_answer_within_deadline parent req now rnd Hr Hp).
Defined.

(** Airtel and the second revision of MTN never panic and keep error and
    status in step: the error is [nil] exactly when there is a response
    whose status is SUCCESS; a response, when there is one, names its
    provider and has status SUCCESS or FAILED.  So [IsSuccessful], which
    sees the error only, counts exactly the SUCCESS responses as
    successes. *)
Theorem mock_error_iff_not_success (ctx : Context) (req : providers.PaymentRequest)
    (now : Time) (rnd : providers.Entropy) :
  error_tracks_status (providers.Name providers.NewMTNProvider_2)
    (providers.process providers.NewMTNProvider_2 ctx req now rnd) /\
  error_tracks_status (providers.Name providers.NewAirtelProvider)
    (providers.process providers.NewAirtelProvider ctx req now rnd).
Proof.
  unfold error_tracks_status.
  cbn [providers.process providers.Name providers.NewMTNProvider_2
       providers.NewAirtelProvider].
  unfold providers.MTN_process_2, providers.Airtel_process. cbv zeta.
  destruct (providers.select_Done ctx now _) as [d|].
  - split; (eexists; eexists; split; [reflexivity|]);
      (split; [split; [discriminate | intros (r0 & H & _); discriminate H]|]);
      (split; [split; [discriminate | intros (r0 & H & _); discriminate H]|]);
      intros r0 H; discriminate H.
  - split; destruct (f64_lt _ _); (eexists; eexists; split; [reflexivity|]); cbn [fst].
    all: split;
      [ split; [ first [discriminate | intros _; eexists; split; reflexivity]
               | first [ intros _; reflexivity
                       | intros (r0 & H & Hst); injection H as <-; discriminate Hst ] ]
      | ].
    all: split;
      [ split; [ first [discriminate | intros _; eexists; split; reflexivity]
               | first [ intros _; reflexivity
                       | intros (r0 & H & Hst); injection H as <-; discriminate Hst ] ]
      | ].
    all: intros r0 H; injection H as <-; cbn; auto.
Qed.


(** ** A new request at the breaker *)

(** A request admitted as new, with a provider and an allocated breaker:
    either the breaker refuses it, or the provider is called and
    [respond] works on its outcome. *)
Lemma PayHandler_new_paths (a : Aggregator) (rs : cache.RedisStore) (r : Request)
    (req : providers.PaymentRequest) (w : World) (p : providers.PaymentProvider)
    (l : loc) (b : gobreaker.CircuitBreaker) :
  Store a = cache.RedisStore_impl rs ->
  Method r = "POST" ->
  Body r = Some req ->
  get_fault (net w) = None ->
  setnx_fault (net w) = None ->
  lookup_live (redis w) (clock w) (txn_key (providers.TransactionID req)) = None ->
  Providers a !! "MTN" = Some p ->
  Breakers a !! "MTN" = Some (Some l) ->
  heap w !! l = Some b ->
  let id := providers.TransactionID req in
  let w1 := set_redis (add_events w (gate_events id))
              (<[txn_key id := lease (clock w)]> (redis w)) in
  match snd (snd (gobreaker.beforeRequest b (clock w))) with
  | Some e =>
    PayHandler a r w =
    (Ok (error_response p e),
     set_heap (add_events w1 [starting req p; error_line p e])
       (<[l := fst (gobreaker.beforeRequest b (clock w))]> (heap w)))
  | None =>
    answered req p (after_call r req p l b w1)
      (fst (providers.process p (call_context r w) req (clock w) (rng w)))
      (fst (PayHandler a r w)) (snd (PayHandler a r w))
  end.
Proof.
  intros HS HM HB Hget Hset Hlive Hp Hbr Hh id w1.
  pose proof (PayHandler_handled a rs r req w _ _ HS HM HB
                (surjective_pairing (PayHandler a r w))) as H.
  assert (Hpair : forall out w', out = fst (PayHandler a r w) ->
                                 w' = snd (PayHandler a r w) ->
                                 PayHandler a r w = (out, w')).
  { intros out w' -> ->. apply surjective_pairing. }
  remember (fst (PayHandler a r w)) as out0 eqn:Hout.
  remember (snd (PayHandler a r w)) as w0 eqn:Hw0.
  inversion H as [Hseen | v Hn Hs Hl | e Hn Hs Hr | out w' Hs Hl Hr];
    [ destruct Hseen as [_ Hc]; congruence | congruence | congruence | ].
  fold id in Hr. fold w1 in Hr. clear H. subst out w'.
  inversion Hr as [ Hp' | p' Hp' Hb' | p' Hp' Hb' | p' l' Hp' Hb' Hh'
                  | p' l' b' e Hp' Hb' Hh' He | p' l' b' out' w'' Hp' Hb' Hh' He Ha ];
    try congruence.
  - assert (l' = l) by congruence. subst l'. cbn in Hh'. congruence.
  - assert (p' = p) by congruence. assert (l' = l) by congruence. subst p' l'.
    assert (b' = b) by (cbn in Hh'; congruence). subst b'.
    change (clock w1) with (clock w) in He. rewrite He.
    apply Hpair; [congruence|]. rewrite <- H0. reflexivity.
  - assert (p' = p) by congruence. assert (l' = l) by congruence. subst p' l'.
    assert (b' = b) by (cbn in Hh'; congruence). subst b'.
    change (clock w1) with (clock w) in He. rewrite He.
    exact Ha.
Qed.

Lemma answered_frame (req : providers.PaymentRequest) (p : providers.PaymentProvider)
    (w w' : World) (o : providers.Outcome) (out : result Response) :
  answered req p w o out w' ->
  heap w' = heap w /\ clock w' = clock w /\
  exists evs, trace w' = (trace w ++ evs)%list.
Proof.
  intros H. inversion H; subst; path_simpl;
    (split; [reflexivity|]); (split; [reflexivity|]);
    eexists; first [reflexivity | symmetry; apply app_nil_r].
Qed.

(** The breaker after a call that was admitted, and the call in the
    trace. *)
Lemma after_call_breaker (r : Request) (req : providers.PaymentRequest)
    (p : providers.PaymentProvider) (l : loc) (b : gobreaker.CircuitBreaker)
    (w : World) :
  let ctx := call_context r w in
  let out := fst (providers.process p ctx req (clock w) (rng w)) in
  let d := snd (providers.process p ctx req (clock w) (rng w)) in
  let b1 := fst (gobreaker.beforeRequest b (clock w)) in
  heap (after_call r req p l b w) !! l =
  Some (gobreaker.afterRequest b1 (gobreaker.generation b1) (success_of b1 out)
          (clock w + d)) /\
  clock (after_call r req p l b w) = clock w + d /\
  redis (after_call r req p l b w) = redis w /\
  trace (after_call r req p l b w) =
  (trace w ++ [starting req p; EvProcessPayment (providers.Name p) ctx req out])%list.
Proof.
  cbv zeta. unfold after_call. cbv zeta.
  cbn [heap clock redis trace set_heap add_events set_trace set_clock].
  split; [apply lookup_insert_eq|]. repeat split.
Qed.

(** The configuration that [newAggregator] gives its breaker. *)
Lemma settings_config (b : gobreaker.CircuitBreaker) :
  same_config breaker0 b ->
  gobreaker.maxRequests b = 1 /\
  gobreaker.interval b = 5 * Second /\
  gobreaker.timeout b = 30 * Second /\
  gobreaker.readyToTrip b = ReadyToTrip /\
  gobreaker.isSuccessful b = IsSuccessful.
Proof.
  intros (_ & -> & -> & -> & -> & ->). repeat split.
Qed.

(** ** Half-open: the trial request and the requests that meet it *)

Lemma beforeRequest_half_open_full (b : gobreaker.CircuitBreaker) (now : Time) :
  gobreaker.state b = gobreaker.StateHalfOpen ->
  gobreaker.maxRequests b <= gobreaker.Requests (gobreaker.counts b) ->
  gobreaker.beforeRequest b now = (b, (gobreaker.generation b, Some ErrTooManyRequests)).
Proof.
  intros Hs Hm. unfold gobreaker.beforeRequest, gobreaker.currentState.
  rewrite Hs, Hs. apply Z.leb_le in Hm. rewrite Hm. reflexivity.
Qed.

(** While the breaker is half-open and its trial requests are taken
    ([MaxRequests] of them are in flight), a new request is refused with
    [ErrTooManyRequests].  The handler, which only looks for
    [ErrOpenState], answers 500 Internal Server Error with the text of
    that error, not 503; the provider is not called, the breaker is
    unchanged and the lease written at the admission stays. *)
Theorem half_open_overflow_is_internal_error (a : Aggregator) (rs : cache.RedisStore)
    (r : Request) (req : providers.PaymentRequest) (w : World)
    (p : providers.PaymentProvider) (l : loc) (b : gobreaker.CircuitBreaker) :
  Store a = cache.RedisStore_impl rs ->
  Method r = "POST" ->
  Body r = Some req ->
  get_fault (net w) = None ->
  setnx_fault (net w) = None ->
  lookup_live (redis w) (clock w) (txn_key (providers.TransactionID req)) = None ->
  Providers a !! "MTN" = Some p ->
  Breakers a !! "MTN" = Some (Some l) ->
  heap w !! l = Some b ->
  gobreaker.state b = gobreaker.StateHalfOpen ->
  gobreaker.maxRequests b <= gobreaker.Requests (gobreaker.counts b) ->
  let key := txn_key (providers.TransactionID req) in
  exists w' : World,
    PayHandler a r w =
    (Ok {| StatusCode := StatusInternalServerError;
           Payload := JsonMap [("error", "Processing error: too many requests")] |}, w') /\
    trace w' =
    (trace w ++ [EvGet key; EvSetNX key cache.StatusInProgress cache.InProgressExpiry;
                 starting req p; EvLog "Provider/CB Error: too many requests"])%list /\
    heap w' = heap w /\
    clock w' = clock w /\
    redis w' = <[key := lease (clock w)]> (redis w).
Proof.
  intros HS HM HB Hget Hset Hlive Hp Hbr Hh Hst Hmax key.
  pose proof (PayHandler_new_paths a rs r req w p l b HS HM HB Hget Hset Hlive Hp Hbr Hh)
    as H.
  cbv zeta in H.
  rewrite (beforeRequest_half_open_full b (clock w) Hst Hmax) in H. cbn [fst snd] in H.
  eexists. split; [exact H|].
  unfold error_line, gate_events. cbn [is_ErrOpenState].
  cbn [trace heap clock redis set_heap set_redis add_events set_trace].
  split; [rewrite <- app_assoc; reflexivity|].
  split; [apply insert_id; exact Hh|]. split; reflexivity.
Qed.

Lemma half_open_overflow_is_internal_error_witness :
  let a := aggregator_at (Some 1%positive) in
  let req := payment "T1" "MTN" in
  let r := post context_Background req in
  let w := world_half_open in
  let p := providers.NewMTNProvider in
  let b := half_open_busy in
  let key := txn_key (providers.TransactionID req) in
  (Store a = cache.RedisStore_impl redisStore /\ Method r = "POST" /\
   Body r = Some req /\ get_fault (net w) = None /\ setnx_fault (net w) = None /\
   lookup_live (redis w) (clock w) key = None /\
   Providers a !! "MTN" = Some p /\ Breakers a !! "MTN" = Some (Some 1%positive) /\
   heap w !! 1%positive = Some b /\
   gobreaker.state b = gobreaker.StateHalfOpen /\
   gobreaker.maxRequests b <= gobreaker.Requests (gobreaker.counts b)) /\
  exists w' : World,
    PayHandler a r w =
    (Ok {| StatusCode := StatusInternalServerError;
           Payload := JsonMap [("error", "Processing error: too many requests")] |}, w') /\
    trace w' =
    (trace w ++ [EvGet key; EvSetNX key cache.StatusInProgress cache.InProgressExpiry;
                 starting req p; EvLog "Provider/CB Error: too many requests"])%list /\
    heap w' = heap w /\
    clock w' = clock w /\
    redis w' = <[key := lease (clock w)]> (redis w).
Proof.
  intros a req r w p b key.
  assert (Hmax : gobreaker.maxRequests b <= gobreaker.Requests (gobreaker.counts b))
    by (vm_compute; discriminate).
  split.
  - repeat split. exact Hmax.
  - exact (half_open_overflow_is_internal_error a redisStore r req w p 1%positive b
             eq_refl eq_refl eq_refl eq_refl eq_refl eq_refl eq_refl eq_refl
             eq_refl eq_refl Hmax).
Defined.

(** ** Half-open: the trial request after the cool-down *)

Ltac breaker_fields :=
  cbn [gobreaker.name gobreaker.maxRequests gobreaker.interval gobreaker.timeout
       gobreaker.readyToTrip gobreaker.isSuccessful gobreaker.state
       gobreaker.generation gobreaker.counts gobreaker.expiry
       gobreaker.set_dynamic gobreaker.set_counts fst snd].

(** An open breaker whose cool-down has passed lets the next request in
    as its trial. *)
Lemma beforeRequest_trial (b : gobreaker.CircuitBreaker) (now t : Time) :
  gobreaker.maxRequests b = 1 ->
  gobreaker.state b = gobreaker.StateOpen ->
  gobreaker.expiry b = Some t ->
  t < now ->
  gobreaker.beforeRequest b now =
  (gobreaker.set_dynamic b gobreaker.StateHalfOpen (u64 (gobreaker.generation b + 1))
     (gobreaker.Counts_onRequest gobreaker.Counts_clear) None,
   (u64 (gobreaker.generation b + 1), None)).
Proof.
  intros Hmax Hs He Ht. apply Z.ltb_lt in Ht.
  unfold gobreaker.beforeRequest, gobreaker.currentState.
  rewrite Hs, He. cbn [gobreaker.Before]. rewrite Ht.
  unfold gobreaker.setState. rewrite Hs.
  destruct (decide (gobreaker.StateOpen = gobreaker.StateHalfOpen)) as [Hd|_];
    [discriminate Hd|].
  unfold gobreaker.toNewGeneration. breaker_fields.
  rewrite Hmax. reflexivity.
Qed.

(** The outcome of the trial decides: a success closes the breaker and
    starts a new window, a failure opens it for another cool-down. *)
Lemma afterRequest_trial (b : gobreaker.CircuitBreaker) (g : Z) (now : Time)
    (success : bool) :
  gobreaker.maxRequests b = 1 ->
  gobreaker.interval b = 5 * Second ->
  gobreaker.timeout b = 30 * Second ->
  let b1 := gobreaker.set_dynamic b gobreaker.StateHalfOpen g
              (gobreaker.Counts_onRequest gobreaker.Counts_clear) None in
  let b2 := gobreaker.afterRequest b1 g success now in
  gobreaker.counts b2 = gobreaker.Counts_clear /\
  gobreaker.state b2 = (if success then gobreaker.StateClosed else gobreaker.StateOpen) /\
  gobreaker.expiry b2 = Some (now + (if success then 5 * Second else 30 * Second)).
Proof.
  intros Hmax Hint Hto b1 b2. subst b2 b1.
  unfold gobreaker.afterRequest, gobreaker.currentState. breaker_fields.
  rewrite Z.eqb_refl. cbn [negb].
  destruct success.
  - unfold gobreaker.onSuccess. breaker_fields. rewrite Hmax.
    change (1 <=? gobreaker.ConsecutiveSuccesses
                    (gobreaker.Counts_onSuccess
                       (gobreaker.Counts_onRequest gobreaker.Counts_clear))) with true.
    cbv iota. unfold gobreaker.setState. breaker_fields.
    destruct (decide (gobreaker.StateHalfOpen = gobreaker.StateClosed)) as [Hd|_];
      [discriminate Hd|].
    unfold gobreaker.toNewGeneration. breaker_fields. rewrite Hint.
    change (5 * Second =? 0) with false. cbv iota. repeat split.
  - unfold gobreaker.onFailure, gobreaker.setState. breaker_fields.
    destruct (decide (gobreaker.StateHalfOpen = gobreaker.StateOpen)) as [Hd|_];
      [discriminate Hd|].
    unfold gobreaker.toNewGeneration. breaker_fields. rewrite Hto. repeat split.
Qed.

(** A new request that finds the breaker of [newAggregator] open with
    its cool-down over is let through as the trial request: the provider
    is called.  If it answers without an error the handler answers 200
    and the breaker is closed again, with a new window of 5 s and nothing
    counted; if it answers with an error the handler passes the error on
    and the breaker is open for another 30 s. *)
Theorem trial_after_cool_down (a : Aggregator) (rs : cache.RedisStore)
    (r : Request) (req : providers.PaymentRequest) (w : World)
    (p : providers.PaymentProvider) (l : loc) (b : gobreaker.CircuitBreaker)
    (t : Time) (res : providers.PaymentResponse) (err : option error) (d : Duration) :
  Store a = cache.RedisStore_impl rs ->
  Method r = "POST" ->
  Body r = Some req ->
  get_fault (net w) = None ->
  setnx_fault (net w) = None ->
  lookup_live (redis w) (clock w) (txn_key (providers.TransactionID req)) = None ->
  Providers a !! "MTN" = Some p ->
  Breakers a !! "MTN" = Some (Some l) ->
  heap w !! l = Some b ->
  same_config breaker0 b ->
  gobreaker.state b = gobreaker.StateOpen ->
  gobreaker.expiry b = Some t ->
  t < clock w ->
  let ctx := context_WithTimeout (Ctx r) (clock w) (1 * Second) in
  providers.process p ctx req (clock w) (rng w) = (providers.Returns (Some res) err, d) ->
  exists (out : result Response) (w' : World) (b' : gobreaker.CircuitBreaker),
    PayHandler a r w = (out, w') /\
    EvProcessPayment (providers.Name p) ctx req (providers.Returns (Some res) err)
      ∈ trace w' /\
    heap w' !! l = Some b' /\
    gobreaker.counts b' = gobreaker.Counts_clear /\
    match err with
    | None =>
      (exists resp, out = Ok resp /\ StatusCode resp = StatusOK) /\
      gobreaker.state b' = gobreaker.StateClosed /\
      gobreaker.expiry b' = Some (clock w + d + 5 * Second)
    | Some e =>
      out = Ok (error_response p e) /\
      gobreaker.state b' = gobreaker.StateOpen /\
      gobreaker.expiry b' = Some (clock w + d + 30 * Second)
    end.
Proof.
  intros HS HM HB Hget Hset Hlive Hp Hbr Hh Hc Hst He Ht ctx Hproc.
  destruct (settings_config b Hc) as (Hmax & Hint & Hto & _ & Hok).
  pose proof (PayHandler_new_paths a rs r req w p l b HS HM HB Hget Hset Hlive Hp Hbr Hh)
    as H.
  cbv zeta in H.
  set (w1 := set_redis (add_events w (gate_events (providers.TransactionID req)))
               (<[txn_key (providers.TransactionID req) := lease (clock w)]> (redis w)))
    in *.
  rewrite (beforeRequest_trial b (clock w) t Hmax Hst He Ht) in H. cbn [fst snd] in H.
  change (call_context r w) with ctx in H. rewrite Hproc in H. cbn [fst] in H.
  destruct (answered_frame _ _ _ _ _ _ H) as (Hheap & _ & evs & Htr).
  destruct (after_call_breaker r req p l b w1) as (Hb & _ & _ & Htr1).
  cbv zeta in Hb, Htr1.
  change (clock w1) with (clock w) in Hb. change (rng w1) with (rng w) in Hb, Htr1.
  change (clock w1) with (clock w) in Htr1.
  change (call_context r w1) with ctx in Hb, Htr1.
  rewrite Hproc in Hb, Htr1. cbn [fst snd] in Hb, Htr1.
  rewrite (beforeRequest_trial b (clock w) t Hmax Hst He Ht) in Hb.
  cbn [fst gobreaker.generation gobreaker.set_dynamic success_of gobreaker.isSuccessful]
    in Hb.
  rewrite Hok in Hb.
  destruct (afterRequest_trial b (u64 (gobreaker.generation b + 1)) (clock w + d)
              (IsSuccessful err) Hmax Hint Hto) as (Hcounts & Hstate & Hexp).
  eexists. eexists. eexists.
  split; [apply surjective_pairing|].
  split; [rewrite Htr, Htr1; apply elem_of_app; left; apply elem_of_app; right; in_list|].
  split; [rewrite Hheap; exact Hb|].
  split; [exact Hcounts|].
  destruct err as [e|]; cbn [IsSuccessful is_nil] in Hstate, Hexp |- *.
  - split; [inversion H; reflexivity|]. split; [exact Hstate|].
    rewrite Hexp. f_equal; lia.
  - split; [inversion H; eexists; split; reflexivity|]. split; [exact Hstate|].
    rewrite Hexp. f_equal; lia.
Qed.

Lemma trial_after_cool_down_witness :
  let a := aggregator_at (Some 1%positive) in
  let req := payment "T1" "MTN" in
  let r := post context_Background req in
  let w := world_cooled in
  let p := providers.NewMTNProvider in
  let l := 1%positive in
  let b := tripped in
  let t := 1030 * Second in
  let res := paid_trial in
  let err := @None error in
  let d := 300 * Millisecond in
  let ctx := context_WithTimeout (Ctx r) (clock w) (1 * Second) in
  (Store a = cache.RedisStore_impl redisStore /\ Method r = "POST" /\
   Body r = Some req /\ get_fault (net w) = None /\ setnx_fault (net w) = None /\
   lookup_live (redis w) (clock w) (txn_key (providers.TransactionID req)) = None /\
   Providers a !! "MTN" = Some p /\ Breakers a !! "MTN" = Some (Some l) /\
   heap w !! l = Some b /\ same_config breaker0 b /\
   gobreaker.state b = gobreaker.StateOpen /\ gobreaker.expiry b = Some t /\
   t < clock w /\
   providers.process p ctx req (clock w) (rng w)
   = (providers.Returns (Some res) err, d)) /\
  exists (out : result Response) (w' : World) (b' : gobreaker.CircuitBreaker),
    PayHandler a r w = (out, w') /\
    EvProcessPayment (providers.Name p) ctx req (providers.Returns (Some res) err)
      ∈ trace w' /\
    heap w' !! l = Some b' /\
    gobreaker.counts b' = gobreaker.Counts_clear /\
    (exists resp, out = Ok resp /\ StatusCode resp = StatusOK) /\
    gobreaker.state b' = gobreaker.StateClosed /\
    gobreaker.expiry b' = Some (clock w + d + 5 * Second).
Proof.
  intros a req r w p l b t res err d ctx.
  assert (Hc : same_config breaker0 b) by (repeat split).
  assert (Ht : t < clock w) by (vm_compute; reflexivity).
  split.
  - repeat split; assumption.
  - exact (trial_after_cool_down a redisStore r req w p l b t res err d
             eq_refl eq_refl eq_refl eq_refl eq_refl eq_refl eq_refl eq_refl eq_refl
             Hc eq_refl eq_refl Ht eq_refl).
Defined.

(** ** A window that has run out *)

Lemma beforeRequest_rollover (b : gobreaker.CircuitBreaker) (now t : Time) :
  gobreaker.interval b = 5 * Second ->
  gobreaker.state b = gobreaker.StateClosed ->
  gobreaker.expiry b = Some t ->
  t < now ->
  gobreaker.beforeRequest b now =
  (gobreaker.set_dynamic b gobreaker.StateClosed (u64 (gobreaker.generation b + 1))
     (gobreaker.Counts_onRequest gobreaker.Counts_clear) (Some (now + 5 * Second)),
   (u64 (gobreaker.generation b + 1), None)).
Proof.
  intros Hint Hs He Ht. apply Z.ltb_lt in Ht.
  unfold gobreaker.beforeRequest, gobreaker.currentState.
  rewrite Hs, He. cbn [gobreaker.Before is_nil negb andb]. rewrite Ht.
  unfold gobreaker.toNewGeneration. breaker_fields. rewrite Hs, Hint.
  change (5 * Second =? 0) with false. cbv iota. reflexivity.
Qed.

Lemma afterRequest_first_of_window (b : gobreaker.CircuitBreaker) (g : Z)
    (e now : Time) (success : bool) :
  gobreaker.readyToTrip b = ReadyToTrip ->
  now <= e ->
  let b1 := gobreaker.set_dynamic b gobreaker.StateClosed g
              (gobreaker.Counts_onRequest gobreaker.Counts_clear) (Some e) in
  gobreaker.afterRequest b1 g success now =
  gobreaker.set_dynamic b gobreaker.StateClosed g (recorded gobreaker.Counts_clear success)
    (Some e).
Proof.
  intros Hrt Hle b1. subst b1.
  unfold gobreaker.afterRequest, gobreaker.currentState. breaker_fields.
  cbn [gobreaker.Before is_nil negb].
  assert (Hb : (e <? now) = false) by (apply Z.ltb_ge; exact Hle).
  rewrite Hb. cbn [andb]. breaker_fields. rewrite Z.eqb_refl. cbn [negb].
  unfold recorded. destruct success.
  - unfold gobreaker.onSuccess. breaker_fields. reflexivity.
  - unfold gobreaker.onFailure. breaker_fields. rewrite Hrt.
    change (ReadyToTrip (gobreaker.Counts_onFailure
                           (gobreaker.Counts_onRequest gobreaker.Counts_clear)))
      with false.
    cbv iota. reflexivity.
Qed.

(** A new request that finds the breaker of [newAggregator] closed with
    its 5 s window run out starts a new window: whatever the old window
    had counted, after the call the breaker is closed and holds this one
    request only, so a failure right after a window of failures does not
    trip it. *)
Theorem expired_window_forgets_failures (a : Aggregator) (rs : cache.RedisStore)
    (r : Request) (req : providers.PaymentRequest) (w : World)
    (p : providers.PaymentProvider) (l : loc) (b : gobreaker.CircuitBreaker)
    (t : Time) (res : option providers.PaymentResponse) (err : option error)
    (d : Duration) :
  Store a = cache.RedisStore_impl rs ->
  Method r = "POST" ->
  Body r = Some req ->
  get_fault (net w) = None ->
  setnx_fault (net w) = None ->
  lookup_live (redis w) (clock w) (txn_key (providers.TransactionID req)) = None ->
  Providers a !! "MTN" = Some p ->
  Breakers a !! "MTN" = Some (Some l) ->
  heap w !! l = Some b ->
  same_config breaker0 b ->
  gobreaker.state b = gobreaker.StateClosed ->
  gobreaker.expiry b = Some t ->
  t < clock w ->
  let ctx := context_WithTimeout (Ctx r) (clock w) (1 * Second) in
  providers.process p ctx req (clock w) (rng w) = (providers.Returns res err, d) ->
  d <= 5 * Second ->
  exists (out : result Response) (w' : World) (b' : gobreaker.CircuitBreaker),
    PayHandler a r w = (out, w') /\
    heap w' !! l = Some b' /\
    gobreaker.state b' = gobreaker.StateClosed /\
    gobreaker.expiry b' = Some (clock w + 5 * Second) /\
    gobreaker.Requests (gobreaker.counts b') = 1 /\
    gobreaker.TotalFailures (gobreaker.counts b') = (if is_nil err then 0 else 1) /\
    gobreaker.TotalSuccesses (gobreaker.counts b') = (if is_nil err then 1 else 0).
Proof.
  intros HS HM HB Hget Hset Hlive Hp Hbr Hh Hc Hst He Ht ctx Hproc Hd.
  destruct (settings_config b Hc) as (_ & Hint & _ & Hrt & Hok).
  pose proof (PayHandler_new_paths a rs r req w p l b HS HM HB Hget Hset Hlive Hp Hbr Hh)
    as H.
  cbv zeta in H.
  set (w1 := set_redis (add_events w (gate_events (providers.TransactionID req)))
               (<[txn_key (providers.TransactionID req) := lease (clock w)]> (redis w)))
    in *.
  rewrite (beforeRequest_rollover b (clock w) t Hint Hst He Ht) in H. cbn [fst snd] in H.
  destruct (answered_frame _ _ _ _ _ _ H) as (Hheap & _).
  destruct (after_call_breaker r req p l b w1) as (Hb & _).
  cbv zeta in Hb.
  change (clock w1) with (clock w) in Hb. change (rng w1) with (rng w) in Hb.
  change (call_context r w1) with ctx in Hb.
  rewrite Hproc in Hb. cbn [fst snd] in Hb.
  rewrite (beforeRequest_rollover b (clock w) t Hint Hst He Ht) in Hb.
  cbn [fst gobreaker.generation gobreaker.set_dynamic success_of gobreaker.isSuccessful]
    in Hb.
  rewrite Hok in Hb.
  rewrite (afterRequest_first_of_window b _ (clock w + 5 * Second) (clock w + d)
             (IsSuccessful err) Hrt ltac:(lia)) in Hb.
  eexists. eexists. eexists.
  split; [apply surjective_pairing|].
  split; [rewrite Hheap; exact Hb|].
  breaker_fields. split; [reflexivity|]. split; [reflexivity|].
  destruct err; cbn [IsSuccessful is_nil recorded]; repeat split.
Qed.

Lemma expired_window_forgets_failures_witness :
  let a := aggregator_2 in
  let req := payment "T1" "MTN" in
  let r := post context_Background req in
  let w := set_inputs world_stale reachable (draw 100 f64_0_05) in
  let p := providers.NewMTNProvider_2 in
  let l := 1%positive in
  let b := two_failures in
  let t := 1005 * Second in
  let res := Some {| providers.Status := "FAILED";
                     providers.ReferenceID := "N/A";
                     providers.ProviderName := "MTN_MOMO";
                     providers.IsIdempotent := false;
                     providers.Message := "Provider internal server error (simulated 500)" |} in
  let err := Some (errors_New
                     "provider failure: Provider internal server error (simulated 500)") in
  let d := 300 * Millisecond in
  let ctx := context_WithTimeout (Ctx r) (clock w) (1 * Second) in
  (Store a = cache.RedisStore_impl redisStore /\ Method r = "POST" /\
   Body r = Some req /\ get_fault (net w) = None /\ setnx_fault (net w) = None /\
   lookup_live (redis w) (clock w) (txn_key (providers.TransactionID req)) = None /\
   Providers a !! "MTN" = Some p /\ Breakers a !! "MTN" = Some (Some l) /\
   heap w !! l = Some b /\ same_config breaker0 b /\
   gobreaker.state b = gobreaker.StateClosed /\ gobreaker.expiry b = Some t /\
   t < clock w /\
   providers.process p ctx req (clock w) (rng w) = (providers.Returns res err, d) /\
   d <= 5 * Second) /\
  exists (out : result Response) (w' : World) (b' : gobreaker.CircuitBreaker),
    PayHandler a r w = (out, w') /\
    heap w' !! l = Some b' /\
    gobreaker.state b' = gobreaker.StateClosed /\
    gobreaker.expiry b' = Some (clock w + 5 * Second) /\
    gobreaker.Requests (gobreaker.counts b') = 1 /\
    gobreaker.TotalFailures (gobreaker.counts b') = (if is_nil err then 0 else 1) /\
    gobreaker.TotalSuccesses (gobreaker.counts b') = (if is_nil err then 1 else 0).
Proof.
  intros a req r w p l b t res err d ctx.
  assert (Hc : same_config breaker0 b) by (repeat split).
  assert (Ht : t < clock w) by (vm_compute; reflexivity).
  assert (Hd : d <= 5 * Second) by (vm_compute; discriminate).
  assert (Hproc : providers.process p ctx req (clock w) (rng w)
                  = (providers.Returns res err, d)) by (vm_compute; reflexivity).
  split.
  - repeat split; assumption.
  - exact (expired_window_forgets_failures a redisStore r req w p l b t res err d
             eq_refl eq_refl eq_refl eq_refl eq_refl eq_refl eq_refl eq_refl eq_refl
             Hc eq_refl eq_refl Ht Hproc Hd).
Defined.

(** ** cache/redis.go: [SetCompleted] and [CheckCompleted] *)

Lemma CheckCompleted_run (rs : cache.RedisStore) (ctx : Context) (id : string)
    (w : World) :
  cache.RedisStore_CheckCompleted rs ctx id w =
  (Ok match get_reply w (txn_key id) with
      | (_, Some redis_Nil) => (false, None)
      | (_, Some e) => (false, Some (fmt_Errorf_w "redis GET error: " e))
      | (status, None) => (String.eqb status cache.StatusCompleted, None)
      end,
   add_events w [EvGet (txn_key id)]).
Proof.
  unfold cache.RedisStore_CheckCompleted. fold (txn_key id).
  rewrite bind_run, client_Get_run.
  destruct (get_reply w (txn_key id)) as [status [e|]]; [|reflexivity].
  destruct e; reflexivity.
Qed.



(** The two readers of a record agree, and differ on a store failure:
    when the [GET] is answered, [CheckCompleted] returns [(true, nil)]
    exactly when [CheckOrSetInProgress] does, and [(false, nil)]
    otherwise -- for a missing or expired key and for an IN_PROGRESS lease
    alike; when the [GET] meets a transport error, [CheckCompleted]
    returns [false] with the error wrapped as "redis GET error: ...",
    whereas [CheckOrSetInProgress] goes on to its [SETNX]. *)
Theorem readers_agree_on_completed (rs : cache.RedisStore) (ctx : Context)
    (id : string) (w : World) :
  let checked := fst (cache.RedisStore_CheckCompleted rs ctx id w) in
  let admitted := fst (cache.RedisStore_CheckOrSetInProgress rs ctx id w) in
  snd (cache.RedisStore_CheckCompleted rs ctx id w) = add_events w [EvGet (txn_key id)] /\
  match get_fault (net w) with
  | None =>
    (checked = Ok (true, None) <-> admitted = Ok (true, None)) /\
    (checked = Ok (true, None) \/ checked = Ok (false, None)) /\
    (checked = Ok (true, None) <->
     lookup_live (redis w) (clock w) (txn_key id) = Some cache.StatusCompleted)
  | Some e =>
    admitted <> Ok (true, None) /\
    (e <> redis_Nil ->
     checked = Ok (false, Some (fmt_Errorf_w "redis GET error: " e)) /\
     Error (fmt_Errorf_w "redis GET error: " e) = "redis GET error: " +:+ Error e) /\
    (e = redis_Nil -> checked = Ok (false, None))
  end.
Proof.
  cbv zeta. rewrite CheckCompleted_run, CheckOrSetInProgress_run. cbv zeta.
  cbn [fst snd]. split; [reflexivity|].
  unfold get_reply.
  destruct (get_fault (net w)) as [e|].
  - cbn [is_nil andb].
    split.
    { destruct (setnx_fault (net w)); [cbn; discriminate|].
      destruct (lookup_live _ _ _); cbn; discriminate. }
    split.
    { intros He. destruct e; try (split; reflexivity). contradiction. }
    intros ->. reflexivity.
  - destruct (lookup_live (redis w) (clock w) (txn_key id)) as [v|].
    + cbn [is_nil andb].
      destruct (String.eqb v cache.StatusCompleted) eqn:Hv.
      * apply String.eqb_eq in Hv. subst v. cbn [fst].
        split; [split; reflexivity|]. split; [left; reflexivity|].
        split; reflexivity.
      * assert (Hne : v <> cache.StatusCompleted) by (apply String.eqb_neq; exact Hv).
        split.
        { split; [discriminate|].
          destruct (setnx_fault (net w)); cbn; discriminate. }
        split; [right; reflexivity|].
        split; [discriminate | intros H; injection H as ->; contradiction].
    + cbn [is_nil andb].
      split.
      { split; [discriminate|].
        destruct (setnx_fault (net w)); cbn; discriminate. }
      split; [right; reflexivity|].
      split; discriminate.
Qed.

(** ** A provider that returns neither a response nor an error *)

(** When the provider returns a [nil] response together with a [nil]
    error, the breaker records a success and the handler then panics on
    [res.Status] (nil pointer dereference): nothing is answered, no
    completion is recorded, and the lease written at the admission
    stays. *)
Theorem nil_response_panics (a : Aggregator) (rs : cache.RedisStore)
    (r : Request) (req : providers.PaymentRequest) (w : World)
    (p : providers.PaymentProvider) (l : loc) (b : gobreaker.CircuitBreaker)
    (d : Duration) :
  Store a = cache.RedisStore_impl rs ->
  Method r = "POST" ->
  Body r = Some req ->
  get_fault (net w) = None ->
  setnx_fault (net w) = None ->
  lookup_live (redis w) (clock w) (txn_key (providers.TransactionID req)) = None ->
  Providers a !! "MTN" = Some p ->
  Breakers a !! "MTN" = Some (Some l) ->
  heap w !! l = Some b ->
  gobreaker.isSuccessful b = IsSuccessful ->
  snd (snd (gobreaker.beforeRequest b (clock w))) = None ->
  let ctx := context_WithTimeout (Ctx r) (clock w) (1 * Second) in
  let key := txn_key (providers.TransactionID req) in
  let b1 := fst (gobreaker.beforeRequest b (clock w)) in
  providers.process p ctx req (clock w) (rng w) = (providers.Returns None None, d) ->
  exists w' : World,
    PayHandler a r w = (Panic nil_dereference, w') /\
    trace w' =
    (trace w ++ [EvGet key; EvSetNX key cache.StatusInProgress cache.InProgressExpiry;
                 starting req p;
                 EvProcessPayment (providers.Name p) ctx req
                   (providers.Returns None None)])%list /\
    heap w' !! l =
    Some (gobreaker.afterRequest b1 (gobreaker.generation b1) true (clock w + d)) /\
    redis w' = <[key := lease (clock w)]> (redis w).
Proof.
  intros HS HM HB Hget Hset Hlive Hp Hbr Hh Hok Hadm ctx key b1 Hproc.
  pose proof (PayHandler_new_paths a rs r req w p l b HS HM HB Hget Hset Hlive Hp Hbr Hh)
    as H.
  cbv zeta in H. rewrite Hadm in H.
  change (call_context r w) with ctx in H. rewrite Hproc in H. cbn [fst] in H.
  set (w1 := set_redis (add_events w (gate_events (providers.TransactionID req)))
               (<[key := lease (clock w)]> (redis w))) in *.
  destruct (after_call_breaker r req p l b w1) as (Hb & _ & Hdb & Htr).
  cbv zeta in Hb, Htr.
  change (clock w1) with (clock w) in Hb, Htr. change (rng w1) with (rng w) in Hb, Htr.
  change (call_context r w1) with ctx in Hb, Htr.
  rewrite Hproc in Hb, Htr. cbn [fst snd] in Hb, Htr. fold b1 in Hb.
  assert (Hok1 : gobreaker.isSuccessful b1 = IsSuccessful).
  { destruct (beforeRequest_config b (clock w)) as (_&_&_&_&_&Hc). fold b1 in Hc.
    congruence. }
  cbn [success_of] in Hb. rewrite Hok1 in Hb. cbn [IsSuccessful is_nil] in Hb.
  assert (Hrun : PayHandler a r w = (Panic nil_dereference, after_call r req p l b w1)).
  { inversion H as [ | | Hout Hw | | | ].
    rewrite (surjective_pairing (PayHandler a r w)), <- Hw.
    match goal with Hs : _ = snd (PayHandler a r w) |- _ => rewrite <- Hs end.
    reflexivity. }
  exists (after_call r req p l b w1).
  split; [exact Hrun|].
  split; [rewrite Htr; unfold w1, gate_events, add_events;
          cbn [trace set_redis set_trace]; rewrite <- app_assoc; reflexivity|].
  split; [exact Hb | exact Hdb].
Qed.

Lemma nil_response_panics_witness :
  let a := silent_aggregator in
  let req := payment "T1" "MTN" in
  let r := post context_Background req in
  let w := world0 in
  let p := silent in
  let l := 1%positive in
  let b := breaker0 in
  let d := 0 in
  let ctx := context_WithTimeout (Ctx r) (clock w) (1 * Second) in
  let key := txn_key (providers.TransactionID req) in
  let b1 := fst (gobreaker.beforeRequest b (clock w)) in
  (Store a = cache.RedisStore_impl redisStore /\ Method r = "POST" /\
   Body r = Some req /\ get_fault (net w) = None /\ setnx_fault (net w) = None /\
   lookup_live (redis w) (clock w) key = None /\
   Providers a !! "MTN" = Some p /\ Breakers a !! "MTN" = Some (Some l) /\
   heap w !! l = Some b /\ gobreaker.isSuccessful b = IsSuccessful /\
   snd (snd (gobreaker.beforeRequest b (clock w))) = None /\
   providers.process p ctx req (clock w) (rng w) = (providers.Returns None None, d)) /\
  exists w' : World,
    PayHandler a r w = (Panic nil_dereference, w') /\
    trace w' =
    (trace w ++ [EvGet key; EvSetNX key cache.StatusInProgress cache.InProgressExpiry;
                 starting req p;
                 EvProcessPayment (providers.Name p) ctx req
                   (providers.Returns None None)])%list /\
    heap w' !! l =
    Some (gobreaker.afterRequest b1 (gobreaker.generation b1) true (clock w + d)) /\
    redis w' = <[key := lease (clock w)]> (redis w).
Proof.
  intros a req r w p l b d ctx key b1. split.
  - repeat split.
  - exact (nil_response_panics a redisStore r req w p l b d
             eq_refl eq_refl eq_refl eq_refl eq_refl eq_refl eq_refl eq_refl eq_refl
             eq_refl eq_refl eq_refl).
Defined.

(** ** main.go, first revision *)

Lemma v1_PayHandler_run (a : v1.Aggregator) (r : Request)
    (req : providers.PaymentRequest) (w : World) (p : providers.PaymentProvider) :
  Method r = "POST" ->
  Body r = Some req ->
  v1.Providers a !! "MTN" = Some p ->
  let ctx := context_WithTimeout (Ctx r) (clock w) (1 * Second) in
  let run := providers.process p ctx req (clock w) (rng w) in
  let w1 := add_events (set_clock w (clock w + snd run))
              [starting req p; EvProcessPayment (providers.Name p) ctx req (fst run)] in
  v1.PayHandler a r w =
  match fst run with
  | providers.Returns res (Some e) =>
    (Ok {| v1.StatusCode := StatusInternalServerError;
           v1.Payload := v1.JsonMap [("error", "Processing error: " +:+ Error e)] |},
     add_events w1 [EvLog ("Provider Error: " +:+ Error e)])
  | providers.Returns res None =>
    (Ok {| v1.StatusCode := StatusOK; v1.Payload := v1.JsonResponse res |}, w1)
  | providers.Panics v => (Panic v, w1)
  end.
Proof.
  intros HM HB Hp. cbv zeta. unfold v1.PayHandler. rewrite HM, HB, Hp.
  cbn [String.eqb Ascii.eqb Bool.eqb negb].
  unfold ProcessPayment, v1.reply. run.
  destruct (providers.process p _ req (clock w) (rng w)) as [[res [e|]|v] d];
    cbn [fst snd]; run; unfold add_events, starting;
    cbn [trace set_trace set_clock clock]; rewrite <- ?app_assoc; reflexivity.
Qed.

(** The first revision of the handler calls the provider exactly once
    for every decodable POST, whatever was handled before: it issues no
    store command and leaves keyspace and breakers alone, so a repeated
    transaction id is sent to the provider again.  It answers 200 with
    the provider's response when the error is [nil] and 500 with the text
    of the error otherwise. *)
Theorem first_revision_pays_every_request (a : v1.Aggregator) (r : Request)
    (req : providers.PaymentRequest) (w : World) (p : providers.PaymentProvider) :
  Method r = "POST" ->
  Body r = Some req ->
  v1.Providers a !! "MTN" = Some p ->
  let ctx := context_WithTimeout (Ctx r) (clock w) (1 * Second) in
  let run := providers.process p ctx req (clock w) (rng w) in
  exists (out : result v1.Response) (w' : World) (evs : list Event),
    v1.PayHandler a r w = (out, w') /\
    trace w' = (trace w ++ evs)%list /\
    List.filter is_call evs = [EvProcessPayment (providers.Name p) ctx req (fst run)] /\
    (forall e, e ∈ evs -> store_key e = None) /\
    redis w' = redis w /\ heap w' = heap w /\
    clock w' = clock w + snd run /\
    match fst run with
    | providers.Returns res None =>
      out = Ok {| v1.StatusCode := StatusOK; v1.Payload := v1.JsonResponse res |}
    | providers.Returns res (Some e) =>
      out = Ok {| v1.StatusCode := StatusInternalServerError;
                  v1.Payload := v1.JsonMap [("error", "Processing error: " +:+ Error e)] |}
    | providers.Panics v => out = Panic v
    end.
Proof.
  intros HM HB Hp ctx run.
  rewrite (v1_PayHandler_run a r req w p HM HB Hp). cbv zeta. fold ctx. fold run.
  destruct (fst run) as [res [e|]|v]; eexists; eexists; eexists;
    (split; [reflexivity|]);
    unfold add_events, starting; cbn [trace redis heap clock set_trace set_clock];
    rewrite <- ?app_assoc; cbn [app];
    (split; [reflexivity|]); (split; [reflexivity|]);
    (split; [intros ev Hin; events; subst; reflexivity|]);
    repeat split.
Qed.

Lemma first_revision_pays_every_request_witness :
  let a := v1.newAggregator in
  let req := payment "T1" "MTN" in
  let r := post context_Background req in
  let w := with_record world0 "T1" (completed (999 * Second)) in
  let p := providers.NewMTNProvider in
  let ctx := context_WithTimeout (Ctx r) (clock w) (1 * Second) in
  let run := providers.process p ctx req (clock w) (rng w) in
  (Method r = "POST" /\ Body r = Some req /\ v1.Providers a !! "MTN" = Some p) /\
  exists (out : result v1.Response) (w' : World) (evs : list Event),
    v1.PayHandler a r w = (out, w') /\
    trace w' = (trace w ++ evs)%list /\
    List.filter is_call evs = [EvProcessPayment (providers.Name p) ctx req (fst run)] /\
    (forall e, e ∈ evs -> store_key e = None) /\
    redis w' = redis w /\ heap w' = heap w /\
    clock w' = clock w + snd run /\
    match fst run with
    | providers.Returns res None =>
      out = Ok {| v1.StatusCode := StatusOK; v1.Payload := v1.JsonResponse res |}
    | providers.Returns res (Some e) =>
      out = Ok {| v1.StatusCode := StatusInternalServerError;
                  v1.Payload := v1.JsonMap [("error", "Processing error: " +:+ Error e)] |}
    | providers.Panics v => out = Panic v
    end.
Proof.
  intros a req r w p ctx run. split.
  - repeat split.
  - exact (first_revision_pays_every_request a r req w p eq_refl eq_refl eq_refl).
Defined.



